(** * Audit log, security rules and notification bus of firebird-mcp

    A shallow embedding of [security-audit.js] (class [SecurityAudit]) and
    of [notification-service.js] (class [NotificationService]), and the
    properties of the audit core that were checked against them.

    Conventions of the embedding.
    - A JavaScript method that reads or writes the object's files, its
      logger or the clock is a state transformer [M A] over an explicit
      world; an exception is the [Throw] outcome, and [try]/[catch] is
      [try_catch].  [async]/[await] is sequential composition: the
      methods never run two awaits in parallel.
    - A timestamp is the instant in epoch milliseconds.  The code stores
      the text of [Date.prototype.toISOString] and compares these texts
      with [<] and [>]; on such texts the order of the strings is the
      order of the instants.
    - Strings are byte strings; [toUpperCase] is modelled on ASCII letters.
    - A file is the list of its lines.  A line of the audit log that
      [JSON.parse] accepts is a record that [logOperation] or
      [logSecurityEvent] wrote; every other line is [Malformed].
    - The file system can fail: a file may be missing, writing may be
      forbidden, and the device may take only so many further lines.
    - A subscriber of the bus is known by its identity and by whether
      its call fails; the service keeps the trace of the calls it made.
    - [JSON.stringify] and [JSON.parse] on notifications are parameters
      of the host; the module [JsonText] gives one pair of them. *)

From Stdlib Require Import ZArith Lia Ascii String.
From stdpp Require Import base option list strings gmap pretty.

Local Open Scope Z_scope.

(** ** JavaScript outcomes *)

Module Js.

Inductive Error : Type :=
| SyntaxError                 (* JSON.parse on text that is not JSON *)
| TypeError                   (* property access or call on undefined *)
| IOError (code : string)     (* an error of the fs module *)
| GenericError (msg : string) (* new Error(msg) *).

Inductive Result (A : Type) : Type :=
| Ok (a : A)
| Throw (e : Error).
Arguments Ok {A} a.
Arguments Throw {A} e.

Definition errorMessage (e : Error) : string :=
  match e with
  | SyntaxError => "Unexpected token in JSON"
  | TypeError => "Cannot read properties of undefined"
  | IOError code => code
  | GenericError msg => msg
  end.

(** Evaluation of an expression that may throw. *)
Definition rbind {A B} (r : Result A) (k : A -> Result B) : Result B :=
  match r with
  | Ok a => k a
  | Throw e => Throw e
  end.

(** [x || d] on an optional string: undefined and the empty string are falsy. *)
Definition orDefault (o : option string) (d : string) : string :=
  match o with
  | Some s => if decide (s = "") then d else s
  | None => d
  end.

(** Truthiness of an optional string. *)
Definition truthyStr (o : option string) : bool :=
  match o with
  | Some s => if decide (s = "") then false else true
  | None => false
  end.

(** Truthiness of an optional boolean ([undefined] is falsy). *)
Definition truthyBool (o : option bool) : bool :=
  match o with
  | Some b => b
  | None => false
  end.

(** Template-literal rendering of a possibly undefined string. *)
Definition show (o : option string) : string :=
  match o with
  | Some s => s
  | None => "undefined"
  end.

(** The line feed and the double quote. *)
Definition nl : string := String (ascii_of_nat 10) EmptyString.
Definition dquote : ascii := ascii_of_nat 34.

(** [s] between double quotes. *)
Definition quoted (s : string) : string :=
  String dquote (s +:+ String dquote EmptyString).

(** [String.prototype.includes]. *)
Fixpoint includes (needle hay : string) : bool :=
  if String.prefix needle hay then true
  else match hay with
       | EmptyString => false
       | String _ rest => includes needle rest
       end.

(** [s.substring(n)]. *)
Definition dropString (n : nat) (s : string) : string :=
  String.substring n (String.length s - n) s.

(** [s.split(sep)] for a separator of one character. *)
Fixpoint splitOn (sep : ascii) (s : string) : list string :=
  match s with
  | EmptyString => [EmptyString]
  | String c rest =>
      if bool_decide (c = sep) then EmptyString :: splitOn sep rest
      else match splitOn sep rest with
           | first :: others => String c first :: others
           | [] => [String c EmptyString]
           end
  end.

(** [xs.join(sep)] on strings. *)
Definition joinWith (sep : string) (xs : list string) : string := String.concat sep xs.

(** [o.includes(needle)] where [o] may be undefined: the call on
    undefined throws a TypeError. *)
Definition includesOn (o : option string) (needle : string) : Result bool :=
  match o with
  | Some s => Ok (includes needle s)
  | None => Throw TypeError
  end.

(** [xs.filter(p)] with a predicate that may throw. *)
Fixpoint filterR {A} (p : A -> Result bool) (xs : list A) : Result (list A) :=
  match xs with
  | [] => Ok []
  | x :: rest =>
      rbind (p x) (fun keep =>
      rbind (filterR p rest) (fun kept =>
      Ok (if keep then x :: kept else kept)))
  end.

Definition upperChar (c : ascii) : ascii :=
  let n := nat_of_ascii c in
  if ((97 <=? n) && (n <=? 122))%nat then ascii_of_nat (n - 32) else c.

(** [String.prototype.toUpperCase] on a text of ASCII characters
    ([isAscii]): the letters a to z are raised, and the bytes of the
    other characters are left as they are. *)
Fixpoint toUpperCase (s : string) : string :=
  match s with
  | EmptyString => EmptyString
  | String c rest => String (upperChar c) (toUpperCase rest)
  end.

(** White space as [String.prototype.trim] and the regular expression
    class [\s] see it, on ASCII: tab, line feed, vertical tab, form
    feed, carriage return and space. *)
Definition isSpace (c : ascii) : bool :=
  let n := nat_of_ascii c in
  ((9 <=? n) && (n <=? 13) || (n =? 32))%nat.

Fixpoint trimStart (s : string) : string :=
  match s with
  | String c rest => if isSpace c then trimStart rest else s
  | EmptyString => s
  end.

Definition reverseString (s : string) : string :=
  string_of_list_ascii (rev (list_ascii_of_string s)).

(** [String.prototype.trim]. *)
Definition trimString (s : string) : string :=
  reverseString (trimStart (reverseString (trimStart s))).

Fixpoint allSpace (s : string) : bool :=
  match s with
  | EmptyString => true
  | String c rest => isSpace c && allSpace rest
  end.

(** [String.prototype.trimEnd]. *)
Definition trimEnd (s : string) : string :=
  reverseString (trimStart (reverseString s)).

(** A text of ASCII characters.  On such a text the upper case of
    [toUpperCase], the white space of [isSpace] and the lengths and
    positions of a string of this model are those of JavaScript; a
    statement about a text that goes through them is made for a text
    of ASCII characters. *)
Fixpoint isAscii (s : string) : bool :=
  match s with
  | EmptyString => true
  | String c rest => (nat_of_ascii c <? 128)%nat && isAscii rest
  end.

(** Left padding of a decimal numeral with zeros. *)
Definition padStart (width : nat) (n : Z) : string :=
  let digits := pretty (Z.to_N n) in
  String.concat "" (replicate (width - String.length digits) "0") +:+ digits.

(** [new Date(t).toISOString()].  The date of the day number follows
    the proleptic Gregorian calendar; a year outside 0..9999 is
    written with a sign and six digits. *)
Definition toISOString (t : Z) : string :=
  let days := Z.div t 86400000 in
  let ms := Z.modulo t 86400000 in
  let z := days + 719468 in
  let era := Z.div z 146097 in
  let doe := z - era * 146097 in
  let yoe := Z.div (doe - Z.div doe 1460 + Z.div doe 36524 - Z.div doe 146096) 365 in
  let doy := doe - (365 * yoe + Z.div yoe 4 - Z.div yoe 100) in
  let mp := Z.div (5 * doy + 2) 153 in
  let d := doy - Z.div (153 * mp + 2) 5 + 1 in
  let m := if mp <? 10 then mp + 3 else mp - 9 in
  let y := yoe + era * 400 + (if m <=? 2 then 1 else 0) in
  let year :=
    if (0 <=? y) && (y <=? 9999) then padStart 4 y
    else (if y <? 0 then "-" else "+") +:+ padStart 6 (Z.abs y) in
  year +:+ "-" +:+ padStart 2 m +:+ "-" +:+ padStart 2 d +:+ "T"
    +:+ padStart 2 (Z.div ms 3600000) +:+ ":"
    +:+ padStart 2 (Z.modulo (Z.div ms 60000) 60) +:+ ":"
    +:+ padStart 2 (Z.modulo (Z.div ms 1000) 60) +:+ "."
    +:+ padStart 3 (Z.modulo ms 1000) +:+ "Z".

(** A JavaScript object used as a string-keyed table whose keys are
    enumerated in insertion order ([Object.entries]); the keys here are
    user names, operation tags and addresses, not array indices, which
    JavaScript would enumerate first.  [upsert k d f] is
    [if (!o[k]) o[k] = d; o[k] = f(o[k])]. *)
Fixpoint upsert {V} (k : string) (d : V) (f : V -> V)
    (o : list (string * V)) : list (string * V) :=
  match o with
  | [] => [(k, f d)]
  | (k', v) :: rest =>
      if decide (k' = k) then (k', f v) :: rest
      else (k', v) :: upsert k d f rest
  end.

(** [Array.prototype.sort] is stable; insertion into a sorted list
    after the elements that do not compare greater gives the same
    order.  [before a b] is [compare(a, b) <= 0]. *)
Fixpoint insertSorted {A} (before : A -> A -> bool) (x : A) (l : list A) : list A :=
  match l with
  | [] => [x]
  | y :: rest =>
      if before y x then y :: insertSorted before x rest
      else x :: y :: rest
  end.

Definition sort {A} (before : A -> A -> bool) (l : list A) : list A :=
  foldl (fun acc x => insertSorted before x acc) [] l.

End Js.


(** ** The audit log and the security rules: [security-audit.js] *)

Module Audit.
Import Js.

(** *** Data model *)

Inductive Severity : Type := LOW | MEDIUM | HIGH.

Global Instance Severity_eq_dec : EqDecision Severity.
Proof. solve_decision. Defined.

(** The object [auditEntry] that [logOperation] builds and writes. *)
Record AuditEntry : Type := {
  timestamp : Z;
  user : string;
  operation : string;
  resource : option string;
  query : string;
  success : bool;
  message : string;
  ip : string;
  userAgent : string
}.

(** The object [securityEntry] that [logSecurityEvent] builds and
    writes: [{timestamp, event, user, ...details}]. *)
Record SecurityEntry : Type := {
  sec_timestamp : Z;
  sec_event : string;
  sec_user : string;
  sec_message : option string;
  sec_severity : option Severity;
  sec_auditEntry : option AuditEntry
}.

(** What [JSON.parse] returns on a line of the log. *)
Inductive LogRecord : Type :=
| RAudit (e : AuditEntry)
| RSecurity (s : SecurityEntry).

(** Property access on a parsed line; a property that the object does
    not have is [undefined]. *)
Definition rec_timestamp (r : LogRecord) : Z :=
  match r with RAudit e => timestamp e | RSecurity s => sec_timestamp s end.
Definition rec_user (r : LogRecord) : string :=
  match r with RAudit e => user e | RSecurity s => sec_user s end.
Definition rec_operation (r : LogRecord) : option string :=
  match r with RAudit e => Some (operation e) | RSecurity _ => None end.
Definition rec_resource (r : LogRecord) : option string :=
  match r with RAudit e => resource e | RSecurity _ => None end.
Definition rec_success (r : LogRecord) : option bool :=
  match r with RAudit e => Some (success e) | RSecurity _ => None end.
Definition rec_ip (r : LogRecord) : option string :=
  match r with RAudit e => Some (ip e) | RSecurity _ => None end.

(** A line of the log file: the JSON text of a record, as [logOperation]
    and [logSecurityEvent] write it, or a text that [JSON.parse]
    rejects.  A line that is JSON and not such a record is not a value
    of this type. *)
Inductive Line : Type :=
| JsonLine (r : LogRecord)
| Malformed (raw : string).

Definition JSON_parse (l : Line) : Result LogRecord :=
  match l with
  | JsonLine r => Ok r
  | Malformed _ => Throw SyntaxError
  end.

(** [JSON.stringify(r) + '\n']: one line, which parses back to [r]. *)
Definition JSON_stringify (r : LogRecord) : list Line := [JsonLine r].

(** A file is the list of its newline-terminated lines. *)
Abbreviation Content := (list Line).

Definition blank (l : Line) : bool :=
  match l with
  | Malformed raw => allSpace raw
  | JsonLine _ => false
  end.

Fixpoint dropBlank (c : Content) : Content :=
  match c with
  | [] => []
  | l :: rest => if blank l then dropBlank rest else c
  end.

(** The white space that [trim] takes from the start of the first
    line that remains and from the end of the last one.  Around the
    text of a record [JSON.parse] ignores it. *)
Definition trimLineStart (l : Line) : Line :=
  match l with
  | Malformed raw => Malformed (trimStart raw)
  | JsonLine r => JsonLine r
  end.

Definition trimLineEnd (l : Line) : Line :=
  match l with
  | Malformed raw => Malformed (trimEnd raw)
  | JsonLine r => JsonLine r
  end.

Definition onFirst (f : Line -> Line) (c : Content) : Content :=
  match c with
  | [] => []
  | l :: rest => f l :: rest
  end.

(** [logData.trim()]: the white space at both ends of the text goes:
    the blank lines there, and the white space before the text of the
    first line that remains and after the text of the last one. *)
Definition trim (c : Content) : Content :=
  reverse (onFirst trimLineEnd
             (dropBlank (reverse (onFirst trimLineStart (dropBlank c))))).

(** [text.split('\n')]: the empty text is one empty line. *)
Definition split (c : Content) : list Line :=
  match c with
  | [] => [Malformed ""]
  | _ => c
  end.


Record SecurityConfig : Type := {
  sensitiveTables : list string;
  maxFailedAttempts : Z;
  lockoutDuration : Z;
  auditRetentionDays : Z;
  alertOnSuspiciousActivity : bool;
  allowedOperations : list string;
  restrictedOperations : list string
}.

(** The defaults of [loadSecurityConfig]. *)
Definition defaultSecurityConfig : SecurityConfig := {|
  sensitiveTables := ["USERS"; "PASSWORDS"; "CREDENTIALS"; "TOKENS"];
  maxFailedAttempts := 5;
  lockoutDuration := 300000;
  auditRetentionDays := 90;
  alertOnSuspiciousActivity := true;
  allowedOperations := ["SELECT"; "INSERT"; "UPDATE"; "DELETE"];
  restrictedOperations := ["DROP"; "ALTER"; "CREATE"; "GRANT"; "REVOKE"]
|}.

Definition auditLogPath : string := "./logs/audit.log".

(** *** The world: files, clock, environment and logger *)

Inductive Level : Type := LInfo | LWarn | LError.

Inductive Payload : Type :=
| PNone
| PAudit (e : AuditEntry)
| PSecurity (s : SecurityEntry)
| PError (e : Error).

Record LogMsg : Type := {
  level : Level;
  text : string;
  payload : Payload
}.

Record World : Type := {
  files : gmap string Content;  (* the files that exist *)
  writable : bool;              (* may files be opened for writing *)
  room : option nat;            (* lines the device still accepts; None: no bound *)
  clock : Z;                    (* Date.now() *)
  tzOffset : Z;                 (* Date.prototype.getTimezoneOffset(), minutes *)
  env : gmap string string;     (* process.env *)
  logged : list LogMsg          (* what the Logger received *)
}.

Definition withFiles (f : gmap string Content) (r : option nat) (w : World) : World :=
  {| files := f; writable := writable w; room := r; clock := clock w;
     tzOffset := tzOffset w; env := env w; logged := logged w |}.

Definition withLogged (l : list LogMsg) (w : World) : World :=
  {| files := files w; writable := writable w; room := room w; clock := clock w;
     tzOffset := tzOffset w; env := env w; logged := l |}.

Definition M (A : Type) : Type := World -> Result A * World.

Global Instance M_ret : MRet M := fun A a w => (Ok a, w).

Global Instance M_bind : MBind M := fun A B k c w =>
  match c w with
  | (Ok a, w') => k a w'
  | (Throw e, w') => (Throw e, w')
  end.

Definition throw {A} (e : Error) : M A := fun w => (Throw e, w).

Definition try_catch {A} (c : M A) (handler : Error -> M A) : M A := fun w =>
  match c w with
  | (Ok a, w') => (Ok a, w')
  | (Throw e, w') => handler e w'
  end.

(** [for (const x of xs) body(x)]. *)
Fixpoint forEach {A} (xs : list A) (body : A -> M unit) : M unit :=
  match xs with
  | [] => mret tt
  | x :: rest => body x ;; forEach rest body
  end.

Definition Date_now : M Z := fun w => (Ok (clock w), w).

(** [new Date(t).getHours()]: the hour of the day in local time. *)
Definition getHours (t : Z) : M Z := fun w =>
  (Ok (Z.modulo (Z.div (t - tzOffset w * 60000) 3600000) 24), w).

Definition process_env (name : string) : M (option string) := fun w =>
  (Ok (env w !! name), w).

Definition logger_log (lvl : Level) (msg : string) (p : Payload) : M unit := fun w =>
  (Ok tt, withLogged (logged w ++ [{| level := lvl; text := msg; payload := p |}]) w).

Definition logger_info := logger_log LInfo.
Definition logger_warn := logger_log LWarn.
Definition logger_error := logger_log LError.

(** [fs.readFileSync(path, 'utf8')]. *)
Definition readFileSync (path : string) : M Content := fun w =>
  match files w !! path with
  | Some c => (Ok c, w)
  | None => (Throw (IOError "ENOENT"), w)
  end.

(** Opening [path] for writing and writing [data] to it.  The open
    fails when the file may not be written.  With flag [w] the open
    empties the file, with flag [a] it keeps it.  The lines are then
    written one after the other, and the write fails when the device
    takes no more of them; what was written before stays. *)
Definition openAndWrite (truncate : bool) (path : string) (data : Content) : M unit := fun w =>
  if negb (writable w) then (Throw (IOError "EACCES"), w)
  else
    let old := if truncate then [] else default [] (files w !! path) in
    let k := match room w with
             | None => length data
             | Some r => Nat.min r (length data)
             end in
    let w' := withFiles (<[path := old ++ take k data]> (files w))
                        ((fun r => (r - k)%nat) <$> room w) w in
    if (k <? length data)%nat then (Throw (IOError "ENOSPC"), w') else (Ok tt, w').

(** [fs.appendFileSync(path, data)]. *)
Definition appendFileSync : string -> Content -> M unit := openAndWrite false.



(** *** Helpers of the class *)

(** The regular expression of [sanitizeQuery] matches the word
    PASSWORD in any case, then white space, then a single or double
    quote, then the characters up to the next quote, and that quote.
    [matchPassword s] is the length of its match at the start of [s]. *)
Definition isQuote (c : ascii) : bool :=
  let n := nat_of_ascii c in ((n =? 39) || (n =? 34))%nat.

Fixpoint countSpaces (s : string) : nat :=
  match s with
  | String c rest => if isSpace c then S (countSpaces rest) else 0%nat
  | EmptyString => 0%nat
  end.

Fixpoint untilQuote (s : string) : option nat :=
  match s with
  | String c rest => if isQuote c then Some 1%nat else S <$> untilQuote rest
  | EmptyString => None
  end.

Definition matchPassword (s : string) : option nat :=
  if String.prefix "PASSWORD" (toUpperCase s) then
    let afterWord := dropString 8 s in
    let spaces := countSpaces afterWord in
    if (spaces =? 0)%nat then None
    else match dropString spaces afterWord with
         | String q rest =>
             if isQuote q then (fun m => 8 + spaces + 1 + m)%nat <$> untilQuote rest
             else None
         | EmptyString => None
         end
  else None.

(** The global replacement of the matches by the masked text;
    [skip] characters of a match are still to be passed over. *)
Fixpoint replacePasswords (skip : nat) (s : string) : string :=
  match s with
  | EmptyString => EmptyString
  | String c rest =>
      match skip with
      | S k => replacePasswords k rest
      | O =>
          match matchPassword s with
          | Some len => "PASSWORD '***'" +:+ replacePasswords (len - 1) rest
          | None => String c (replacePasswords 0 rest)
          end
      end
  end.

(** [sanitizeQuery]: the password literals of the query are masked.
    The white space that the regular expression passes over after the
    word is ASCII white space ([isSpace]), as it is in a query of ASCII
    characters. *)
Definition sanitizeQuery (query : option string) : string :=
  if truthyStr query then replacePasswords 0 (default "" query) else "".

Definition getClientIP : M string :=
  v ← process_env "CLIENT_IP"; mret (orDefault v "127.0.0.1").

Definition getUserAgent : M string :=
  v ← process_env "USER_AGENT"; mret (orDefault v "Firebird-MCP-Server").

(** The [details] that [checkSuspiciousActivity] passes. *)
Record Details : Type := {
  d_message : option string;
  d_severity : option Severity;
  d_auditEntry : option AuditEntry
}.

Definition logSecurityEvent (event : string) (user : string) (details : Details) : M unit :=
  now ← Date_now;
  let securityEntry := {|
    sec_timestamp := now;
    sec_event := event;
    sec_user := user;
    sec_message := d_message details;
    sec_severity := d_severity details;
    sec_auditEntry := d_auditEntry details
  |} in
  logger_warn ("Evento de segurança: " +:+ event) (PSecurity securityEntry);;
  try_catch
    (appendFileSync auditLogPath (JSON_stringify (RSecurity securityEntry)))
    (fun error => logger_error "Erro ao registrar evento de segurança:" (PError error)).

(** *** Recent history *)

(** The body of the loop of [getRecentFailedAttempts] on one line. *)
Definition countFailedAttempt (user : string) (cutoffTime : Z)
    (failedAttempts : nat) (line : Line) : nat :=
  match
    rbind (JSON_parse line) (fun entry =>
      if decide (rec_user entry = user) then
        rbind (includesOn (rec_operation entry) "LOGIN") (fun isLogin =>
          Ok (isLogin && negb (truthyBool (rec_success entry))
                      && (cutoffTime <? rec_timestamp entry)))
      else Ok false)
  with
  | Ok true => S failedAttempts
  | Ok false => failedAttempts
  | Throw _ => failedAttempts (* Ignorar linhas malformadas *)
  end.

Definition getRecentFailedAttempts (user : string) (minutes : Z) : M nat :=
  try_catch
    (now ← Date_now;
     let cutoffTime := now - minutes * 60 * 1000 in
     logData ← readFileSync auditLogPath;
     let lines := split (trim logData) in
     mret (foldl (countFailedAttempt user cutoffTime) 0%nat lines))
    (fun error =>
       logger_error "Erro ao verificar tentativas falhadas:" (PError error);;
       mret 0%nat).

(** The body of the loop of [getRecentOperations] on one line. *)
Definition collectOperation (user : string) (cutoffTime : Z)
    (operations : list LogRecord) (line : Line) : list LogRecord :=
  match JSON_parse line with
  | Ok entry =>
      if bool_decide (rec_user entry = user) && (cutoffTime <? rec_timestamp entry)
      then operations ++ [entry]
      else operations
  | Throw _ => operations (* Ignorar linhas malformadas *)
  end.

Definition getRecentOperations (user : string) (minutes : Z) : M (list LogRecord) :=
  try_catch
    (now ← Date_now;
     let cutoffTime := now - minutes * 60 * 1000 in
     logData ← readFileSync auditLogPath;
     let lines := split (trim logData) in
     mret (foldl (collectOperation user cutoffTime) [] lines))
    (fun error =>
       logger_error "Erro ao obter operações recentes:" (PError error);;
       mret []).

(** *** The rules on one entry *)

(** An element of the array [suspiciousActivities]. *)
Record Activity : Type := {
  act_type : string;
  act_message : string;
  act_severity : Severity
}.

Definition checkSuspiciousActivity (cfg : SecurityConfig) (auditEntry : AuditEntry) : M unit :=
  let suspiciousActivities : list Activity := [] in
  (* Verificar múltiplas falhas de autenticação *)
  suspiciousActivities ←
    (if negb (success auditEntry) && includes "LOGIN" (operation auditEntry) then
       failedAttempts ← getRecentFailedAttempts (user auditEntry) 5;
       mret (if maxFailedAttempts cfg <=? Z.of_nat failedAttempts then
               suspiciousActivities ++ [{|
                 act_type := "MULTIPLE_FAILED_LOGINS";
                 act_message := "Múltiplas tentativas de login falhadas para usuário "
                                +:+ user auditEntry;
                 act_severity := HIGH |}]
             else suspiciousActivities)
     else mret suspiciousActivities);
  (* Verificar acesso a tabelas sensíveis *)
  let suspiciousActivities :=
    if existsb (fun table =>
                  truthyStr (resource auditEntry)
                  && includes table (toUpperCase (default "" (resource auditEntry))))
               (sensitiveTables cfg)
    then suspiciousActivities ++ [{|
           act_type := "SENSITIVE_TABLE_ACCESS";
           act_message := "Acesso a tabela sensível: " +:+ show (resource auditEntry);
           act_severity := MEDIUM |}]
    else suspiciousActivities in
  (* Verificar operações em horário não usual *)
  hour ← getHours (timestamp auditEntry);
  let suspiciousActivities :=
    if (hour <? 6) || (22 <? hour)
    then suspiciousActivities ++ [{|
           act_type := "UNUSUAL_TIME_ACCESS";
           act_message := "Acesso em horário não usual: " +:+ toISOString (timestamp auditEntry);
           act_severity := LOW |}]
    else suspiciousActivities in
  (* Verificar múltiplas operações em sequência *)
  recentOperations ← getRecentOperations (user auditEntry) 10;
  let suspiciousActivities :=
    if (50 <? length recentOperations)%nat
    then suspiciousActivities ++ [{|
           act_type := "HIGH_FREQUENCY_OPERATIONS";
           act_message := "Alto volume de operações para usuário " +:+ user auditEntry;
           act_severity := MEDIUM |}]
    else suspiciousActivities in
  (* Log de atividades suspeitas *)
  forEach suspiciousActivities (fun activity =>
    logSecurityEvent (act_type activity) (user auditEntry) {|
      d_message := Some (act_message activity);
      d_severity := Some (act_severity activity);
      d_auditEntry := Some auditEntry |}).

(** *** Recording an operation *)

Record OperationResult : Type := {
  res_success : bool;
  res_message : string
}.

(** The argument of [logOperation]; [od_timestamp] is optional. *)
Record OperationData : Type := {
  od_user : string;
  od_operation : string;
  od_resource : option string;
  od_query : option string;
  od_result : OperationResult;
  od_timestamp : option Z
}.

Definition logOperation (cfg : SecurityConfig) (operationData : OperationData) : M unit :=
  now ← Date_now;
  clientIP ← getClientIP;
  agent ← getUserAgent;
  let auditEntry := {|
    timestamp := default now (od_timestamp operationData);
    user := od_user operationData;
    operation := od_operation operationData;
    resource := od_resource operationData;
    query := sanitizeQuery (od_query operationData);
    success := res_success (od_result operationData);
    message := res_message (od_result operationData);
    ip := clientIP;
    userAgent := agent
  |} in
  try_catch
    ((* Escrever no arquivo de auditoria *)
     appendFileSync auditLogPath (JSON_stringify (RAudit auditEntry));;
     (* Log no sistema de logging *)
     (if res_success (od_result operationData)
      then logger_info ("Operação auditada: " +:+ od_operation operationData)
                       (PAudit auditEntry)
      else logger_warn ("Operação auditada (falha): " +:+ od_operation operationData)
                       (PAudit auditEntry));;
     (* Verificar atividades suspeitas *)
     checkSuspiciousActivity cfg auditEntry)
    (fun error =>
       logger_error "Erro ao registrar operação de auditoria:" (PError error)).

(** *** Retention *)



(** *** The batch scan *)

(** The body of the first loop of [detectSuspiciousActivity]. *)
Definition collectRecent (cutoffTime : Z)
    (recentEntries : list LogRecord) (line : Line) : list LogRecord :=
  match JSON_parse line with
  | Ok entry =>
      if cutoffTime <? rec_timestamp entry then recentEntries ++ [entry]
      else recentEntries
  | Throw _ => recentEntries (* Ignorar linhas malformadas *)
  end.

Definition groupBy (key : LogRecord -> string) (entries : list LogRecord)
    : list (string * list LogRecord) :=
  foldl (fun groups entry => upsert (key entry) [] (fun g => g ++ [entry]) groups)
        [] entries.

(** The callback on one user of [userActivity]; the filter throws on
    an activity without [operation] whose [success] is falsy. *)
Definition checkUser (suspiciousActivities : list Activity)
    (group : string * list LogRecord) : Result (list Activity) :=
  let '(user, activities) := group in
  let suspiciousActivities :=
    if (100 <? length activities)%nat
    then suspiciousActivities ++ [{|
           act_type := "HIGH_FREQUENCY_USER";
           act_message := "Usuário " +:+ user +:+ " executou "
                          +:+ pretty (length activities) +:+ " operações em 24h";
           act_severity := MEDIUM |}]
    else suspiciousActivities in
  rbind (filterR (fun a =>
                    if negb (truthyBool (rec_success a))
                    then includesOn (rec_operation a) "LOGIN"
                    else Ok false) activities) (fun failedLogins =>
  Ok (if (10 <? length failedLogins)%nat
      then suspiciousActivities ++ [{|
             act_type := "MULTIPLE_FAILED_LOGINS";
             act_message := "Usuário " +:+ user +:+ " teve "
                            +:+ pretty (length failedLogins)
                            +:+ " tentativas de login falhadas";
             act_severity := HIGH |}]
      else suspiciousActivities)).

(** The callback on one address of [ipActivity]. *)
Definition checkIp (suspiciousActivities : list Activity)
    (group : string * list LogRecord) : list Activity :=
  let '(ip, activities) := group in
  if (200 <? length activities)%nat
  then suspiciousActivities ++ [{|
         act_type := "HIGH_FREQUENCY_IP";
         act_message := "IP " +:+ ip +:+ " executou "
                        +:+ pretty (length activities) +:+ " operações em 24h";
         act_severity := MEDIUM |}]
  else suspiciousActivities.

(** [forEach] with a callback that may throw. *)
Fixpoint foldR {A B} (f : A -> B -> Result A) (a : A) (xs : list B) : Result A :=
  match xs with
  | [] => Ok a
  | x :: rest => rbind (f a x) (fun a' => foldR f a' rest)
  end.

Definition liftR {A} (r : Result A) : M A := fun w => (r, w).

Definition detectSuspiciousActivity : M (list Activity) :=
  try_catch
    (logData ← readFileSync auditLogPath;
     let lines := split (trim logData) in
     (* Analisar últimas 24 horas *)
     now ← Date_now;
     let cutoffTime := now - 24 * 60 * 60 * 1000 in
     let recentEntries := foldl (collectRecent cutoffTime) [] lines in
     (* Detectar padrões suspeitos *)
     let userActivity := groupBy rec_user recentEntries in
     let ipActivity := groupBy (fun entry => show (rec_ip entry)) recentEntries in
     suspiciousActivities ← liftR (foldR checkUser [] userActivity);
     mret (foldl checkIp suspiciousActivities ipActivity))
    (fun error =>
       logger_error "Erro ao detectar atividades suspeitas:" (PError error);;
       mret []).

(** *** Reports *)

(** The argument of [generateAuditReport]; every property is optional. *)
Record ReportOptions : Type := {
  startDate : option Z;
  endDate : option Z;
  opt_user : option string;
  opt_operation : option string;
  opt_success : option bool
}.

(** A value of the table [userStats]. *)
Record UserStats : Type := {
  st_total : nat;
  st_success : nat;
  st_failed : nat
}.

Definition countEntry (entry : LogRecord) (stats : UserStats) : UserStats :=
  if truthyBool (rec_success entry)
  then {| st_total := S (st_total stats); st_success := S (st_success stats);
          st_failed := st_failed stats |}
  else {| st_total := S (st_total stats); st_success := st_success stats;
          st_failed := S (st_failed stats) |}.

(** A date of the options inside a template literal. *)
Definition showDate (d : option Z) : string :=
  show (toISOString <$> d).

(** The filters of [generateAuditReport] on one parsed line: false
    where the loop does [continue]. *)
Definition passesFilters (startDate endDate : Z) (user operation : option string)
    (success : option bool) (entry : LogRecord) : bool :=
  if (rec_timestamp entry <? startDate) || (endDate <? rec_timestamp entry) then false
  else if truthyStr user && negb (bool_decide (Some (rec_user entry) = user)) then false
  else if truthyStr operation && negb (bool_decide (rec_operation entry = operation)) then false
  else if bool_decide (success ≠ None) && negb (bool_decide (rec_success entry = success))
  then false
  else true.

Definition collectFiltered (startDate endDate : Z) (user operation : option string)
    (success : option bool) (filteredEntries : list LogRecord) (line : Line)
    : list LogRecord :=
  match JSON_parse line with
  | Ok entry =>
      if passesFilters startDate endDate user operation success entry
      then filteredEntries ++ [entry]
      else filteredEntries
  | Throw _ => filteredEntries (* Ignorar linhas malformadas *)
  end.

Section Report.

(** [((part / whole) * 100).toFixed(2)], which the host computes in
    binary floating point. *)
Variable toFixed2 : nat -> nat -> string.

Definition formatAuditReport (entries : list LogRecord) (options : ReportOptions)
    : string :=
  let report := "## Relatório de Auditoria" +:+ nl +:+ nl in
  let report := report +:+ "**Período:** " +:+ showDate (startDate options)
                +:+ " até " +:+ showDate (endDate options) +:+ nl in
  let report := report +:+ "**Total de operações:** " +:+ pretty (length entries)
                +:+ nl +:+ nl in
  if (length entries =? 0)%nat then
    report +:+ "Nenhuma operação encontrada no período especificado."
  else
    (* Estatísticas por usuário e por operação *)
    let userStats :=
      foldl (fun stats entry =>
               upsert (rec_user entry)
                      {| st_total := 0; st_success := 0; st_failed := 0 |}
                      (countEntry entry) stats) [] entries in
    let operationStats :=
      foldl (fun stats entry => upsert (show (rec_operation entry)) 0%nat S stats)
            [] entries in
    let successCount :=
      length (List.filter (fun entry => truthyBool (rec_success entry)) entries) in
    (* Resumo *)
    let report := report +:+ "### Resumo" +:+ nl in
    let report := report +:+ "- **Operações bem-sucedidas:** " +:+ pretty successCount
                  +:+ nl in
    let report := report +:+ "- **Operações falhadas:** "
                  +:+ pretty (length entries - successCount)%nat +:+ nl in
    let report := report +:+ "- **Taxa de sucesso:** "
                  +:+ toFixed2 successCount (length entries) +:+ "%" +:+ nl +:+ nl in
    (* Top usuários *)
    let report := report +:+ "### Top Usuários" +:+ nl in
    let report := report +:+ "| Usuário | Total | Sucessos | Falhas | Taxa Sucesso |"
                  +:+ nl in
    let report := report +:+ "|---------|-------|----------|--------|-------------|"
                  +:+ nl in
    let report :=
      foldl (fun report '(user, stats) =>
               let successRate := toFixed2 (st_success stats) (st_total stats) in
               report +:+ "| " +:+ user +:+ " | " +:+ pretty (st_total stats)
               +:+ " | " +:+ pretty (st_success stats) +:+ " | "
               +:+ pretty (st_failed stats) +:+ " | " +:+ successRate +:+ "% |" +:+ nl)
            report
            (take 10 (sort (fun a b => (st_total (snd b) <=? st_total (snd a))%nat)
                           userStats)) in
    let report := report +:+ nl +:+ "### Top Operações" +:+ nl in
    let report := report +:+ "| Operação | Quantidade |" +:+ nl in
    let report := report +:+ "|----------|------------|" +:+ nl in
    let report :=
      foldl (fun report '(operation, count) =>
               report +:+ "| " +:+ operation +:+ " | " +:+ pretty count +:+ " |" +:+ nl)
            report
            (take 10 (sort (fun a b => (snd b <=? snd a)%nat) operationStats)) in
    (* Operações recentes *)
    let report := report +:+ nl +:+ "### Operações Recentes" +:+ nl in
    let report := report +:+ "| Timestamp | Usuário | Operação | Recurso | Sucesso |"
                  +:+ nl in
    let report := report +:+ "|-----------|---------|----------|---------|----------|"
                  +:+ nl in
    foldl (fun report entry =>
             let success := if truthyBool (rec_success entry) then "✅" else "❌" in
             report +:+ "| " +:+ toISOString (rec_timestamp entry) +:+ " | "
             +:+ rec_user entry +:+ " | " +:+ show (rec_operation entry) +:+ " | "
             +:+ orDefault (rec_resource entry) "N/A" +:+ " | " +:+ success +:+ " |"
             +:+ nl)
          report
          (take 20 (sort (fun a b => rec_timestamp b <=? rec_timestamp a) entries)).

Definition generateAuditReport (options : ReportOptions) : M string :=
  now ← Date_now;
  let startDate := default (now - 24 * 60 * 60 * 1000) (startDate options) in
  let endDate := default now (endDate options) in
  let user := opt_user options in
  let operation := opt_operation options in
  let success := opt_success options in
  try_catch
    (logData ← readFileSync auditLogPath;
     let lines := split (trim logData) in
     let filteredEntries :=
       foldl (collectFiltered startDate endDate user operation success) [] lines in
     mret (formatAuditReport filteredEntries options))
    (fun error =>
       logger_error "Erro ao gerar relatório de auditoria:" (PError error);;
       throw (GenericError ("Erro ao gerar relatório: " +:+ errorMessage error))).

End Report.

End Audit.

(** ** The notification bus: [notification-service.js] *)

Module Notify.
Import Js.

(** *** JavaScript values that JSON can carry *)

Local Unset Elimination Schemes.

Inductive Json : Type :=
| JNull
| JBool (b : bool)
| JNum (n : Z)
| JStr (s : string)
| JArr (items : list Json)
| JObj (props : list (string * Json)).

Local Set Elimination Schemes.

(** An object: its properties in insertion order, each key once. *)
Abbreviation Obj := (list (string * Json)).

(** [o[k]]; None is undefined. *)
Fixpoint getProp (o : Obj) (k : string) : option Json :=
  match o with
  | [] => None
  | (k', v) :: rest => if decide (k' = k) then Some v else getProp rest k
  end.

(** [o[k] = v]. *)
Fixpoint setProp (o : Obj) (k : string) (v : Json) : Obj :=
  match o with
  | [] => [(k, v)]
  | (k', v') :: rest =>
      if decide (k' = k) then (k', v) :: rest else (k', v') :: setProp rest k v
  end.

(** Truthiness of [o[k]]. *)
Definition truthy (v : option Json) : bool :=
  match v with
  | None | Some JNull | Some (JBool false) | Some (JNum 0) => false
  | Some (JStr s) => if decide (s = "") then false else true
  | Some _ => true
  end.

(** *** The service *)

(** A subscriber: [hid] is the identity of the function object,
    [fails n] tells whether the call on [n] throws or rejects. *)
Record Handler : Type := {
  hid : nat;
  fails : Obj -> bool
}.

Inductive Level : Type := LInfo | LWarn | LError.

Record LogMsg : Type := {
  level : Level;
  text : string
}.

Record Service : Type := {
  notifications : list Obj;                (* this.notifications *)
  subscribers : gmap string (list Handler);(* this.subscribers *)
  notificationLog : list Obj;              (* the lines of ./logs/notifications.log *)
  logWritable : bool;                      (* may that file be appended to *)
  clock : Z;                               (* Date.now() *)
  randoms : nat -> string;                 (* the draws of Math.random, as base-36 text *)
  drawn : nat;                             (* how many were drawn *)
  calls : list (nat * Obj);                (* the calls of subscribers, oldest first *)
  logged : list LogMsg                     (* what the Logger received *)
}.

Definition M (A : Type) : Type := Service -> Result A * Service.

Global Instance M_ret : MRet M := fun A a s => (Ok a, s).

Global Instance M_bind : MBind M := fun A B k c s =>
  match c s with
  | (Ok a, s') => k a s'
  | (Throw e, s') => (Throw e, s')
  end.

Definition throw {A} (e : Error) : M A := fun s => (Throw e, s).

Definition liftR {A} (r : Result A) : M A := fun s => (r, s).

Definition try_catch {A} (c : M A) (handler : Error -> M A) : M A := fun s =>
  match c s with
  | (Ok a, s') => (Ok a, s')
  | (Throw e, s') => handler e s'
  end.

Fixpoint forEach {A} (xs : list A) (body : A -> M unit) : M unit :=
  match xs with
  | [] => mret tt
  | x :: rest => body x ;; forEach rest body
  end.

Definition modify (f : Service -> Service) : M unit := fun s => (Ok tt, f s).

Definition logger_log (lvl : Level) (msg : string) : M unit :=
  modify (fun s =>
    {| notifications := notifications s; subscribers := subscribers s;
       notificationLog := notificationLog s; logWritable := logWritable s;
       clock := clock s; randoms := randoms s; drawn := drawn s;
       calls := calls s;
       logged := logged s ++ [{| level := lvl; text := msg |}] |}).

Definition logger_info := logger_log LInfo.
Definition logger_warn := logger_log LWarn.
Definition logger_error := logger_log LError.

Definition Date_now : M Z := fun s => (Ok (clock s), s).

(** [this.notifications.push(n)]. *)
Definition pushNotification (n : Obj) : M unit :=
  modify (fun s =>
    {| notifications := notifications s ++ [n]; subscribers := subscribers s;
       notificationLog := notificationLog s; logWritable := logWritable s;
       clock := clock s; randoms := randoms s; drawn := drawn s;
       calls := calls s; logged := logged s |}).

Definition setSubscribers (m : gmap string (list Handler)) : M unit :=
  modify (fun s =>
    {| notifications := notifications s; subscribers := m;
       notificationLog := notificationLog s; logWritable := logWritable s;
       clock := clock s; randoms := randoms s; drawn := drawn s;
       calls := calls s; logged := logged s |}).

Definition getSubscribers : M (gmap string (list Handler)) := fun s =>
  (Ok (subscribers s), s).

(** [fs.appendFileSync(this.notificationLogPath, line)]. *)
Definition appendFileSync (line : Obj) : M unit := fun s =>
  if logWritable s then
    (Ok tt,
     {| notifications := notifications s; subscribers := subscribers s;
        notificationLog := notificationLog s ++ [line]; logWritable := logWritable s;
        clock := clock s; randoms := randoms s; drawn := drawn s;
        calls := calls s; logged := logged s |})
  else (Throw (IOError "EACCES"), s).

(** The call [callback(notification)], awaited. *)
Definition call (callback : Handler) (notification : Obj) : M unit := fun s =>
  let s' :=
    {| notifications := notifications s; subscribers := subscribers s;
       notificationLog := notificationLog s; logWritable := logWritable s;
       clock := clock s; randoms := randoms s; drawn := drawn s;
       calls := calls s ++ [(hid callback, notification)]; logged := logged s |} in
  if fails callback notification
  then (Throw (GenericError "subscriber failed"), s')
  else (Ok tt, s').

(** [notif_${Date.now()}_${Math.random().toString(36).substr(2, 9)}]. *)
Definition generateNotificationId : M string := fun s =>
  (Ok ("notif_" +:+ pretty (clock s) +:+ "_" +:+ randoms s (drawn s)),
   {| notifications := notifications s; subscribers := subscribers s;
      notificationLog := notificationLog s; logWritable := logWritable s;
      clock := clock s; randoms := randoms s; drawn := S (drawn s);
      calls := calls s; logged := logged s |}).

(** The type of a notification as a key of the map of subscribers,
    which is keyed by strings; a notification whose type is not a
    string finds no list there. *)
Definition typeOf (notification : Obj) : option string :=
  match getProp notification "type" with
  | Some (JStr t) => Some t
  | _ => None
  end.

Definition subscribe (eventType : string) (callback : Handler) : M unit :=
  subs ← getSubscribers;
  let subs := if bool_decide (is_Some (subs !! eventType)) then subs
              else <[eventType := []]> subs in
  setSubscribers (<[eventType := default [] (subs !! eventType) ++ [callback]]> subs);;
  logger_info ("Subscriber adicionado para evento: " +:+ eventType).

(** [callbacks.indexOf(callback)]: the first position of the same function. *)
Fixpoint indexOf (callbacks : list Handler) (callback : Handler) : option nat :=
  match callbacks with
  | [] => None
  | c :: rest =>
      if decide (hid c = hid callback) then Some 0%nat
      else S <$> indexOf rest callback
  end.

Definition unsubscribe (eventType : string) (callback : Handler) : M unit :=
  subs ← getSubscribers;
  match subs !! eventType with
  | Some callbacks =>
      match indexOf callbacks callback with
      | Some index =>
          setSubscribers (<[eventType := delete index callbacks]> subs);;
          logger_info ("Subscriber removido para evento: " +:+ eventType)
      | None => mret tt
      end
  | None => mret tt
  end.

Definition notifySubscribers (notification : Obj) : M unit :=
  let eventType := typeOf notification in
  subs ← getSubscribers;
  match eventType ≫= (subs !!.) with
  | Some callbacks =>
      forEach callbacks (fun callback =>
        try_catch (call callback notification)
          (fun error =>
             logger_error ("Erro ao notificar subscriber para "
                           +:+ show eventType +:+ ":")))
  | None => mret tt
  end;;
  (* Notificar subscribers de eventos gerais *)
  subs ← getSubscribers;
  match subs !! "*" with
  | Some callbacks =>
      forEach callbacks (fun callback =>
        try_catch (call callback notification)
          (fun error => logger_error "Erro ao notificar subscriber geral:"))
  | None => mret tt
  end.

Definition logNotification (notification : Obj) : M unit :=
  try_catch
    (let logEntry :=
       omap (fun k => (k,.) <$> getProp notification k)
            ["timestamp"; "type"; "message"; "details"] in
     appendFileSync logEntry)
    (fun error => logger_error "Erro ao registrar notificação no log:").

Definition sendNotification (type message : string) (details : Obj) : M Obj :=
  id ← generateNotificationId;
  now ← Date_now;
  let notification := [
    ("id", JStr id);
    ("type", JStr type);
    ("message", JStr message);
    ("details", JObj details);
    ("timestamp", JStr (toISOString now));
    ("read", JBool false)
  ] in
  try_catch
    ((* Adicionar à lista de notificações *)
     pushNotification notification;;
     (* Log da notificação *)
     logNotification notification;;
     (* Notificar subscribers *)
     notifySubscribers notification;;
     (* Log no sistema *)
     logger_info ("Notificação enviada: " +:+ type);;
     mret notification)
    (fun error =>
       logger_error "Erro ao enviar notificação:";;
       throw error).

(** *** Export and import *)

(** [v[k]] on a value of any kind: null has no properties, and the
    required fields are undefined on everything that is not an object. *)
Definition propOf (v : Json) (k : string) : Result (option Json) :=
  match v with
  | JNull => Throw TypeError
  | JObj props => Ok (getProp props k)
  | _ => Ok None
  end.

Fixpoint checkFields (notification : Json) (fields : list string) : M bool :=
  match fields with
  | [] => mret true
  | field :: rest =>
      v ← liftR (propOf notification field);
      if negb (truthy v) then
        logger_warn ("Notificação inválida: campo " +:+ field +:+ " ausente");;
        mret false
      else checkFields notification rest
  end.

Definition validateNotification (notification : Json) : M bool :=
  let requiredFields := ["type"; "message"; "timestamp"] in
  checkFields notification requiredFields.

(** The callback of the loop of [importNotifications]. *)
Definition importOne (addedCount : nat) (notification : Json) : M nat :=
  valid ← validateNotification notification;
  if (valid : bool) then
    (* Gerar novo ID para evitar conflitos *)
    id ← generateNotificationId;
    match notification with
    | JObj props =>
        pushNotification (setProp props "id" (JStr id));;
        mret (S addedCount)
    | _ => mret addedCount (* only an object has the required fields *)
    end
  else mret addedCount.

Fixpoint foldM {A B} (f : A -> B -> M A) (a : A) (xs : list B) : M A :=
  match xs with
  | [] => mret a
  | x :: rest => a' ← f a x; foldM f a' rest
  end.

(** *** CSV *)

(** [String(v)] as [Array.prototype.join] and template literals apply
    it; inside [join], null and undefined give the empty text. *)
Fixpoint toText (v : Json) : string :=
  match v with
  | JNull => "null"
  | JBool true => "true"
  | JBool false => "false"
  | JNum n => pretty n
  | JStr s => s
  | JArr items =>
      joinWith "," (map (fun item => match item with JNull => "" | _ => toText item end) items)
  | JObj _ => "[object Object]"
  end.

Definition cell (v : option Json) : string :=
  match v with
  | None | Some JNull => ""
  | Some x => toText x
  end.

(** [s.replace(/x/g, y)] for a pattern [x] of one quote or of two. *)
Fixpoint doubleQuotes (s : string) : string :=
  match s with
  | EmptyString => EmptyString
  | String c rest =>
      if bool_decide (c = dquote) then String dquote (String dquote (doubleQuotes rest))
      else String c (doubleQuotes rest)
  end.

Fixpoint halveQuotes (s : string) : string :=
  match s with
  | String c (String c' rest as tail) =>
      if bool_decide (c = dquote) && bool_decide (c' = dquote)
      then String dquote (halveQuotes rest)
      else String c (halveQuotes tail)
  | _ => s
  end.

(** The removal of a quote at the start and of a quote at the end. *)
Definition stripQuotes (s : string) : string :=
  let body := match s with
              | String c rest => if bool_decide (c = dquote) then rest else s
              | EmptyString => s
              end in
  match reverseString body with
  | String c rest => if bool_decide (c = dquote) then reverseString rest else body
  | EmptyString => body
  end.

(** [v.p || ''] where [v] is [notification.details]. *)
Definition detail (details : option Json) (p : string) : Result Json :=
  match details with
  | None | Some JNull => Throw TypeError
  | Some (JObj props) =>
      Ok (if truthy (getProp props p) then default (JStr "") (getProp props p) else JStr "")
  | Some _ => Ok (JStr "")
  end.

(** A row of [exportToCSV]. *)
Definition csvRow (notification : Obj) : Result string :=
  rbind (match getProp notification "message" with
         | Some (JStr m) => Ok (quoted (doubleQuotes m))
         | _ => Throw TypeError
         end) (fun message =>
  rbind (detail (getProp notification "details") "category") (fun category =>
  rbind (detail (getProp notification "details") "severity") (fun severity =>
  Ok (joinWith "," [
        cell (getProp notification "id");
        cell (getProp notification "type");
        message;
        cell (getProp notification "timestamp");
        cell (getProp notification "read");
        cell (Some category);
        cell (Some severity)])))).

Fixpoint mapR {A B} (f : A -> Result B) (xs : list A) : Result (list B) :=
  match xs with
  | [] => Ok []
  | x :: rest => rbind (f x) (fun y => rbind (mapR f rest) (fun ys => Ok (y :: ys)))
  end.

Definition csvHeaders : list string :=
  ["id"; "type"; "message"; "timestamp"; "read"; "category"; "severity"].

Definition exportToCSV (notifications : list Obj) : Result string :=
  if (length notifications =? 0)%nat then
    Ok ("id,type,message,timestamp,read,category,severity" +:+ nl)
  else
    rbind (mapR csvRow notifications) (fun rows =>
    Ok (joinWith nl (joinWith "," csvHeaders :: rows))).

(** The callback of [headers.forEach] in [importFromCSV]. *)
Definition csvField (values : list string) (notification : Obj)
    (indexed : nat * string) : Obj :=
  let '(index, header) := indexed in
  let value := orDefault (values !! index) "" in
  let cleanValue := halveQuotes (stripQuotes value) in
  if decide (header = "id") then setProp notification "id" (JStr cleanValue)
  else if decide (header = "type") then setProp notification "type" (JStr cleanValue)
  else if decide (header = "message") then setProp notification "message" (JStr cleanValue)
  else if decide (header = "timestamp") then
    setProp notification "timestamp" (JStr cleanValue)
  else if decide (header = "read") then
    setProp notification "read" (JBool (bool_decide (cleanValue = "true")))
  else
    let details := match getProp notification "details" with
                   | Some (JObj props) => props
                   | _ => []
                   end in
    setProp notification "details" (JObj (setProp details header (JStr cleanValue))).

Definition importFromCSV (csvData : string) : Result Json :=
  let lines := splitOn (ascii_of_nat 10) (trimString csvData) in
  let headers := splitOn "," (default "" (head lines)) in
  Ok (JArr (map (fun line =>
                   let values := splitOn "," line in
                   JObj (foldl (csvField values) [] (imap pair headers)))
                (tail lines))).

Definition unsupportedFormat : string :=
  "Formato não suportado. Use " +:+ quoted "json" +:+ " ou " +:+ quoted "csv".

Section Codec.

(** The serialisers of the host: [JSON.stringify(v, null, 2)] and [JSON.parse]. *)
Variable JSON_stringify : Json -> string.
Variable JSON_parse : string -> Result Json.

Definition exportNotifications (format : string) : M string := fun s =>
  if decide (format = "json") then
    (Ok (JSON_stringify (JArr (JObj <$> notifications s))), s)
  else if decide (format = "csv") then
    (exportToCSV (notifications s), s)
  else (Throw (GenericError unsupportedFormat), s).

Definition importNotifications (data : string) (format : string) : M nat :=
  try_catch
    (importedNotifications ←
       (if decide (format = "json") then liftR (JSON_parse data)
        else if decide (format = "csv") then liftR (importFromCSV data)
        else throw (GenericError unsupportedFormat));
     match importedNotifications with
     | JArr items =>
         (* Validar e adicionar notificações *)
         addedCount ← foldM importOne 0%nat items;
         logger_info (pretty addedCount +:+ " notificações importadas com sucesso");;
         mret addedCount
     | _ =>
         throw (GenericError "Dados importados devem ser um array de notificações")
     end)
    (fun error =>
       logger_error "Erro ao importar notificações:";;
       throw error).

End Codec.

(** The state of a service after its constructor. *)
Definition newService (now : Z) (rnd : nat -> string) : Service := {|
  notifications := [];
  subscribers := ∅;
  notificationLog := [];
  logWritable := true;
  clock := now;
  randoms := rnd;
  drawn := 0;
  calls := [];
  logged := []
|}.

(** *** JSON text

    A printer that lays a value out as [JSON.stringify(v, null, 2)]
    does and a parser for JSON text, on values whose numbers are
    integers and whose strings are ASCII.  They instantiate the
    serialisers of the host in the examples. *)

Module JsonText.

Definition backslash : ascii := ascii_of_nat 92.

Definition hexDigit (n : nat) : ascii :=
  if (n <? 10)%nat then ascii_of_nat (48 + n) else ascii_of_nat (87 + n).

Definition escapeChar (c : ascii) : string :=
  let n := nat_of_ascii c in
  if (n =? 34)%nat then String backslash (String dquote EmptyString)
  else if (n =? 92)%nat then String backslash (String backslash EmptyString)
  else if (n =? 8)%nat then String backslash "b"
  else if (n =? 12)%nat then String backslash "f"
  else if (n =? 10)%nat then String backslash "n"
  else if (n =? 13)%nat then String backslash "r"
  else if (n =? 9)%nat then String backslash "t"
  else if (n <? 32)%nat then
    String backslash ("u00" +:+ String (hexDigit (n / 16)) (String (hexDigit (n mod 16)) EmptyString))
  else String c EmptyString.

Fixpoint escape (s : string) : string :=
  match s with
  | EmptyString => EmptyString
  | String c rest => escapeChar c +:+ escape rest
  end.

Definition quote (s : string) : string :=
  String dquote (escape s +:+ String dquote EmptyString).

Definition spaces (n : nat) : string := String.concat "" (replicate n " ").

Fixpoint stringifyAt (indent : nat) (v : Json) : string :=
  match v with
  | JNull => "null"
  | JBool true => "true"
  | JBool false => "false"
  | JNum n => pretty n
  | JStr s => quote s
  | JArr [] => "[]"
  | JArr items =>
      "[" +:+ nl +:+ spaces (indent + 2)
      +:+ String.concat ("," +:+ nl +:+ spaces (indent + 2))
            (map (stringifyAt (indent + 2)) items)
      +:+ nl +:+ spaces indent +:+ "]"
  | JObj [] => "{}"
  | JObj props =>
      "{" +:+ nl +:+ spaces (indent + 2)
      +:+ String.concat ("," +:+ nl +:+ spaces (indent + 2))
            (map (fun kv => quote (fst kv) +:+ ": " +:+ stringifyAt (indent + 2) (snd kv))
                 props)
      +:+ nl +:+ spaces indent +:+ "}"
  end.

Definition stringify (v : Json) : string := stringifyAt 0 v.

Fixpoint skipSpace (s : string) : string :=
  match s with
  | String c rest => if isSpace c then skipSpace rest else s
  | EmptyString => s
  end.

Definition digitOf (c : ascii) : option Z :=
  let n := nat_of_ascii c in
  if ((48 <=? n) && (n <=? 57))%nat then Some (Z.of_nat (n - 48)) else None.

Definition hexOf (c : ascii) : option nat :=
  let n := nat_of_ascii c in
  if ((48 <=? n) && (n <=? 57))%nat then Some (n - 48)%nat
  else if ((97 <=? n) && (n <=? 102))%nat then Some (n - 87)%nat
  else if ((65 <=? n) && (n <=? 70))%nat then Some (n - 55)%nat
  else None.

(** The digits at the start of [s], read after the value [acc]. *)
Fixpoint parseDigits (acc : Z) (s : string) : Z * string :=
  match s with
  | String c rest =>
      match digitOf c with
      | Some d => parseDigits (10 * acc + d) rest
      | None => (acc, s)
      end
  | EmptyString => (acc, s)
  end.

Definition startsNumberTail (s : string) : bool :=
  match s with
  | String c _ => bool_decide (c = "."%char ∨ c = "e"%char ∨ c = "E"%char)
  | EmptyString => false
  end.

Definition parseNumber (s : string) : option (Z * string) :=
  let '(negative, body) :=
    match s with
    | String c rest => if bool_decide (c = "-"%char) then (true, rest) else (false, s)
    | EmptyString => (false, s)
    end in
  match body with
  | String c _ =>
      match digitOf c with
      | Some _ =>
          let '(n, rest) := parseDigits 0 body in
          if startsNumberTail rest then None
          else Some (if negative then - n else n, rest)
      | None => None
      end
  | EmptyString => None
  end.

(** The characters of a string literal after its opening quote. *)
Fixpoint parseChars (s : string) : option (string * string) :=
  match s with
  | EmptyString => None
  | String c rest =>
      if bool_decide (c = dquote) then Some (EmptyString, rest)
      else if bool_decide (c = backslash) then
        match rest with
        | String e rest' =>
            let plain (x : nat) :=
              (fun '(str, tail) => (String (ascii_of_nat x) str, tail))
                <$> parseChars rest' in
            if bool_decide (e = dquote) then plain 34%nat
            else if bool_decide (e = backslash) then plain 92%nat
            else if bool_decide (e = "/"%char) then plain 47%nat
            else if bool_decide (e = "b"%char) then plain 8%nat
            else if bool_decide (e = "f"%char) then plain 12%nat
            else if bool_decide (e = "n"%char) then plain 10%nat
            else if bool_decide (e = "r"%char) then plain 13%nat
            else if bool_decide (e = "t"%char) then plain 9%nat
            else if bool_decide (e = "u"%char) then
              match rest' with
              | String a (String b (String h (String l rest''))) =>
                  match hexOf a, hexOf b, hexOf h, hexOf l with
                  | Some 0%nat, Some 0%nat, Some hi, Some lo =>
                      if (hi <? 8)%nat then
                        (fun '(str, tail) => (String (ascii_of_nat (16 * hi + lo)) str, tail))
                          <$> parseChars rest''
                      else None
                  | _, _, _, _ => None
                  end
              | _ => None
              end
            else None
        | EmptyString => None
        end
      else if (nat_of_ascii c <? 32)%nat then None
      else (fun '(str, tail) => (String c str, tail)) <$> parseChars rest
  end.

Definition expect (c : ascii) (s : string) : option string :=
  match skipSpace s with
  | String c' rest => if bool_decide (c' = c) then Some rest else None
  | EmptyString => None
  end.

(** A value at the start of [s]; the elements of an array after one
    element, up to the closing bracket; the properties of an object
    after one property.  [fuel] bounds the nesting and the lengths. *)
Fixpoint parseValue (fuel : nat) (s : string) : option (Json * string) :=
  match fuel with
  | O => None
  | S fuel =>
      match skipSpace s with
      | EmptyString => None
      | String c rest as here =>
          if bool_decide (c = dquote) then
            (fun '(str, tail) => (JStr str, tail)) <$> parseChars rest
          else if bool_decide (c = "["%char) then
            match expect "]" rest with
            | Some tail => Some (JArr [], tail)
            | None =>
                '(first, tail) ← parseValue fuel rest;
                '(others, tail) ← parseItems fuel tail;
                Some (JArr (first :: others), tail)
            end
          else if bool_decide (c = "{"%char) then
            match expect "}" rest with
            | Some tail => Some (JObj [], tail)
            | None =>
                '(first, tail) ← parseProp fuel rest;
                '(others, tail) ← parseProps fuel tail;
                Some (JObj (first :: others), tail)
            end
          else if String.prefix "null" here then Some (JNull, dropString 4 here)
          else if String.prefix "true" here then Some (JBool true, dropString 4 here)
          else if String.prefix "false" here then Some (JBool false, dropString 5 here)
          else (fun '(n, tail) => (JNum n, tail)) <$> parseNumber here
      end
  end
with parseItems (fuel : nat) (s : string) : option (list Json * string) :=
  match fuel with
  | O => None
  | S fuel =>
      match expect "]" s with
      | Some tail => Some ([], tail)
      | None =>
          tail ← expect "," s;
          '(item, tail) ← parseValue fuel tail;
          '(others, tail) ← parseItems fuel tail;
          Some (item :: others, tail)
      end
  end
with parseProp (fuel : nat) (s : string) : option ((string * Json) * string) :=
  match fuel with
  | O => None
  | S fuel =>
      tail ← expect dquote s;
      '(key, tail) ← parseChars tail;
      tail ← expect ":" tail;
      '(v, tail) ← parseValue fuel tail;
      Some ((key, v), tail)
  end
with parseProps (fuel : nat) (s : string) : option (list (string * Json) * string) :=
  match fuel with
  | O => None
  | S fuel =>
      match expect "}" s with
      | Some tail => Some ([], tail)
      | None =>
          tail ← expect "," s;
          '(prop, tail) ← parseProp fuel tail;
          '(others, tail) ← parseProps fuel tail;
          Some (prop :: others, tail)
      end
  end.

Definition parse (s : string) : Result Json :=
  match parseValue (2 * String.length s + 2) s with
  | Some (v, rest) => if allSpace rest then Ok v else Throw SyntaxError
  | None => Throw SyntaxError
  end.

End JsonText.

End Notify.

(** ** Notions used in the statements *)

Module AuditSpec.
Import Js Audit.

(** The records among some lines, in order. *)
Definition parsed (lines : list Line) : list LogRecord :=
  omap (fun line => match JSON_parse line with Ok r => Some r | Throw _ => None end) lines.

Definition isMalformed (line : Line) : bool :=
  match JSON_parse line with Ok _ => false | Throw _ => true end.

(** The lines that the methods read from the log of a world. *)
Definition linesOf (w : World) : list Line :=
  match files w !! auditLogPath with
  | Some c => split (trim c)
  | None => []
  end.

(** The records stored in the log of a world. *)
Definition entriesOf (w : World) : list LogRecord := parsed (linesOf w).

(** A failed entry of the login class. *)
Definition failedLogin (e : AuditEntry) : bool :=
  negb (success e) && includes "LOGIN" (operation e).

(** A stored record that is a failed login-class entry of [u] later than [cutoff]. *)
Definition failedLoginOf (u : string) (cutoff : Z) (r : LogRecord) : bool :=
  match r with
  | RAudit e => bool_decide (user e = u) && failedLogin e && (cutoff <? timestamp e)
  | RSecurity _ => false
  end.

(** The window of the inline rule: the five minutes before now. *)
Definition failedAttemptWindow : Z := 5 * 60 * 1000.

Definition recentFailedLogins (w : World) (u : string) : nat :=
  length (List.filter (failedLoginOf u (clock w - failedAttemptWindow)) (entriesOf w)).

Definition recentOperationsOf (w : World) (u : string) : list LogRecord :=
  List.filter (fun r => bool_decide (rec_user r = u)
                        && (clock w - 10 * 60 * 1000 <? rec_timestamp r))
              (entriesOf w).

(** The hour of the day of an instant in the local time of a world. *)
Definition localHour (w : World) (t : Z) : Z :=
  Z.modulo (Z.div (t - tzOffset w * 60000) 3600000) 24.

(** The resource of an entry names a sensitive table: it is not empty
    and, in upper case, contains a configured name. *)
Definition touchesSensitive (cfg : SecurityConfig) (res : option string) : bool :=
  match res with
  | Some r =>
      negb (bool_decide (r = ""))
      && existsb (fun table => includes table (toUpperCase r)) (sensitiveTables cfg)
  | None => false
  end.

(** The security events among the messages of the logger. *)
Definition securityEvents (msgs : list LogMsg) : list SecurityEntry :=
  omap (fun m => match payload m with PSecurity s => Some s | _ => None end) msgs.

(** The security events that a run of [c] from [w] emits. *)
Definition emitted {A} (c : M A) (w : World) : list SecurityEntry :=
  drop (length (securityEvents (logged w))) (securityEvents (logged (snd (c w)))).

(** A world in which the logger received [msgs] more. *)
Definition noted (w : World) (msgs : list LogMsg) : World :=
  withLogged (logged w ++ msgs) w.

Definition ofKind (kind : string) (s : SecurityEntry) : bool :=
  bool_decide (sec_event s = kind).

(** The event that [checkSuspiciousActivity] logs for an activity. *)
Definition eventOf (w : World) (e : AuditEntry) (a : Activity) : SecurityEntry := {|
  sec_timestamp := clock w;
  sec_event := act_type a;
  sec_user := user e;
  sec_message := Some (act_message a);
  sec_severity := Some (act_severity a);
  sec_auditEntry := Some e
|}.

Definition multipleFailedLogins (e : AuditEntry) : Activity := {|
  act_type := "MULTIPLE_FAILED_LOGINS";
  act_message := "Múltiplas tentativas de login falhadas para usuário " +:+ user e;
  act_severity := HIGH |}.

Definition sensitiveTableAccess (e : AuditEntry) : Activity := {|
  act_type := "SENSITIVE_TABLE_ACCESS";
  act_message := "Acesso a tabela sensível: " +:+ show (resource e);
  act_severity := MEDIUM |}.

Definition unusualTimeAccess (e : AuditEntry) : Activity := {|
  act_type := "UNUSUAL_TIME_ACCESS";
  act_message := "Acesso em horário não usual: " +:+ toISOString (timestamp e);
  act_severity := LOW |}.

Definition highFrequencyOperations (e : AuditEntry) : Activity := {|
  act_type := "HIGH_FREQUENCY_OPERATIONS";
  act_message := "Alto volume de operações para usuário " +:+ user e;
  act_severity := MEDIUM |}.

(** The activities that the four rules find for an entry in a world. *)
Definition suspiciousFor (cfg : SecurityConfig) (w : World) (e : AuditEntry)
    : list Activity :=
  (if failedLogin e
      && (maxFailedAttempts cfg <=? Z.of_nat (recentFailedLogins w (user e)))
   then [multipleFailedLogins e] else [])
  ++ (if touchesSensitive cfg (resource e) then [sensitiveTableAccess e] else [])
  ++ (if (localHour w (timestamp e) <? 6) || (22 <? localHour w (timestamp e))
      then [unusualTimeAccess e] else [])
  ++ (if (50 <? length (recentOperationsOf w (user e)))%nat
      then [highFrequencyOperations e] else []).

(** A world whose log holds [c] instead. *)
Definition withLog (c : list Line) (w : World) : World :=
  withFiles (<[auditLogPath := c]> (files w)) (room w) w.

(** What a caller and the operator see of a run: the outcome and the
    messages of the logger. *)
Definition outcome {A} (c : M A) (w : World) : Result A * list LogMsg :=
  (fst (c w), logged (snd (c w))).

(** The bounds and filters that [generateAuditReport] applies for some options. *)
Definition matches (w : World) (options : ReportOptions) (r : LogRecord) : bool :=
  passesFilters (default (clock w - 24 * 60 * 60 * 1000) (startDate options))
                (default (clock w) (endDate options))
                (opt_user options) (opt_operation options) (opt_success options) r.

(** The stored records that a report with these options is about. *)
Definition matching (w : World) (options : ReportOptions) : list LogRecord :=
  List.filter (matches w options) (entriesOf w).

(** The report on no entries: the header with the total 0 and the note
    that no operation was found in the period. *)
Definition emptyReport (options : ReportOptions) : string :=
  "## Relatório de Auditoria" +:+ nl +:+ nl
  +:+ "**Período:** " +:+ showDate (startDate options)
  +:+ " até " +:+ showDate (endDate options) +:+ nl
  +:+ "**Total de operações:** 0" +:+ nl +:+ nl
  +:+ "Nenhuma operação encontrada no período especificado.".






(** The message with which a method reports a caught error. *)
Definition errorMsg (msg : string) (e : Error) : LogMsg :=
  {| level := LError; text := msg; payload := PError e |}.

End AuditSpec.

(** ** Sample inputs *)

Module AuditExamples.
Import Js Audit AuditSpec.

(** 2023-11-14T12:00:00.000Z *)
Definition noon : Z := 1699963200000.

(** A world on UTC whose log holds [content]. *)
Definition worldAt (now : Z) (content : list Line) : World := {|
  files := {[ auditLogPath := content ]};
  writable := true;
  room := None;
  clock := now;
  tzOffset := 0;
  env := ∅;
  logged := []
|}.

Definition entry (t : Z) (u op : string) (res : option string) (ok : bool) : AuditEntry := {|
  timestamp := t; user := u; operation := op; resource := res; query := "";
  success := ok; message := ""; ip := "127.0.0.1"; userAgent := "Firebird-MCP-Server"
|}.

(** Six failed logins of bob, one per second from noon on. *)
Definition bobLogin (k : Z) : AuditEntry :=
  entry (noon + 1000 * k) "bob" "LOGIN" None false.

Definition bobWorld : World :=
  worldAt (noon + 60000)
    (map (fun k => JsonLine (RAudit (bobLogin k))) [0; 1; 2; 3; 4; 5]).

(** A successful read of the table USERS at noon. *)
Definition usersRead : AuditEntry := entry noon "alice" "SELECT" (Some "USERS") true.

Definition usersConfig : SecurityConfig := {|
  sensitiveTables := ["USERS"];
  maxFailedAttempts := 5;
  lockoutDuration := 300000;
  auditRetentionDays := 90;
  alertOnSuspiciousActivity := true;
  allowedOperations := ["SELECT"; "INSERT"; "UPDATE"; "DELETE"];
  restrictedOperations := ["DROP"; "ALTER"; "CREATE"; "GRANT"; "REVOKE"]
|}.

Definition usersWorld : World := worldAt noon [JsonLine (RAudit usersRead)].

(** A query at 22:30 local time. *)
Definition lateQuery : AuditEntry :=
  entry (noon + 10 * 3600000 + 30 * 60000) "alice" "SELECT" (Some "ORDERS") true.

Definition lateWorld : World :=
  worldAt (noon + 10 * 3600000 + 30 * 60000) [JsonLine (RAudit lateQuery)].

(** A log with a record of a year before noon, a line that is not
    JSON, and a record of noon. *)
Definition oldEntry : AuditEntry :=
  entry (noon - 365 * 86400000) "alice" "SELECT" (Some "ORDERS") true.

Definition noonEntry : AuditEntry := entry noon "alice" "SELECT" (Some "ORDERS") true.

Definition mixedLog : list Line :=
  [JsonLine (RAudit oldEntry); Malformed "{truncated"; JsonLine (RAudit noonEntry)].

Definition mixedWorld : World := worldAt (noon + 1000) mixedLog.




(** The same log, which may not be opened for writing. *)
Definition readOnlyWorld : World := {|
  files := {[ auditLogPath := mixedLog ]};
  writable := false;
  room := None;
  clock := noon + 1000;
  tzOffset := 0;
  env := ∅;
  logged := []
|}.

Definition createTable : OperationData := {|
  od_user := "alice";
  od_operation := "CREATE_TABLE";
  od_resource := Some "ORDERS";
  od_query := Some "CREATE TABLE ORDERS (ID INTEGER)";
  od_result := {| res_success := true; res_message := "ok" |};
  od_timestamp := None
|}.

(** A failed login of bob as a caller of [logOperation] reports it. *)
Definition bobAttempt : OperationData := {|
  od_user := "bob";
  od_operation := "LOGIN";
  od_resource := None;
  od_query := None;
  od_result := {| res_success := false; res_message := "wrong password" |};
  od_timestamp := None
|}.

(** The world after [n] such attempts were recorded in an empty log. *)
Fixpoint afterAttempts (n : nat) : World :=
  match n with
  | O => worldAt noon []
  | S k => snd (logOperation defaultSecurityConfig bobAttempt (afterAttempts k))
  end.

Definition anyOptions : ReportOptions := {|
  startDate := None; endDate := None;
  opt_user := None; opt_operation := None; opt_success := None
|}.

Definition nobodyOptions : ReportOptions := {|
  startDate := None; endDate := None;
  opt_user := Some "nobody"; opt_operation := None; opt_success := None
|}.

(** A rendering of a rate for the examples: the quotient in hundredths of
    a percent, rounded down. *)
Definition rateText (part whole : nat) : string :=
  let r := Z.div (Z.of_nat part * 10000) (Z.of_nat whole) in
  pretty (Z.div r 100) +:+ "." +:+ padStart 2 (Z.modulo r 100).

End AuditExamples.

Module NotifySpec.
Import Js Notify.

(** The subscribers that a notification is delivered to: those of its
    type in the order of their registration, then those of the wildcard
    type in the order of theirs. *)
Definition handlersFor (s : Service) (n : Obj) : list Handler :=
  default [] (typeOf n ≫= (subscribers s !!.)) ++ default [] (subscribers s !! "*").

(** The errors that the delivery of [n] hands to the logger: one for
    every call that fails, in the order of the calls. *)
Definition failuresFor (s : Service) (n : Obj) : list LogMsg :=
  map (fun _ => {| level := LError;
                   text := "Erro ao notificar subscriber para " +:+ show (typeOf n) +:+ ":" |})
      (List.filter (fun h => fails h n) (default [] (typeOf n ≫= (subscribers s !!.))))
  ++ map (fun _ => {| level := LError; text := "Erro ao notificar subscriber geral:" |})
         (List.filter (fun h => fails h n) (default [] (subscribers s !! "*"))).

(** The calls made since the state [s]. *)
Definition callsSince (s s' : Service) : list (nat * Obj) :=
  drop (length (calls s)) (calls s').

(** The identifier that a service makes at its [k]-th draw. *)
Definition idAt (s : Service) (k : nat) : string :=
  "notif_" +:+ pretty (clock s) +:+ "_" +:+ randoms s k.

(** The object that [sendNotification] builds in the state [s]. *)
Definition notificationOf (s : Service) (type message : string) (details : Obj) : Obj :=
  [("id", JStr (idAt s (drawn s)));
   ("type", JStr type);
   ("message", JStr message);
   ("details", JObj details);
   ("timestamp", JStr (toISOString (clock s)));
   ("read", JBool false)].

(** An object passes [validateNotification]. *)
Definition isValid (o : Obj) : bool :=
  truthy (getProp o "type") && truthy (getProp o "message")
  && truthy (getProp o "timestamp").

(** The message of a notification. *)
Definition messageOf (o : Obj) : option Json := getProp o "message".

(** The objects that an import adds for the valid objects [valid]: each
    with the identifier made at the next draw, from the [k]-th on. *)
Fixpoint imported (s : Service) (k : nat) (valid : list Obj) : list Obj :=
  match valid with
  | [] => []
  | o :: rest => setProp o "id" (JStr (idAt s k)) :: imported s (S k) rest
  end.

(** The document that [exportNotifications] serialises. *)
Definition exported (s : Service) : Json := JArr (JObj <$> notifications s).

End NotifySpec.

Module NotifyExamples.
Import Js Notify NotifySpec.

Definition noon : Z := 1699963200000.

Definition draws (k : nat) : string := "r" +:+ pretty k.

Definition fresh : Service := newService noon draws.

(** A subscriber that fails, one that succeeds, and a third one. *)
Definition failing : Handler := {| hid := 1; fails := fun _ => true |}.
Definition quiet : Handler := {| hid := 2; fails := fun _ => false |}.
Definition other : Handler := {| hid := 3; fails := fun _ => false |}.

(** [failing] and [quiet] on type X, [other] on type Y. *)
Definition subscribed : Service :=
  snd (subscribe "Y" other (snd (subscribe "X" quiet (snd (subscribe "X" failing fresh))))).

Definition noteX : Obj :=
  [("id", JStr "notif_1"); ("type", JStr "X"); ("message", JStr "backup done");
   ("details", JObj []); ("timestamp", JStr (toISOString noon)); ("read", JBool false)].

(** A service that sent two notifications. *)
Definition sender : Service :=
  snd (sendNotification "SYSTEM_ALERT" "disk almost full" [("severity", JStr "high")]
         (snd (sendNotification "DATABASE_ALERT" "backup done" [] fresh))).

(** A service that sent one notification with an empty message. *)
Definition silentSender : Service :=
  snd (sendNotification "SYSTEM_ALERT" "" [] fresh).

End NotifyExamples.

(** ** Tables keyed by any text *)

Module JsMore.

(** The names that every object inherits from [Object.prototype].  An
    object used as a table answers for them before anything is stored
    under them, so that the tables of counts and the table of
    [getAlertSeverity] behave as tables on the other names only. *)
Definition inheritedNames : list string := [
  "constructor"; "__defineGetter__"; "__defineSetter__"; "hasOwnProperty";
  "__lookupGetter__"; "__lookupSetter__"; "isPrototypeOf"; "propertyIsEnumerable";
  "toString"; "valueOf"; "__proto__"; "toLocaleString"
].

Definition ordinaryName (s : string) : bool := negb (bool_decide (s ∈ inheritedNames)).

(** [s.length]: the number of the UTF-16 code units of a text, which
    this model holds in UTF-8.  A byte that continues a character
    counts for nothing, the first byte of a character of four bytes,
    which is a pair of surrogates, for two, and any other byte for one. *)
Fixpoint utf16Length (s : string) : nat :=
  match s with
  | EmptyString => 0%nat
  | String c rest =>
      let n := nat_of_ascii c in
      ((if (128 <=? n) && (n <? 192) then 0 else if 240 <=? n then 2 else 1)
       + utf16Length rest)%nat
  end.

End JsMore.

(** ** Further methods of [SecurityAudit] and their callers *)

Module AuditMore.
Import Js JsMore Audit AuditSpec.

(** *** The validators

    An argument that may be anything is an optional string: [None] is a
    value that is not a string.  Of the details that a validator passes
    to [logSecurityEvent] the model keeps the message; their further
    properties (table, query, keyword, privilege) are not part of
    [SecurityEntry]. *)

Definition isUpper (c : ascii) : bool :=
  let n := nat_of_ascii c in ((65 <=? n) && (n <=? 90))%nat.
Definition isLower (c : ascii) : bool :=
  let n := nat_of_ascii c in ((97 <=? n) && (n <=? 122))%nat.
Definition isDigit (c : ascii) : bool :=
  let n := nat_of_ascii c in ((48 <=? n) && (n <=? 57))%nat.

(** The class of special characters of [validatePassword]:
    the characters ! @ # $ % ^ & * ( ) , . ? : { } | < > and the double quote. *)
Definition isSpecial (c : ascii) : bool :=
  existsb (fun n => (nat_of_ascii c =? n)%nat)
    [33; 64; 35; 36; 37; 94; 38; 42; 40; 41; 44; 46; 63; 34; 58; 123; 125; 124; 60; 62]%nat.

Fixpoint anyChar (p : ascii -> bool) (s : string) : bool :=
  match s with
  | EmptyString => false
  | String c rest => p c || anyChar p rest
  end.

Fixpoint allChars (p : ascii -> bool) (s : string) : bool :=
  match s with
  | EmptyString => true
  | String c rest => p c && allChars p rest
  end.

Definition isWordStart (c : ascii) : bool :=
  isUpper c || isLower c || bool_decide (c = "_"%char).
Definition isWordChar (c : ascii) : bool := isWordStart c || isDigit c.

(** The test of the regular expression for names: a letter or an
    underscore, then letters, digits and underscores up to the end. *)
Definition isIdentifier (s : string) : bool :=
  match s with
  | EmptyString => false
  | String c rest => isWordStart c && allChars isWordChar rest
  end.

Definition unknownUser : string := "unknown".

Definition messageOnly (msg : string) : Details :=
  {| d_message := Some msg; d_severity := None; d_auditEntry := None |}.

Definition validateTableName (cfg : SecurityConfig) (tableName : option string) : M unit :=
  if negb (truthyStr tableName) then
    throw (GenericError "Nome da tabela deve ser uma string válida")
  else
    let name := default "" tableName in
    (* Verificar se é uma tabela sensível *)
    (if bool_decide (toUpperCase name ∈ sensitiveTables cfg) then
       logSecurityEvent "SENSITIVE_TABLE_ACCESS" unknownUser
         (messageOnly "Tentativa de acesso a tabela sensível")
     else mret tt);;
    (* Validar caracteres permitidos *)
    if negb (isIdentifier name) then
      throw (GenericError "Nome da tabela contém caracteres inválidos")
    else mret tt.

Definition validateUsername (username : option string) : Result unit :=
  if negb (truthyStr username) then
    Throw (GenericError "Nome de usuário deve ser uma string válida")
  else
    let name := default "" username in
    if ((String.length name <? 3) || (31 <? String.length name))%nat then
      Throw (GenericError "Nome de usuário deve ter entre 3 e 31 caracteres")
    else if negb (isIdentifier name) then
      Throw (GenericError "Nome de usuário contém caracteres inválidos")
    else Ok tt.

Definition validatePassword (password : option string) : M unit :=
  if negb (truthyStr password) then
    throw (GenericError "Senha deve ser uma string válida")
  else
    let pw := default "" password in
    if (utf16Length pw <? 8)%nat then
      throw (GenericError "Senha deve ter pelo menos 8 caracteres")
    else
      (* Verificar complexidade da senha *)
      let hasUpperCase := anyChar isUpper pw in
      let hasLowerCase := anyChar isLower pw in
      let hasNumbers := anyChar isDigit pw in
      let hasSpecialChar := anyChar isSpecial pw in
      if negb hasUpperCase || negb hasLowerCase || negb hasNumbers || negb hasSpecialChar
      then logSecurityEvent "WEAK_PASSWORD" unknownUser
             (messageOnly "Senha não atende aos critérios de complexidade")
      else mret tt.

(** The loop of [validateWhereClause] over the dangerous keywords. *)
Fixpoint scanKeywords (whereClause upperWhere : string) (keywords : list string) : M unit :=
  match keywords with
  | [] => mret tt
  | keyword :: rest =>
      if includes keyword upperWhere then
        logSecurityEvent "DANGEROUS_QUERY" unknownUser
          (messageOnly "Query contém palavra-chave perigosa");;
        throw (GenericError ("Condição WHERE contém palavra-chave perigosa: " +:+ keyword))
      else scanKeywords whereClause upperWhere rest
  end.

Definition validateWhereClause (cfg : SecurityConfig) (whereClause : option string) : M unit :=
  if negb (truthyStr whereClause) then
    throw (GenericError "Condição WHERE deve ser uma string válida")
  else
    let clause := default "" whereClause in
    (* Verificar se contém comandos perigosos *)
    let dangerousKeywords := restrictedOperations cfg in
    let upperWhere := toUpperCase clause in
    scanKeywords clause upperWhere dangerousKeywords.

(** The loop of [validatePrivileges]. *)
Fixpoint checkPrivileges (allowedPrivileges restrictedPrivileges : list string)
    (privileges : list string) : M unit :=
  match privileges with
  | [] => mret tt
  | privilege :: rest =>
      let upperPrivilege := toUpperCase privilege in
      if bool_decide (upperPrivilege ∈ restrictedPrivileges) then
        logSecurityEvent "RESTRICTED_PRIVILEGE" unknownUser
          (messageOnly "Tentativa de usar privilégio restrito");;
        throw (GenericError ("Privilégio restrito: " +:+ privilege))
      else if negb (bool_decide (upperPrivilege ∈ allowedPrivileges)) then
        logSecurityEvent "UNKNOWN_PRIVILEGE" unknownUser
          (messageOnly "Privilégio desconhecido");;
        throw (GenericError ("Privilégio desconhecido: " +:+ privilege))
      else checkPrivileges allowedPrivileges restrictedPrivileges rest
  end.

(** [privileges] is [None] for a value that is not an array. *)
Definition validatePrivileges (cfg : SecurityConfig) (privileges : option (list string))
    : M unit :=
  match privileges with
  | None | Some [] => throw (GenericError "Lista de privilégios deve ser um array não vazio")
  | Some list =>
      let allowedPrivileges := allowedOperations cfg in
      let restrictedPrivileges := restrictedOperations cfg in
      checkPrivileges allowedPrivileges restrictedPrivileges list
  end.

(** *** Statistics of the log *)

Record AuditLogStats : Type := {
  totalEntries : nat;
  successEntries : nat;
  failedEntries : nat;
  uniqueUsers : nat;
  uniqueOperations : nat;
  topUsers : list (string * nat);
  topOperations : list (string * nat)
}.

(** The variables that the loop of [getAuditLogStats] updates. *)
Record Counters : Type := {
  cnt_total : nat;
  cnt_success : nat;
  cnt_failed : nat;
  userCounts : list (string * nat);
  operationCounts : list (string * nat)
}.

(** The callback of the loop on one line. *)
Definition countLine (c : Counters) (line : Line) : Counters :=
  match JSON_parse line with
  | Ok entry =>
      let ok := truthyBool (rec_success entry) in
      {| cnt_total := S (cnt_total c);
         cnt_success := if ok then S (cnt_success c) else cnt_success c;
         cnt_failed := if ok then cnt_failed c else S (cnt_failed c);
         userCounts :=
           if truthyStr (Some (rec_user entry))
           then upsert (rec_user entry) 0%nat S (userCounts c)
           else userCounts c;
         operationCounts :=
           if truthyStr (rec_operation entry)
           then upsert (default "" (rec_operation entry)) 0%nat S (operationCounts c)
           else operationCounts c |}
  | Throw _ => c (* Ignorar linhas malformadas *)
  end.

(** The result is [None] where the method returns null. *)
Definition getAuditLogStats : M (option AuditLogStats) :=
  try_catch
    (logData ← readFileSync auditLogPath;
     let lines := split (trim logData) in
     let c := foldl countLine
                {| cnt_total := 0; cnt_success := 0; cnt_failed := 0;
                   userCounts := []; operationCounts := [] |} lines in
     mret (Some {|
       totalEntries := cnt_total c;
       successEntries := cnt_success c;
       failedEntries := cnt_failed c;
       uniqueUsers := length (userCounts c);
       uniqueOperations := length (operationCounts c);
       topUsers := take 5 (sort (fun a b => (snd b <=? snd a)%nat) (userCounts c));
       topOperations := take 5 (sort (fun a b => (snd b <=? snd a)%nat) (operationCounts c))
     |}))
    (fun error =>
       logger_error "Erro ao obter estatísticas de auditoria:" (PError error);;
       mret None).

(** *** The tools of the server that use the audit: [server.js] *)






(** *** Notions used in the statements *)

(** The entry that [logOperation] builds for its argument in a world. *)
Definition recordedEntry (w : World) (data : OperationData) : AuditEntry := {|
  timestamp := default (clock w) (od_timestamp data);
  user := od_user data;
  operation := od_operation data;
  resource := od_resource data;
  query := sanitizeQuery (od_query data);
  success := res_success (od_result data);
  message := res_message (od_result data);
  ip := orDefault (env w !! "CLIENT_IP") "127.0.0.1";
  userAgent := orDefault (env w !! "USER_AGENT") "Firebird-MCP-Server"
|}.

(** The world in which the log has one more line at its end. *)
Definition withLine (line : Line) (w : World) : World :=
  withLog (default [] (files w !! auditLogPath) ++ [line]) w.

(** The security entry that [logSecurityEvent] builds in a world. *)
Definition securityEntryOf (w : World) (event u : string) (d : Details) : SecurityEntry := {|
  sec_timestamp := clock w;
  sec_event := event;
  sec_user := u;
  sec_message := d_message d;
  sec_severity := d_severity d;
  sec_auditEntry := d_auditEntry d
|}.

(** An argument of [logOperation] whose query and resource are texts
    of ASCII characters. *)
Definition asciiData (data : OperationData) : bool :=
  isAscii (default "" (od_query data)) && isAscii (default "" (od_resource data)).

(** A record whose user and operation are ordinary names. *)
Definition ordinaryRecord (r : LogRecord) : bool :=
  ordinaryName (rec_user r) && ordinaryName (show (rec_operation r)).

(** The records of a user, and of an operation, among some records. *)
Definition ofUser (u : string) (r : LogRecord) : bool := bool_decide (rec_user r = u).
Definition ofOperation (op : string) (r : LogRecord) : bool :=
  bool_decide (rec_operation r = Some op).

(** A table of counts that is right for some records: its keys are
    distinct and not empty, every key has the number of the records that
    [sel] selects for it, and a key that it does not have has none. *)
Definition countsOf (sel : string -> LogRecord -> bool) (rs : list LogRecord)
    (o : list (string * nat)) : Prop :=
  List.NoDup (map fst o)
  /\ (forall k v, In (k, v) o ->
        k <> "" /\ v = length (List.filter (sel k) rs) /\ (0 < v)%nat)
  /\ (forall k, k <> "" -> ~ In k (map fst o) -> List.filter (sel k) rs = []).

(** A list in which no count is followed by a greater one. *)
Definition descending (l : list (string * nat)) : Prop :=
  forall i j a b, (i < j)%nat -> l !! i = Some a -> l !! j = Some b -> (snd b <= snd a)%nat.

(** The records that the batch scan looks at: those of the last 24 hours. *)
Definition scanned (w : World) : list LogRecord :=
  List.filter (fun r => clock w - 24 * 60 * 60 * 1000 <? rec_timestamp r) (entriesOf w).

Definition ofAddress (ip : string) (r : LogRecord) : bool :=
  bool_decide (show (rec_ip r) = ip).

(** A record of a failed operation of the login class. *)
Definition failedLoginRecord (r : LogRecord) : bool :=
  negb (truthyBool (rec_success r)) && includes "LOGIN" (default "" (rec_operation r)).

(** The three activities that the batch scan reports. *)
Definition userFrequency (u : string) (n : nat) : Activity := {|
  act_type := "HIGH_FREQUENCY_USER";
  act_message := "Usuário " +:+ u +:+ " executou " +:+ pretty n +:+ " operações em 24h";
  act_severity := MEDIUM |}.

Definition userFailedLogins (u : string) (n : nat) : Activity := {|
  act_type := "MULTIPLE_FAILED_LOGINS";
  act_message := "Usuário " +:+ u +:+ " teve " +:+ pretty n
                 +:+ " tentativas de login falhadas";
  act_severity := HIGH |}.

Definition addressFrequency (ip : string) (n : nat) : Activity := {|
  act_type := "HIGH_FREQUENCY_IP";
  act_message := "IP " +:+ ip +:+ " executou " +:+ pretty n +:+ " operações em 24h";
  act_severity := MEDIUM |}.

(** What the scan reports for one user and for one address. *)
Definition userActivities (group : string * list LogRecord) : list Activity :=
  (if (100 <? length (snd group))%nat
   then [userFrequency (fst group) (length (snd group))] else [])
  ++ (if (10 <? length (List.filter failedLoginRecord (snd group)))%nat
      then [userFailedLogins (fst group)
              (length (List.filter failedLoginRecord (snd group)))]
      else []).

Definition addressActivities (group : string * list LogRecord) : list Activity :=
  if (200 <? length (snd group))%nat
  then [addressFrequency (fst group) (length (snd group))] else [].

(** A record of an operation whose user and address are ordinary names. *)
Definition ordinaryEntry (r : LogRecord) : bool :=
  match r with
  | RAudit e => ordinaryName (user e) && ordinaryName (ip e)
  | RSecurity _ => false
  end.

(** *** Sample inputs *)

(** A world on UTC without a log. *)
Definition noLogWorld : World := {|
  files := ∅; writable := true; room := None; clock := AuditExamples.noon;
  tzOffset := 0; env := ∅; logged := []
|}.

(** A security event of noon, and a log that holds its record after
    the record of an operation. *)
Definition weakPasswordEvent : SecurityEntry :=
  securityEntryOf (AuditExamples.worldAt AuditExamples.noon [])
    "WEAK_PASSWORD" unknownUser
    (messageOnly "Senha não atende aos critérios de complexidade").

Definition eventWorld : World :=
  AuditExamples.worldAt (AuditExamples.noon + 1000)
    [JsonLine (RAudit AuditExamples.noonEntry); JsonLine (RSecurity weakPasswordEvent)].

Definition quote : ascii := ascii_of_nat 39.

(** A read of the table USERS, reported at 23:00 to an empty log. *)
Definition nightWorld : World :=
  AuditExamples.worldAt (AuditExamples.noon + 11 * 3600000) [].

Definition nightRead : OperationData := {|
  od_user := "alice";
  od_operation := "SELECT";
  od_resource := Some "USERS";
  od_query := Some "SELECT * FROM USERS";
  od_result := {| res_success := true; res_message := "ok" |};
  od_timestamp := None
|}.

(** Eleven failed logins of bob, one per second from noon on. *)
Definition elevenLogins : World :=
  AuditExamples.worldAt (AuditExamples.noon + 60000)
    (map (fun k => JsonLine (RAudit (AuditExamples.bobLogin k)))
         [0; 1; 2; 3; 4; 5; 6; 7; 8; 9; 10]).


End AuditMore.

(** ** Further methods of [NotificationService] *)

Module NotifyMore.
Import Js JsMore Notify NotifySpec.

(** [this.notifications = ns], and the assignment to an element of it. *)
Definition setNotifications (ns : list Obj) : M unit :=
  modify (fun s =>
    {| notifications := ns; subscribers := subscribers s;
       notificationLog := notificationLog s; logWritable := logWritable s;
       clock := clock s; randoms := randoms s; drawn := drawn s;
       calls := calls s; logged := logged s |}).

Definition getNotificationList : M (list Obj) := fun s => (Ok (notifications s), s).

(** [n.id === notificationId] for an identifier that is a string. *)
Definition hasId (notificationId : string) (n : Obj) : bool :=
  match getProp n "id" with
  | Some (JStr id) => bool_decide (id = notificationId)
  | _ => false
  end.

(** [xs.findIndex(p)]. *)
Fixpoint findIndex {A} (p : A -> bool) (xs : list A) : option nat :=
  match xs with
  | [] => None
  | x :: rest => if p x then Some 0%nat else S <$> findIndex p rest
  end.

Definition markAsRead (notificationId : string) : M bool :=
  ns ← getNotificationList;
  match findIndex (hasId notificationId) ns with
  | Some index =>
      setNotifications (alter (fun n => setProp n "read" (JBool true)) index ns);;
      logger_info ("Notificação marcada como lida: " +:+ notificationId);;
      mret true
  | None => mret false
  end.

Definition isUnread (n : Obj) : bool := negb (truthy (getProp n "read")).

Definition markAllAsRead : M nat :=
  ns ← getNotificationList;
  let unreadCount := length (List.filter isUnread ns) in
  setNotifications (map (fun n => setProp n "read" (JBool true)) ns);;
  logger_info (pretty unreadCount +:+ " notificações marcadas como lidas");;
  mret unreadCount.

Definition deleteNotification (notificationId : string) : M bool :=
  ns ← getNotificationList;
  match findIndex (hasId notificationId) ns with
  | Some index =>
      setNotifications (delete index ns);;
      logger_info ("Notificação removida: " +:+ notificationId);;
      mret true
  | None => mret false
  end.

(** The table of [getAlertSeverity]. *)
Definition severityMap : list (string * string) := [
  ("CONNECTION_FAILED", "high");
  ("CONNECTION_RESTORED", "info");
  ("HIGH_DATABASE_USAGE", "medium");
  ("SLOW_QUERY", "medium");
  ("SUSPICIOUS_ACTIVITY", "high");
  ("FAILED_LOGIN", "high");
  ("SENSITIVE_TABLE_ACCESS", "high");
  ("SYSTEM_ERROR", "high");
  ("BACKUP_COMPLETED", "info");
  ("BACKUP_FAILED", "high")
].

(** [severityMap[alertType] || 'info'], for an alert type that does not
    name a property of every object (such as [constructor]). *)
Definition getAlertSeverity (alertType : string) : string :=
  default "info" (snd <$> List.find (fun kv => bool_decide (fst kv = alertType)) severityMap).

(** [{...details, category: c, severity: getAlertSeverity(alertType)}]. *)
Definition alertDetails (details : Obj) (category alertType : string) : Obj :=
  setProp (setProp details "category" (JStr category))
          "severity" (JStr (getAlertSeverity alertType)).

Definition sendDatabaseAlert (alertType message : string) (details : Obj) : M Obj :=
  sendNotification "DATABASE_ALERT" message (alertDetails details "database" alertType).

Definition sendSecurityAlert (alertType message : string) (details : Obj) : M Obj :=
  sendNotification "SECURITY_ALERT" message (alertDetails details "security" alertType).

Definition sendPerformanceAlert (alertType message : string) (details : Obj) : M Obj :=
  sendNotification "PERFORMANCE_ALERT" message (alertDetails details "performance" alertType).

Definition sendSystemAlert (alertType message : string) (details : Obj) : M Obj :=
  sendNotification "SYSTEM_ALERT" message (alertDetails details "system" alertType).

(** [sanitizeQuery] of the service: the first 200 characters of the
    query, which are the first 200 bytes of a query of ASCII characters
    ([isAscii]), in which the password literals are then masked by the
    regular expression of [SecurityAudit.sanitizeQuery]. *)
Definition sanitizeQuery (query : option string) : string :=
  if truthyStr query then
    (* Limitar tamanho e remover informações sensíveis *)
    let sanitized := String.substring 0 200 (default "" query) in
    Audit.replacePasswords 0 sanitized
  else "".

(** The times are whole numbers of milliseconds. *)
Definition alertSlowQuery (query : option string) (executionTime threshold : Z) : M Obj :=
  let message := "Query lenta detectada: " +:+ pretty executionTime
                 +:+ "ms (limite: " +:+ pretty threshold +:+ "ms)" in
  let sanitized := sanitizeQuery query in
  now ← Date_now;
  sendPerformanceAlert "SLOW_QUERY" message
    [("query", JStr sanitized);
     ("executionTime", JNum executionTime);
     ("threshold", JNum threshold);
     ("timestamp", JStr (toISOString now))].

(** *** Notions used in the statements *)

(** The number of the notifications of a service that are not read. *)
Definition unread (s : Service) : nat := length (List.filter isUnread (notifications s)).

(** The four senders of alerts, each with its category and with the
    type of the notification that it sends. *)
Definition alertSenders : list ((string -> string -> Obj -> M Obj) * string * string) := [
  (sendDatabaseAlert, "database", "DATABASE_ALERT");
  (sendSecurityAlert, "security", "SECURITY_ALERT");
  (sendPerformanceAlert, "performance", "PERFORMANCE_ALERT");
  (sendSystemAlert, "system", "SYSTEM_ALERT")
].

(** The number of the quotes, single or double, of a text. *)
Fixpoint countQuotes (s : string) : nat :=
  match s with
  | EmptyString => 0%nat
  | String c rest => ((if Audit.isQuote c then 1 else 0) + countQuotes rest)%nat
  end.

(** The error that an import logs before it throws again. *)
Definition importFailed : LogMsg :=
  {| level := LError; text := "Erro ao importar notificações:" |}.

(** *** Sample inputs *)

(** A notification as a document may hold it: without details. *)
Definition plainNote : Obj :=
  [("type", JStr "X"); ("message", JStr "backup done");
   ("timestamp", JStr (toISOString NotifyExamples.noon))].

(** A statement of 210 characters whose password literal is closed
    after the 200th. *)
Definition longStatement : string :=
  "ALTER USER bob PASSWORD " +:+ String (ascii_of_nat 39)
    (String.concat "" (replicate 180 "x") +:+ "secret" +:+ String (ascii_of_nat 39) "").

(** A document of one notification and of null. *)
Definition brokenDocument : Json := JArr [JObj plainNote; JNull].

End NotifyMore.

(** ** Properties of the audit log and of the rules *)

Module AuditProofs.
Import Js Audit AuditSpec AuditExamples.

(** *** Reading the log *)

Lemma parsed_app (l1 l2 : list Line) : parsed (l1 ++ l2) = parsed l1 ++ parsed l2.
Proof. apply omap_app. Qed.

Lemma parsed_blank (l : Line) : blank l = true -> parsed [l] = [].
Proof. destruct l; simpl; [discriminate | reflexivity]. Qed.

Lemma parsed_dropBlank (c : list Line) : parsed (dropBlank c) = parsed c.
Proof.
  induction c as [|l c IH]; simpl; [reflexivity|].
  destruct (blank l) eqn:Hb; [|reflexivity].
  rewrite IH. destruct l; simpl in *; [discriminate | reflexivity].
Qed.

Lemma parsed_reverse (c : list Line) : parsed (reverse c) = reverse (parsed c).
Proof.
  induction c as [|l c IH]; [reflexivity|].
  rewrite reverse_cons, parsed_app, IH.
  change (l :: c) with ([l] ++ c). rewrite parsed_app, reverse_app.
  f_equal. destruct l; reflexivity.
Qed.

Lemma parsed_onFirst (f : Line -> Line) (c : list Line) :
  (forall l, parsed [f l] = parsed [l]) -> parsed (onFirst f c) = parsed c.
Proof.
  intros Hf. destruct c as [|l c]; [reflexivity|]. cbn [onFirst].
  change (f l :: c) with ([f l] ++ c). change (l :: c) with ([l] ++ c).
  rewrite !parsed_app, Hf. reflexivity.
Qed.

Lemma parsed_trim (c : list Line) : parsed (trim c) = parsed c.
Proof.
  unfold trim.
  rewrite parsed_reverse, parsed_onFirst by (intros []; reflexivity).
  rewrite parsed_dropBlank, parsed_reverse.
  rewrite parsed_onFirst by (intros []; reflexivity).
  rewrite parsed_dropBlank. apply reverse_involutive.
Qed.

Lemma parsed_split (c : list Line) : parsed (split c) = parsed c.
Proof. destruct c; reflexivity. Qed.

Lemma parsed_read (c : list Line) : parsed (split (trim c)) = parsed c.
Proof. rewrite parsed_split. apply parsed_trim. Qed.

Lemma entriesOf_lookup (w : World) (c : list Line) :
  files w !! auditLogPath = Some c -> entriesOf w = parsed c.
Proof. intros H. unfold entriesOf, linesOf. rewrite H. apply parsed_read. Qed.

Lemma entriesOf_missing (w : World) :
  files w !! auditLogPath = None -> entriesOf w = [].
Proof. intros H. unfold entriesOf, linesOf. rewrite H. reflexivity. Qed.

(** The loop of [getRecentFailedAttempts] counts the failed logins of
    the user among the records. *)
Lemma countFailedAttempt_spec (u : string) (cutoff : Z) (lines : list Line) (n : nat) :
  foldl (countFailedAttempt u cutoff) n lines
  = (n + length (List.filter (failedLoginOf u cutoff) (parsed lines)))%nat.
Proof.
  revert n. induction lines as [|l lines IH]; intros n; simpl; [lia|].
  rewrite IH. destruct l as [r|raw]; simpl; [|reflexivity].
  unfold countFailedAttempt; simpl.
  destruct r as [e|s]; simpl.
  - unfold failedLogin. destruct (decide (user e = u)) as [Hu|Hu].
    + rewrite bool_decide_true by exact Hu. simpl.
      destruct (includes "LOGIN" (operation e)), (success e), (cutoff <? timestamp e);
        simpl; lia.
    + rewrite bool_decide_false by exact Hu. simpl. lia.
  - destruct (decide (sec_user s = u)); simpl; lia.
Qed.

Lemma collectOperation_spec (u : string) (cutoff : Z) (lines : list Line)
    (acc : list LogRecord) :
  foldl (collectOperation u cutoff) acc lines
  = acc ++ List.filter (fun r => bool_decide (rec_user r = u) && (cutoff <? rec_timestamp r))
                       (parsed lines).
Proof.
  revert acc. induction lines as [|l lines IH]; intros acc; simpl.
  - symmetry. apply app_nil_r.
  - rewrite IH. destruct l as [r|raw]; simpl; [|reflexivity].
    unfold collectOperation; simpl.
    destruct (bool_decide (rec_user r = u) && (cutoff <? rec_timestamp r)); simpl.
    + rewrite <- app_assoc. reflexivity.
    + reflexivity.
Qed.

(** *** Running the methods *)

Lemma noted_nil (w : World) : noted w [] = w.
Proof. destruct w. unfold noted, withLogged; simpl. rewrite app_nil_r. reflexivity. Qed.

Lemma noted_noted (w : World) (m1 m2 : list LogMsg) :
  noted (noted w m1) m2 = noted w (m1 ++ m2).
Proof. unfold noted, withLogged; simpl. rewrite app_assoc. reflexivity. Qed.

Lemma securityEvents_app (m1 m2 : list LogMsg) :
  securityEvents (m1 ++ m2) = securityEvents m1 ++ securityEvents m2.
Proof. apply omap_app. Qed.

Lemma getRecentFailedAttempts_run (u : string) (w : World) :
  exists msgs,
    securityEvents msgs = []
    /\ getRecentFailedAttempts u 5 w = (Ok (recentFailedLogins w u), noted w msgs).
Proof.
  unfold getRecentFailedAttempts, try_catch, recentFailedLogins.
  unfold mbind, M_bind, mret, M_ret, Date_now, readFileSync.
  destruct (files w !! auditLogPath) as [c|] eqn:Hc.
  - exists []. split; [reflexivity|]. rewrite noted_nil.
    rewrite countFailedAttempt_spec, (entriesOf_lookup w c Hc), parsed_read.
    reflexivity.
  - exists [{| level := LError; text := "Erro ao verificar tentativas falhadas:";
               payload := PError (IOError "ENOENT") |}].
    split; [reflexivity|].
    rewrite (entriesOf_missing w Hc). reflexivity.
Qed.

Lemma getRecentOperations_run (u : string) (w : World) :
  exists msgs,
    securityEvents msgs = []
    /\ getRecentOperations u 10 w = (Ok (recentOperationsOf w u), noted w msgs).
Proof.
  unfold getRecentOperations, try_catch, recentOperationsOf.
  unfold mbind, M_bind, mret, M_ret, Date_now, readFileSync.
  destruct (files w !! auditLogPath) as [c|] eqn:Hc.
  - exists []. split; [reflexivity|]. rewrite noted_nil.
    rewrite collectOperation_spec, (entriesOf_lookup w c Hc), parsed_read.
    reflexivity.
  - exists [{| level := LError; text := "Erro ao obter operações recentes:";
               payload := PError (IOError "ENOENT") |}].
    split; [reflexivity|].
    rewrite (entriesOf_missing w Hc). reflexivity.
Qed.

(** [logSecurityEvent] never throws; it hands one event to the logger
    and leaves the clock alone. *)
Lemma logSecurityEvent_run (event u : string) (d : Details) (w : World) :
  exists w',
    logSecurityEvent event u d w = (Ok tt, w')
    /\ clock w' = clock w
    /\ securityEvents (logged w')
       = securityEvents (logged w)
         ++ [{| sec_timestamp := clock w; sec_event := event; sec_user := u;
                sec_message := d_message d; sec_severity := d_severity d;
                sec_auditEntry := d_auditEntry d |}].
Proof.
  unfold logSecurityEvent, try_catch, appendFileSync, openAndWrite.
  unfold mbind, M_bind, mret, M_ret, Date_now, logger_warn, logger_error, logger_log.
  cbn [withLogged writable files room logged clock negb].
  destruct (writable w); cbn [negb].
  - match goal with |- context [if ?b then _ else _] => destruct b end;
      eexists; (split; [reflexivity|]); (split; [reflexivity|]);
      cbn [logged withLogged withFiles];
      rewrite ?securityEvents_app; cbn; rewrite ?app_nil_r; reflexivity.
  - eexists; (split; [reflexivity|]); (split; [reflexivity|]).
    cbn [logged withLogged]. rewrite !securityEvents_app. cbn.
    rewrite app_nil_r. reflexivity.
Qed.

Lemma forEach_logSecurityEvent (e : AuditEntry) (acts : list Activity) (w : World) :
  exists w',
    forEach acts (fun activity =>
      logSecurityEvent (act_type activity) (user e) {|
        d_message := Some (act_message activity);
        d_severity := Some (act_severity activity);
        d_auditEntry := Some e |}) w = (Ok tt, w')
    /\ clock w' = clock w
    /\ securityEvents (logged w')
       = securityEvents (logged w) ++ map (eventOf w e) acts.
Proof.
  revert w. induction acts as [|a acts IH]; intros w.
  - exists w. cbn. rewrite app_nil_r. auto.
  - cbn [forEach]. unfold mbind, M_bind.
    destruct (logSecurityEvent_run (act_type a) (user e)
                {| d_message := Some (act_message a);
                   d_severity := Some (act_severity a);
                   d_auditEntry := Some e |} w) as (w1 & Hrun & Hclock & Hev).
    rewrite Hrun.
    destruct (IH w1) as (w2 & Hrun2 & Hclock2 & Hev2).
    exists w2. split; [exact Hrun2|]. split; [congruence|].
    rewrite Hev2, Hev. cbn [map]. rewrite <- app_assoc.
    unfold eventOf. rewrite Hclock. reflexivity.
Qed.

Lemma sensitive_scan (cfg : SecurityConfig) (e : AuditEntry) :
  existsb (fun table =>
             truthyStr (resource e)
             && includes table (toUpperCase (default "" (resource e))))
          (sensitiveTables cfg)
  = touchesSensitive cfg (resource e).
Proof.
  unfold touchesSensitive, truthyStr.
  destruct (resource e) as [r|]; cbn [default].
  - destruct (decide (r = "")) as [Hr|Hr].
    + rewrite bool_decide_true by exact Hr. cbn [negb andb].
      induction (sensitiveTables cfg); [reflexivity | exact IHl].
    + rewrite bool_decide_false by exact Hr. reflexivity.
  - induction (sensitiveTables cfg); [reflexivity | exact IHl].
Qed.

Lemma securityEvents_noted (w : World) (msgs : list LogMsg) :
  securityEvents msgs = [] ->
  securityEvents (logged (noted w msgs)) = securityEvents (logged w).
Proof.
  intros H. unfold noted; cbn [logged withLogged].
  rewrite securityEvents_app, H. apply app_nil_r.
Qed.

(** The rules of [checkSuspiciousActivity]: the method never throws,
    and the events it hands to the logger are those of the activities
    that [suspiciousFor] lists, in that order. *)
Lemma checkSuspiciousActivity_run (cfg : SecurityConfig) (e : AuditEntry) (w : World) :
  exists w',
    checkSuspiciousActivity cfg e w = (Ok tt, w')
    /\ securityEvents (logged w')
       = securityEvents (logged w) ++ map (eventOf w e) (suspiciousFor cfg w e).
Proof.
  destruct (getRecentFailedAttempts_run (user e) w) as (m1 & Hm1 & Hrun1).
  assert (Hfirst : exists m acts,
    securityEvents m = []
    /\ acts = (if failedLogin e
                  && (maxFailedAttempts cfg <=? Z.of_nat (recentFailedLogins w (user e)))
               then [multipleFailedLogins e] else [])
    /\ (if negb (success e) && includes "LOGIN" (operation e)
        then failedAttempts ← getRecentFailedAttempts (user e) 5;
             mret (if maxFailedAttempts cfg <=? Z.of_nat failedAttempts
                   then [] ++ [multipleFailedLogins e] else [])
        else mret []) w = (Ok acts, noted w m)).
  { unfold failedLogin.
    destruct (negb (success e) && includes "LOGIN" (operation e)).
    - exists m1. eexists. split; [exact Hm1|]. split; [reflexivity|].
      unfold mbind, M_bind. rewrite Hrun1. cbn [andb app]. reflexivity.
    - exists []. eexists. split; [reflexivity|]. split; [reflexivity|].
      rewrite noted_nil. reflexivity. }
  destruct Hfirst as (m & acts1 & Hm & Hacts1 & Hstep1).
  destruct (getRecentOperations_run (user e) (noted w m)) as (m2 & Hm2 & Hrun2).
  unfold checkSuspiciousActivity.
  unfold mbind at 1. unfold M_bind at 1.
  change (multipleFailedLogins e) with
    {| act_type := "MULTIPLE_FAILED_LOGINS";
       act_message := "Múltiplas tentativas de login falhadas para usuário " +:+ user e;
       act_severity := HIGH |} in Hstep1.
  rewrite Hstep1.
  unfold mbind at 1. unfold M_bind at 1. unfold getHours at 1.
  unfold mbind at 1. unfold M_bind at 1. rewrite Hrun2.
  rewrite sensitive_scan.
  match goal with
  | |- context [forEach ?acts _ ?w0] =>
      destruct (forEach_logSecurityEvent e acts w0) as (w' & Hrun & _ & Hev)
  end.
  exists w'. split; [exact Hrun|].
  rewrite Hev, noted_noted, securityEvents_noted
    by (rewrite securityEvents_app, Hm, Hm2; reflexivity).
  f_equal. unfold suspiciousFor. rewrite <- Hacts1.
  change (tzOffset (noted w m)) with (tzOffset w).
  change (recentOperationsOf (noted w m) (user e)) with (recentOperationsOf w (user e)).
  fold (localHour w (timestamp e)).
  change (eventOf (noted w (m ++ m2)) e) with (eventOf w e).
  f_equal.
  destruct (touchesSensitive cfg (resource e));
    destruct ((localHour w (timestamp e) <? 6) || (22 <? localHour w (timestamp e)));
    destruct (50 <? length (recentOperationsOf w (user e)))%nat;
    cbn [app]; rewrite <- ?app_assoc, ?app_nil_r; reflexivity.
Qed.

Lemma emitted_checkSuspiciousActivity (cfg : SecurityConfig) (e : AuditEntry) (w : World) :
  emitted (checkSuspiciousActivity cfg e) w = map (eventOf w e) (suspiciousFor cfg w e).
Proof.
  destruct (checkSuspiciousActivity_run cfg e w) as (w' & Hrun & Hev).
  unfold emitted. rewrite Hrun. cbn [snd]. rewrite Hev.
  apply drop_app_length.
Qed.

Lemma filter_events (kind : string) (w : World) (e : AuditEntry) (acts : list Activity) :
  List.filter (ofKind kind) (map (eventOf w e) acts)
  = map (eventOf w e) (List.filter (fun a => bool_decide (act_type a = kind)) acts).
Proof.
  induction acts as [|a acts IH]; [reflexivity|].
  cbn [map List.filter]. unfold ofKind at 1. cbn [eventOf sec_event].
  destruct (bool_decide (act_type a = kind)); cbn [map]; rewrite IH; reflexivity.
Qed.

(** *** The rules *)

(** The events of one kind among those emitted for an entry: by cases on
    the conditions of the four rules. *)
Ltac by_rule_cases cfg e w :=
  rewrite emitted_checkSuspiciousActivity, filter_events;
  unfold suspiciousFor;
  destruct (failedLogin e
            && (maxFailedAttempts cfg <=? Z.of_nat (recentFailedLogins w (user e))));
  destruct (touchesSensitive cfg (resource e));
  destruct ((localHour w (timestamp e) <? 6) || (22 <? localHour w (timestamp e)));
  destruct (50 <? length (recentOperationsOf w (user e)))%nat;
  reflexivity.

(** C1.  Repeated-failure rule.  Evaluating an entry emits the event
    MULTIPLE_FAILED_LOGINS, once and at severity HIGH, exactly when the
    entry is a failed login-class operation and the failed login-class
    entries of its user in the log within the window number at least
    [maxFailedAttempts]; otherwise it emits none.  In particular, with
    [maxFailedAttempts = 5] and six such entries of bob within the
    window, evaluating bob's failed login emits exactly one. *)
Theorem C1_repeated_failure_rule (cfg : SecurityConfig) (e : AuditEntry) (w : World) :
  let found := List.filter (ofKind "MULTIPLE_FAILED_LOGINS")
                           (emitted (checkSuspiciousActivity cfg e) w) in
  found = (if failedLogin e
              && (maxFailedAttempts cfg <=? Z.of_nat (recentFailedLogins w (user e)))
           then [eventOf w e (multipleFailedLogins e)] else [])
  /\ sec_severity (eventOf w e (multipleFailedLogins e)) = Some HIGH
  /\ (maxFailedAttempts cfg = 5 -> user e = "bob" -> failedLogin e = true ->
      recentFailedLogins w "bob" = 6%nat ->
      found = [eventOf w e (multipleFailedLogins e)]).
Proof.
  intros found.
  assert (Hfound : found = (if failedLogin e
              && (maxFailedAttempts cfg <=? Z.of_nat (recentFailedLogins w (user e)))
           then [eventOf w e (multipleFailedLogins e)] else [])).
  { subst found. by_rule_cases cfg e w. }
  split; [exact Hfound|]. split; [reflexivity|].
  intros Hmax Hbob Hfailed Hsix.
  rewrite Hfound, Hfailed, Hmax, Hbob, Hsix. reflexivity.
Qed.

(** C1 on the log with six failed logins of bob within the window. *)
Lemma C1_six_failed_logins_of_bob :
  List.filter (ofKind "MULTIPLE_FAILED_LOGINS")
    (emitted (checkSuspiciousActivity defaultSecurityConfig (bobLogin 5)) bobWorld)
  = [eventOf bobWorld (bobLogin 5) (multipleFailedLogins (bobLogin 5))].
Proof.
  apply (proj2 (proj2 (C1_repeated_failure_rule defaultSecurityConfig (bobLogin 5) bobWorld)));
    vm_compute; reflexivity.
Defined.

(** Recording six failed logins of bob in an empty log: the fourth
    recording emits no MULTIPLE_FAILED_LOGINS event, the sixth emits one. *)
Example sixth_recorded_login_emits_one :
  List.filter (ofKind "MULTIPLE_FAILED_LOGINS")
    (emitted (logOperation defaultSecurityConfig bobAttempt) (afterAttempts 3)) = []
  /\ map sec_severity
        (List.filter (ofKind "MULTIPLE_FAILED_LOGINS")
           (emitted (logOperation defaultSecurityConfig bobAttempt) (afterAttempts 5)))
     = [Some HIGH].
Proof. split; vm_compute; reflexivity. Qed.

(** C2, as amended.  Sensitive-table rule.  Evaluating an entry whose
    resource is a text of ASCII characters emits the event
    SENSITIVE_TABLE_ACCESS, once and at severity MEDIUM, exactly when
    the resource is not empty and, in upper case, contains one of the
    configured names as they are written; the success flag of the entry
    plays no part. *)
Theorem C2_sensitive_table_rule (cfg : SecurityConfig) (e : AuditEntry) (w : World) :
  isAscii (default "" (resource e)) = true ->
  List.filter (ofKind "SENSITIVE_TABLE_ACCESS")
              (emitted (checkSuspiciousActivity cfg e) w)
  = (if touchesSensitive cfg (resource e)
     then [eventOf w e (sensitiveTableAccess e)] else [])
  /\ sec_severity (eventOf w e (sensitiveTableAccess e)) = Some MEDIUM.
Proof.
  intros _. split; [|reflexivity]. by_rule_cases cfg e w.
Qed.

(** C2 on a successful read of USERS, with USERS the one sensitive name. *)
Lemma C2_read_of_users_witness :
  List.filter (ofKind "SENSITIVE_TABLE_ACCESS")
              (emitted (checkSuspiciousActivity usersConfig usersRead) usersWorld)
  = [eventOf usersWorld usersRead (sensitiveTableAccess usersRead)]
  /\ sec_severity (eventOf usersWorld usersRead (sensitiveTableAccess usersRead))
     = Some MEDIUM.
Proof.
  apply (C2_sensitive_table_rule usersConfig usersRead usersWorld). reflexivity.
Defined.

(** C2 as stated fails: a successful read of USERS, with USERS the one
    sensitive name, emits no event at severity HIGH; the one event it
    emits has severity MEDIUM. *)
Lemma C2_no_event_at_high_severity :
  touchesSensitive usersConfig (resource usersRead) = true
  /\ ~ (exists s, In s (emitted (checkSuspiciousActivity usersConfig usersRead) usersWorld)
                 /\ sec_severity s = Some HIGH).
Proof.
  split; [reflexivity|].
  intros (s & Hin & Hsev).
  vm_compute in Hin.
  destruct Hin as [<-|[]]. discriminate Hsev.
Qed.

(** C3, as amended.  Unusual-time rule.  Evaluating an entry emits the
    event UNUSUAL_TIME_ACCESS, once and at severity LOW, exactly when
    the local hour of the entry is below 6 or above 22; for an hour
    from 6 to 22, both included, it emits none. *)
Theorem C3_unusual_time_rule (cfg : SecurityConfig) (e : AuditEntry) (w : World) :
  let hour := localHour w (timestamp e) in
  List.filter (ofKind "UNUSUAL_TIME_ACCESS")
              (emitted (checkSuspiciousActivity cfg e) w)
  = (if (hour <? 6) || (22 <? hour)
     then [eventOf w e (unusualTimeAccess e)] else [])
  /\ sec_severity (eventOf w e (unusualTimeAccess e)) = Some LOW
  /\ 0 <= hour < 24.
Proof.
  intros hour. subst hour. split; [|split; [reflexivity|]].
  - by_rule_cases cfg e w.
  - unfold localHour. apply Z.mod_pos_bound. lia.
Qed.

(** C3 as stated fails at hour 22, which lies outside [6,22): an entry
    of 22:30 local time emits no UNUSUAL_TIME_ACCESS event. *)
Lemma C3_hour_22_emits_nothing :
  localHour lateWorld (timestamp lateQuery) = 22
  /\ ~ (exists s, In s (emitted (checkSuspiciousActivity defaultSecurityConfig lateQuery)
                            lateWorld)
                 /\ sec_event s = "UNUSUAL_TIME_ACCESS").
Proof.
  split; [reflexivity|].
  intros (s & Hin & _).
  vm_compute in Hin. exact Hin.
Qed.

(** *** Recording *)

Lemma noted_files (w : World) (msgs : list LogMsg) : files (noted w msgs) = files w.
Proof. reflexivity. Qed.

Lemma entriesOf_noted (w : World) (msgs : list LogMsg) : entriesOf (noted w msgs) = entriesOf w.
Proof. reflexivity. Qed.

(** An append to a log that may not be written, or on a device that
    takes no more data, throws and adds no record. *)
Lemma appendFileSync_unwritable (data : list Line) (w : World) :
  writable w = false \/ room w = Some 0%nat ->
  data <> [] ->
  exists code w',
    appendFileSync auditLogPath data w = (Throw (IOError code), w')
    /\ entriesOf w' = entriesOf w
    /\ logged w' = logged w.
Proof.
  intros Hw Hdata. unfold appendFileSync, openAndWrite.
  destruct (writable w) eqn:Hwr; cbn [negb].
  - destruct Hw as [Hw|Hroom]; [discriminate|]. rewrite Hroom.
    destruct data as [|l data]; [contradiction|].
    cbn [length Nat.min Nat.ltb Nat.leb take fmap option_fmap option_map].
    eexists _, _. split; [reflexivity|]. split; [|reflexivity].
    unfold entriesOf, linesOf. cbn [files withFiles].
    rewrite lookup_insert_eq, app_nil_r.
    destruct (files w !! auditLogPath); reflexivity.
  - eexists _, _. split; [reflexivity|]. split; reflexivity.
Qed.

(** C8, as amended.  When the log cannot be appended to, [logOperation]
    returns normally: the error of the append is caught, handed to the
    logger and not surfaced to the caller; no record is added and the
    rules are not evaluated.  Nothing of this reaches the audited
    operation. *)
Theorem C8_unwritable_log_is_not_surfaced
    (cfg : SecurityConfig) (data : OperationData) (w : World) :
  writable w = false \/ room w = Some 0%nat ->
  exists err w',
    logOperation cfg data w = (Ok tt, w')
    /\ entriesOf w' = entriesOf w
    /\ logged w' = logged w ++ [errorMsg "Erro ao registrar operação de auditoria:" err].
Proof.
  intros Hw. unfold logOperation.
  unfold mbind at 1. unfold M_bind at 1. unfold Date_now at 1.
  unfold mbind at 1. unfold M_bind at 1. unfold getClientIP at 1.
  unfold mbind at 1. unfold M_bind at 1. unfold process_env at 1. unfold mret at 1. unfold M_ret at 1.
  unfold mbind at 1. unfold M_bind at 1. unfold getUserAgent at 1.
  unfold mbind at 1. unfold M_bind at 1. unfold process_env at 1. unfold mret at 1. unfold M_ret at 1.
  unfold try_catch.
  unfold mbind at 1. unfold M_bind at 1.
  match goal with
  | |- context [appendFileSync auditLogPath ?d w] =>
      destruct (appendFileSync_unwritable d w Hw) as (code & w1 & Hrun & Hent & Hlog);
        [discriminate|]
  end.
  rewrite Hrun. exists (IOError code). eexists. split; [reflexivity|].
  split.
  - exact Hent.
  - cbn [logged withLogged]. rewrite Hlog. reflexivity.
Qed.

(** C8 on a log that may not be opened for writing. *)
Lemma C8_read_only_log_witness :
  exists err w',
    logOperation defaultSecurityConfig createTable readOnlyWorld = (Ok tt, w')
    /\ entriesOf w' = entriesOf readOnlyWorld
    /\ logged w' = logged readOnlyWorld
                   ++ [errorMsg "Erro ao registrar operação de auditoria:" err].
Proof.
  apply (C8_unwritable_log_is_not_surfaced defaultSecurityConfig createTable readOnlyWorld).
  left. reflexivity.
Defined.

(** C8 as stated fails: on a log that may not be opened for writing the
    append throws, and yet [logOperation] does not fail towards its caller. *)
Lemma C8_no_error_reaches_the_caller :
  (exists l, fst (appendFileSync auditLogPath [l] readOnlyWorld) = Throw (IOError "EACCES"))
  /\ ~ (exists err, fst (logOperation defaultSecurityConfig createTable readOnlyWorld)
                    = Throw err).
Proof.
  split.
  - exists (Malformed ""). reflexivity.
  - intros (err & H). vm_compute in H. discriminate H.
Qed.

(** *** Retention *)























(** *** Reports and scans *)

Lemma parsed_without (c1 c2 : list Line) (raw : string) :
  parsed (c1 ++ Malformed raw :: c2) = parsed (c1 ++ c2).
Proof. rewrite !parsed_app. reflexivity. Qed.

Lemma collectFiltered_spec (startDate endDate : Z) (u op : option string)
    (ok : option bool) (lines : list Line) (acc : list LogRecord) :
  foldl (collectFiltered startDate endDate u op ok) acc lines
  = acc ++ List.filter (passesFilters startDate endDate u op ok) (parsed lines).
Proof.
  revert acc. induction lines as [|l lines IH]; intros acc; cbn [foldl].
  - symmetry. apply app_nil_r.
  - rewrite IH. destruct l as [r|raw]; [|reflexivity].
    unfold collectFiltered. cbn [JSON_parse parsed omap list_omap List.filter].
    destruct (passesFilters startDate endDate u op ok r).
    + rewrite <- app_assoc. reflexivity.
    + reflexivity.
Qed.

Lemma collectRecent_spec (cutoff : Z) (lines : list Line) (acc : list LogRecord) :
  foldl (collectRecent cutoff) acc lines
  = acc ++ List.filter (fun r => cutoff <? rec_timestamp r) (parsed lines).
Proof.
  revert acc. induction lines as [|l lines IH]; intros acc; cbn [foldl].
  - symmetry. apply app_nil_r.
  - rewrite IH. destruct l as [r|raw]; [|reflexivity].
    unfold collectRecent. cbn [JSON_parse parsed omap list_omap List.filter].
    destruct (cutoff <? rec_timestamp r).
    + rewrite <- app_assoc. reflexivity.
    + reflexivity.
Qed.

(** A report on a log that can be read is the formatted list of the
    matching records, and the world stays as it is. *)
Lemma generateAuditReport_run (toFixed2 : nat -> nat -> string)
    (options : ReportOptions) (w : World) :
  is_Some (files w !! auditLogPath) ->
  generateAuditReport toFixed2 options w
  = (Ok (formatAuditReport toFixed2 (matching w options) options), w).
Proof.
  intros [c Hc]. unfold generateAuditReport, try_catch.
  unfold mbind at 1. unfold M_bind at 1. unfold Date_now at 1.
  unfold mbind at 1. unfold M_bind at 1. unfold readFileSync at 1.
  rewrite Hc. unfold mret, M_ret.
  rewrite collectFiltered_spec, parsed_read. cbn [app].
  unfold matching, matches. rewrite (entriesOf_lookup w c Hc). reflexivity.
Qed.

(** What a scan returns and logs is determined by the records of the log
    and the clock. *)
Lemma detectSuspiciousActivity_run (w : World) (c : list Line) :
  files w !! auditLogPath = Some c ->
  let recent := List.filter (fun r => clock w - 24 * 60 * 60 * 1000 <? rec_timestamp r)
                            (parsed c) in
  detectSuspiciousActivity w =
    match foldR checkUser [] (groupBy rec_user recent) with
    | Ok acts =>
        (Ok (foldl checkIp acts (groupBy (fun entry => show (rec_ip entry)) recent)), w)
    | Throw e =>
        (Ok [], noted w [errorMsg "Erro ao detectar atividades suspeitas:" e])
    end.
Proof.
  intros Hc recent. subst recent. unfold detectSuspiciousActivity, try_catch.
  unfold mbind at 1. unfold M_bind at 1. unfold readFileSync at 1.
  rewrite Hc.
  unfold mbind at 1. unfold M_bind at 1. unfold Date_now at 1.
  unfold mbind at 1. unfold M_bind at 1. unfold liftR at 1.
  rewrite collectRecent_spec, parsed_read. cbn [app].
  destruct (foldR checkUser [] _); reflexivity.
Qed.

Lemma entriesOf_withLog (c : list Line) (w : World) : entriesOf (withLog c w) = parsed c.
Proof.
  apply entriesOf_lookup. unfold withLog. cbn [files withFiles].
  apply lookup_insert_eq.
Qed.

(** C7, as amended.  A line of the log that does not parse is skipped by
    a report and by a scan: each returns, and logs, what it returns and
    logs on the log without that line, the records that a report is
    about are the same, and neither throws.  (The skipped lines are not
    counted anywhere.) *)
Theorem C7_malformed_lines_are_skipped (toFixed2 : nat -> nat -> string)
    (options : ReportOptions) (w : World) (c1 c2 : list Line) (raw : string) :
  files w !! auditLogPath = Some (c1 ++ Malformed raw :: c2) ->
  let w0 := withLog (c1 ++ c2) w in
  matching w options = matching w0 options
  /\ outcome (generateAuditReport toFixed2 options) w
     = outcome (generateAuditReport toFixed2 options) w0
  /\ (exists report, fst (generateAuditReport toFixed2 options w) = Ok report)
  /\ outcome detectSuspiciousActivity w = outcome detectSuspiciousActivity w0
  /\ (exists acts, fst (detectSuspiciousActivity w) = Ok acts).
Proof.
  intros Hc w0.
  assert (Hc0 : files w0 !! auditLogPath = Some (c1 ++ c2)).
  { subst w0. unfold withLog. cbn [files withFiles]. apply lookup_insert_eq. }
  assert (Hm : matching w options = matching w0 options).
  { unfold matching, matches. subst w0. rewrite entriesOf_withLog.
    rewrite (entriesOf_lookup w _ Hc), parsed_without. reflexivity. }
  split; [exact Hm|].
  unfold outcome.
  rewrite (generateAuditReport_run toFixed2 options w) by (eexists; exact Hc).
  rewrite (generateAuditReport_run toFixed2 options w0) by (eexists; exact Hc0).
  rewrite (detectSuspiciousActivity_run w _ Hc).
  rewrite (detectSuspiciousActivity_run w0 _ Hc0).
  cbv zeta. rewrite parsed_without, Hm.
  change (clock w0) with (clock w).
  split; [reflexivity|]. split; [eexists; reflexivity|].
  destruct (foldR checkUser [] _); cbn [fst snd]; (split; [reflexivity | eexists; reflexivity]).
Qed.

(** C7 on the mixed log and the log without its malformed line. *)
Lemma C7_mixed_log_witness :
  outcome (generateAuditReport rateText anyOptions) mixedWorld
  = outcome (generateAuditReport rateText anyOptions)
            (withLog [JsonLine (RAudit oldEntry); JsonLine (RAudit noonEntry)] mixedWorld).
Proof.
  apply (C7_malformed_lines_are_skipped rateText anyOptions mixedWorld
           [JsonLine (RAudit oldEntry)] [JsonLine (RAudit noonEntry)] "{truncated").
  reflexivity.
Defined.

(** C7 as stated fails in that the skipped lines are not counted: no
    reading of what a report returns and logs tells how many lines of
    the log were malformed.  The mixed log has one such line, the log
    without it has none, and the report is the same on both. *)
Lemma C7_skipped_lines_are_not_counted :
  ~ (exists count : Result string * list LogMsg -> nat,
       forall w : World,
         count (outcome (generateAuditReport rateText anyOptions) w)
         = length (List.filter isMalformed (linesOf w))).
Proof.
  intros (count & Hcount).
  pose proof (Hcount mixedWorld) as H1.
  pose proof (Hcount (withLog [JsonLine (RAudit oldEntry); JsonLine (RAudit noonEntry)]
                              mixedWorld)) as H0.
  assert (Hsame :
    outcome (generateAuditReport rateText anyOptions) mixedWorld
    = outcome (generateAuditReport rateText anyOptions)
              (withLog [JsonLine (RAudit oldEntry); JsonLine (RAudit noonEntry)] mixedWorld))
    by (vm_compute; reflexivity).
  rewrite <- Hsame, H1 in H0. vm_compute in H0. discriminate H0.
Qed.

Lemma append_assoc (a b c : string) : (a +:+ b) +:+ c = a +:+ (b +:+ c).
Proof.
  induction a as [|x a IH]; [reflexivity|].
  change (String x ((a +:+ b) +:+ c) = String x (a +:+ (b +:+ c))).
  rewrite IH. reflexivity.
Qed.

Lemma formatAuditReport_nil (toFixed2 : nat -> nat -> string) (options : ReportOptions) :
  formatAuditReport toFixed2 [] options = emptyReport options.
Proof.
  unfold formatAuditReport, emptyReport. cbn [length Nat.eqb].
  change (pretty 0%nat) with "0".
  rewrite !append_assoc. reflexivity.
Qed.

(** C9.  A report whose filters match none of the stored records is the
    header with the total 0 followed by the note that no operation was
    found in the period.  No rate is computed for it: the text is the
    same whatever the rendering of rates is. *)
Theorem C9_report_on_no_entries (toFixed2 : nat -> nat -> string)
    (options : ReportOptions) (w : World) :
  is_Some (files w !! auditLogPath) ->
  matching w options = [] ->
  generateAuditReport toFixed2 options w = (Ok (emptyReport options), w)
  /\ formatAuditReport toFixed2 [] options = emptyReport options.
Proof.
  intros Hfile Hnone.
  rewrite (generateAuditReport_run toFixed2 options w Hfile), Hnone.
  rewrite formatAuditReport_nil. split; reflexivity.
Qed.

(** C9 on a report about a user without records. *)
Lemma C9_nobody_witness :
  generateAuditReport rateText nobodyOptions mixedWorld
  = (Ok (emptyReport nobodyOptions), mixedWorld)
  /\ formatAuditReport rateText [] nobodyOptions = emptyReport nobodyOptions.
Proof.
  apply (C9_report_on_no_entries rateText nobodyOptions mixedWorld);
    [eexists; reflexivity | vm_compute; reflexivity].
Defined.

End AuditProofs.

(** ** Properties of the notification bus *)

Module NotifyProofs.
Import Js Notify NotifySpec NotifyExamples.

(** The delivery loop over some subscribers: every one is called once,
    in order; a call that fails is logged and the loop goes on. *)
Lemma deliver_run (n : Obj) (msg : string) (hs : list Handler) (s : Service) :
  exists s',
    forEach hs (fun callback =>
      try_catch (call callback n) (fun error => logger_error msg)) s = (Ok tt, s')
    /\ calls s' = calls s ++ map (fun h => (hid h, n)) hs
    /\ logged s' = logged s
                   ++ map (fun _ => {| level := LError; text := msg |})
                          (List.filter (fun h => fails h n) hs)
    /\ subscribers s' = subscribers s
    /\ notifications s' = notifications s.
Proof.
  revert s. induction hs as [|h hs IH]; intros s.
  - exists s. cbn. rewrite !app_nil_r. auto.
  - cbn [forEach]. unfold mbind, M_bind, try_catch, call.
    destruct (fails h n) eqn:Hf.
    + unfold logger_error, logger_log, modify.
      match goal with
      | |- context [forEach hs _ ?s1] => destruct (IH s1) as (s' & Hrun & Hc & Hl & Hs & Hn)
      end.
      exists s'. split; [exact Hrun|]. cbn [calls logged subscribers notifications] in *.
      rewrite Hc, Hl, Hs, Hn. cbn [map List.filter]. rewrite Hf. cbn [map].
      rewrite <- !app_assoc. auto.
    + match goal with
      | |- context [forEach hs _ ?s1] => destruct (IH s1) as (s' & Hrun & Hc & Hl & Hs & Hn)
      end.
      exists s'. split; [exact Hrun|]. cbn [calls logged subscribers notifications] in *.
      rewrite Hc, Hl, Hs, Hn. cbn [map List.filter]. rewrite Hf.
      rewrite <- !app_assoc. auto.
Qed.

Lemma notifySubscribers_run (n : Obj) (s : Service) :
  exists s',
    notifySubscribers n s = (Ok tt, s')
    /\ calls s' = calls s ++ map (fun h => (hid h, n)) (handlersFor s n)
    /\ logged s' = logged s ++ failuresFor s n
    /\ subscribers s' = subscribers s
    /\ notifications s' = notifications s.
Proof.
  unfold notifySubscribers, handlersFor, failuresFor.
  unfold mbind at 1. unfold M_bind at 1. unfold getSubscribers at 1.
  unfold mbind at 1. unfold M_bind at 1.
  assert (Hfirst : exists s1,
    match typeOf n ≫= (subscribers s !!.) with
    | Some callbacks =>
        forEach callbacks (fun callback =>
          try_catch (call callback n)
            (fun error => logger_error ("Erro ao notificar subscriber para "
                                        +:+ show (typeOf n) +:+ ":")))
    | None => mret tt
    end s = (Ok tt, s1)
    /\ calls s1 = calls s ++ map (fun h => (hid h, n))
                                 (default [] (typeOf n ≫= (subscribers s !!.)))
    /\ logged s1 = logged s
         ++ map (fun _ => {| level := LError;
                             text := "Erro ao notificar subscriber para "
                                     +:+ show (typeOf n) +:+ ":" |})
                (List.filter (fun h => fails h n)
                             (default [] (typeOf n ≫= (subscribers s !!.))))
    /\ subscribers s1 = subscribers s
    /\ notifications s1 = notifications s).
  { destruct (typeOf n ≫= (subscribers s !!.)) as [callbacks|]; cbn [default].
    - apply deliver_run.
    - exists s. cbn. rewrite !app_nil_r. auto. }
  destruct Hfirst as (s1 & Hrun1 & Hc1 & Hl1 & Hs1 & Hn1).
  rewrite Hrun1.
  unfold mbind at 1. unfold M_bind at 1. unfold getSubscribers at 1.
  rewrite Hs1.
  assert (Hsecond : exists s2,
    match subscribers s !! "*" with
    | Some callbacks =>
        forEach callbacks (fun callback =>
          try_catch (call callback n)
            (fun error => logger_error "Erro ao notificar subscriber geral:"))
    | None => mret tt
    end s1 = (Ok tt, s2)
    /\ calls s2 = calls s1 ++ map (fun h => (hid h, n)) (default [] (subscribers s !! "*"))
    /\ logged s2 = logged s1
         ++ map (fun _ => {| level := LError; text := "Erro ao notificar subscriber geral:" |})
                (List.filter (fun h => fails h n) (default [] (subscribers s !! "*")))
    /\ subscribers s2 = subscribers s1
    /\ notifications s2 = notifications s1).
  { destruct (subscribers s !! "*") as [callbacks|]; cbn [default].
    - apply deliver_run.
    - exists s1. cbn. rewrite !app_nil_r. auto. }
  destruct Hsecond as (s2 & Hrun2 & Hc2 & Hl2 & Hs2 & Hn2).
  exists s2. split; [exact Hrun2|].
  rewrite Hc2, Hc1, Hl2, Hl1, Hs2, Hs1, Hn2, Hn1, map_app, <- !app_assoc. auto.
Qed.

Lemma subscribe_run (eventType : string) (h : Handler) (s : Service) :
  exists s',
    subscribe eventType h s = (Ok tt, s')
    /\ subscribers s' !! eventType = Some (default [] (subscribers s !! eventType) ++ [h])
    /\ (forall t, t <> eventType -> subscribers s' !! t = subscribers s !! t)
    /\ calls s' = calls s.
Proof.
  unfold subscribe, getSubscribers, setSubscribers, logger_info, logger_log, modify.
  unfold mbind, M_bind.
  eexists. split; [reflexivity|]. cbn [subscribers calls].
  destruct (subscribers s !! eventType) as [hs|] eqn:Hl.
  - rewrite bool_decide_true by (eexists; reflexivity).
    rewrite Hl. split; [apply lookup_insert_eq|].
    split; [|reflexivity]. intros t Ht. apply lookup_insert_ne. congruence.
  - rewrite bool_decide_false by (intros [x Hx]; discriminate Hx).
    rewrite !lookup_insert_eq. split; [reflexivity|].
    split; [|reflexivity]. intros t Ht.
    rewrite !lookup_insert_ne by congruence. reflexivity.
Qed.

(** Sending a notification stores it, delivers it to the subscribers of
    its type and of the wildcard type, and returns it; it never throws. *)
Lemma sendNotification_run (type message : string) (details : Obj) (s : Service) :
  let n := notificationOf s type message details in
  exists s',
    sendNotification type message details s = (Ok n, s')
    /\ notifications s' = notifications s ++ [n]
    /\ calls s' = calls s ++ map (fun h => (hid h, n)) (handlersFor s n).
Proof.
  intros n. unfold sendNotification.
  unfold mbind at 1. unfold M_bind at 1. unfold generateNotificationId at 1.
  unfold mbind at 1. unfold M_bind at 1. unfold Date_now at 1.
  cbn [clock randoms drawn]. fold (idAt s (drawn s)). fold (notificationOf s type message details).
  fold n. unfold try_catch.
  unfold mbind at 1. unfold M_bind at 1. unfold pushNotification at 1. unfold modify at 1.
  unfold mbind at 1. unfold M_bind at 1.
  unfold logNotification at 1. unfold try_catch at 1. unfold appendFileSync at 1.
  cbn [logWritable].
  destruct (logWritable s).
  - unfold mbind at 1. unfold M_bind at 1.
    match goal with
    | |- context [notifySubscribers n ?s1] =>
        destruct (notifySubscribers_run n s1) as (s2 & Hrun & Hc & _ & _ & Hn)
    end.
    rewrite Hrun. unfold mbind, M_bind, logger_info, logger_log, modify, mret, M_ret.
    eexists. split; [reflexivity|]. cbn [notifications calls] in *.
    rewrite Hn, Hc. auto.
  - unfold logger_error at 1. unfold logger_log at 1. unfold modify at 1.
    unfold mbind at 1. unfold M_bind at 1.
    match goal with
    | |- context [notifySubscribers n ?s1] =>
        destruct (notifySubscribers_run n s1) as (s2 & Hrun & Hc & _ & _ & Hn)
    end.
    rewrite Hrun. unfold mbind, M_bind, logger_info, logger_log, modify, mret, M_ret.
    eexists. split; [reflexivity|]. cbn [notifications calls] in *.
    rewrite Hn, Hc. auto.
Qed.

(** C4.  Publishing a notification calls every subscriber registered
    for its type, once per registration and in the order of
    registration, and then every subscriber registered for the wildcard
    type, likewise; no other subscriber is called.  A call that fails is
    caught and logged, the calls after it are still made, and the
    publisher gets no error.  A registration appends the subscriber to
    the list of its type. *)
Theorem C4_publish_fans_out (n : Obj) (s : Service) :
  exists s',
    notifySubscribers n s = (Ok tt, s')
    /\ callsSince s s' = map (fun h => (hid h, n)) (handlersFor s n)
    /\ logged s' = logged s ++ failuresFor s n
    /\ (forall k, (forall h, In h (handlersFor s n) -> hid h <> k) ->
                  forall m, ~ In (k, m) (callsSince s s'))
    /\ (forall eventType h, exists s1,
          subscribe eventType h s = (Ok tt, s1)
          /\ subscribers s1 !! eventType
             = Some (default [] (subscribers s !! eventType) ++ [h])
          /\ forall t, t <> eventType -> subscribers s1 !! t = subscribers s !! t).
Proof.
  destruct (notifySubscribers_run n s) as (s' & Hrun & Hc & Hl & _ & _).
  assert (Hsince : callsSince s s' = map (fun h => (hid h, n)) (handlersFor s n)).
  { unfold callsSince. rewrite Hc. apply drop_app_length. }
  exists s'. split; [exact Hrun|]. split; [exact Hsince|]. split; [exact Hl|]. split.
  - intros k Hk m Hin. rewrite Hsince in Hin.
    apply in_map_iff in Hin. destruct Hin as (h & Heq & Hh).
    inversion Heq; subst. exact (Hk h Hh eq_refl).
  - intros eventType h.
    destruct (subscribe_run eventType h s) as (s1 & Hsub & Hnew & Hold & _).
    exists s1. auto.
Qed.

(** C4 on the scenario of the bus: with a failing and a succeeding subscriber
    on type X and a third on type Y, publishing a notification of type X
    calls the first two once each, in that order, and logs one error. *)
Lemma C4_failing_subscriber_witness :
  exists s',
    notifySubscribers noteX subscribed = (Ok tt, s')
    /\ callsSince subscribed s' = [(1%nat, noteX); (2%nat, noteX)]
    /\ (forall m, ~ In (3%nat, m) (callsSince subscribed s')).
Proof.
  destruct (C4_publish_fans_out noteX subscribed) as (s' & Hrun & Hc & _ & Hnot & _).
  exists s'. split; [exact Hrun|]. split; [exact Hc|].
  apply Hnot. intros h Hin. vm_compute in Hin.
  destruct Hin as [<-|[<-|[]]]; discriminate.
Defined.

(** *** Export and import *)

Lemma getProp_setProp_ne (o : Obj) (k k' : string) (v : Json) :
  k <> k' -> getProp (setProp o k v) k' = getProp o k'.
Proof.
  intros Hne. induction o as [|[k0 v0] o IH]; cbn [setProp getProp].
  - destruct (decide (k = k')); [contradiction | reflexivity].
  - destruct (decide (k0 = k)) as [->|Hk0]; cbn [getProp].
    + destruct (decide (k = k')); [contradiction | reflexivity].
    + destruct (decide (k0 = k')); [reflexivity | exact IH].
Qed.

Lemma imported_length (s : Service) (k : nat) (valid : list Obj) :
  length (imported s k valid) = length valid.
Proof.
  revert k. induction valid as [|o valid IH]; intros k; cbn; [reflexivity|].
  rewrite IH. reflexivity.
Qed.

Lemma imported_messages (s : Service) (k : nat) (valid : list Obj) :
  map messageOf (imported s k valid) = map messageOf valid.
Proof.
  revert k. induction valid as [|o valid IH]; intros k; cbn [imported map]; [reflexivity|].
  rewrite IH. unfold messageOf at 1. rewrite getProp_setProp_ne by discriminate.
  reflexivity.
Qed.

Lemma imported_ext (s1 s2 : Service) (k : nat) (valid : list Obj) :
  clock s1 = clock s2 -> randoms s1 = randoms s2 ->
  imported s1 k valid = imported s2 k valid.
Proof.
  intros Hc Hr. revert k. induction valid as [|o valid IH]; intros k; cbn; [reflexivity|].
  rewrite IH. unfold idAt. rewrite Hc, Hr. reflexivity.
Qed.

(** The validation of an object: its verdict is [isValid], and it
    changes nothing but the messages of the logger. *)
Lemma validateNotification_run (o : Obj) (s : Service) :
  exists s',
    validateNotification (JObj o) s = (Ok (isValid o), s')
    /\ notifications s' = notifications s
    /\ clock s' = clock s /\ randoms s' = randoms s /\ drawn s' = drawn s.
Proof.
  unfold validateNotification, isValid. cbn [checkFields].
  unfold mbind, M_bind, liftR, propOf, logger_warn, logger_log, modify, mret, M_ret.
  destruct (truthy (getProp o "type")); cbn [negb andb];
    [|eexists; split; [reflexivity|]; auto].
  destruct (truthy (getProp o "message")); cbn [negb andb];
    [|eexists; split; [reflexivity|]; auto].
  destruct (truthy (getProp o "timestamp")); cbn [negb andb];
    eexists; (split; [reflexivity|]); auto.
Qed.

Lemma importOne_run (count : nat) (o : Obj) (s : Service) :
  exists s',
    importOne count (JObj o) s
    = (Ok (if isValid o then S count else count), s')
    /\ notifications s'
       = notifications s
         ++ (if isValid o then [setProp o "id" (JStr (idAt s (drawn s)))] else [])
    /\ clock s' = clock s /\ randoms s' = randoms s
    /\ drawn s' = (if isValid o then S (drawn s) else drawn s).
Proof.
  unfold importOne. unfold mbind at 1. unfold M_bind at 1.
  destruct (validateNotification_run o s) as (s1 & Hrun & Hn & Hc & Hr & Hd).
  rewrite Hrun. destruct (isValid o).
  - unfold mbind, M_bind, generateNotificationId, pushNotification, modify, mret, M_ret.
    eexists. split; [reflexivity|]. cbn [notifications clock randoms drawn].
    unfold idAt. rewrite Hn, Hc, Hr, Hd. auto.
  - exists s1. split; [reflexivity|]. rewrite app_nil_r. auto.
Qed.

Lemma importAll_run (count : nat) (ns : list Obj) (s : Service) :
  exists s',
    foldM importOne count (JObj <$> ns) s
    = (Ok (count + length (List.filter isValid ns))%nat, s')
    /\ notifications s'
       = notifications s ++ imported s (drawn s) (List.filter isValid ns).
Proof.
  revert count s. induction ns as [|o ns IH]; intros count s.
  - exists s. cbn. rewrite Nat.add_0_r, app_nil_r. auto.
  - cbn [fmap list_fmap foldM]. unfold mbind at 1. unfold M_bind at 1.
    destruct (importOne_run count o s) as (s1 & Hrun & Hn & Hc & Hr & Hd).
    rewrite Hrun.
    destruct (IH (if isValid o then S count else count) s1) as (s2 & Hrun2 & Hn2).
    exists s2. split.
    + rewrite Hrun2. cbn [List.filter]. destruct (isValid o); cbn [length];
        do 2 f_equal; lia.
    + rewrite Hn2, Hn, (imported_ext s1 s _ _ Hc Hr), Hd.
      cbn [List.filter]. destruct (isValid o); cbn [imported].
      * rewrite <- app_assoc. reflexivity.
      * rewrite app_nil_r. reflexivity.
Qed.

(** C5, as amended.  Exporting the notifications of a service to JSON
    and importing the text into a service without notifications yields
    the notifications that pass the validation of the import, in their
    order, each with an identifier made anew; a notification whose type,
    message or timestamp is empty is left out.  When every notification
    passes, the count and the messages are those of the original list.
    The serialisers of the host are assumed to give back the exported
    document. *)
Theorem C5_import_of_export
    (JSON_stringify : Json -> string) (JSON_parse : string -> Result Json)
    (src dst : Service) :
  JSON_parse (JSON_stringify (exported src)) = Ok (exported src) ->
  notifications dst = [] ->
  let valid := List.filter isValid (notifications src) in
  exists text dst',
    exportNotifications JSON_stringify "json" src = (Ok text, src)
    /\ importNotifications JSON_parse text "json" dst
       = (Ok (length valid), dst')
    /\ notifications dst' = imported dst (drawn dst) valid
    /\ length (notifications dst') = length valid
    /\ map messageOf (notifications dst') = map messageOf valid
    /\ (forallb isValid (notifications src) = true ->
        length (notifications dst') = length (notifications src)
        /\ map messageOf (notifications dst') = map messageOf (notifications src)).
Proof.
  intros Hcodec Hempty valid.
  exists (JSON_stringify (exported src)).
  destruct (importAll_run 0 (notifications src) dst) as (s1 & Hrun & Hn).
  fold valid in Hrun, Hn. rewrite Hempty in Hn. cbn [app] in Hn.
  unfold exportNotifications, importNotifications, try_catch.
  destruct (decide ("json" = "json")) as [_|Hne]; [|contradiction].
  eexists. split; [reflexivity|].
  unfold mbind at 1. unfold M_bind at 1.
  unfold liftR at 1. rewrite Hcodec. unfold exported.
  unfold mbind at 1. unfold M_bind at 1. rewrite Hrun.
  unfold mbind, M_bind, logger_info, logger_log, modify, mret, M_ret.
  split; [reflexivity|]. cbn [notifications].
  assert (Hlen : length (notifications s1) = length valid)
    by (rewrite Hn; apply imported_length).
  assert (Hmsg : map messageOf (notifications s1) = map messageOf valid)
    by (rewrite Hn; apply imported_messages).
  split; [exact Hn|]. split; [exact Hlen|]. split; [exact Hmsg|].
  intros Hall.
  assert (Hvalid : valid = notifications src).
  { subst valid. clear -Hall. induction (notifications src) as [|o ns IH]; [reflexivity|].
    cbn in Hall. apply andb_prop in Hall. destruct Hall as [Ho Hns].
    cbn [List.filter]. rewrite Ho, (IH Hns). reflexivity. }
  rewrite Hlen, Hmsg, Hvalid. auto.
Qed.

(** C5 on a service that sent two notifications, with the printer and
    the parser of [JsonText] as serialisers. *)
Lemma C5_two_notifications_witness :
  exists text dst',
    exportNotifications JsonText.stringify "json" sender = (Ok text, sender)
    /\ importNotifications JsonText.parse text "json" fresh = (Ok 2%nat, dst')
    /\ map messageOf (notifications dst')
       = [Some (JStr "backup done"); Some (JStr "disk almost full")].
Proof.
  destruct (C5_import_of_export JsonText.stringify JsonText.parse
              sender fresh) as (text & dst' & Hout & Hin & _ & _ & Hmsg & _).
  - vm_compute. reflexivity.
  - reflexivity.
  - exists text, dst'. split; [exact Hout|]. split; [exact Hin|]. exact Hmsg.
Defined.

(** C5 as stated fails on a notification with an empty message: the
    service that sent it holds one notification, and importing its
    export into a service without notifications adds none. *)
Lemma C5_empty_message_is_not_imported :
  length (notifications silentSender) = 1%nat
  /\ exists text dst',
       exportNotifications JsonText.stringify "json" silentSender
       = (Ok text, silentSender)
       /\ JsonText.parse text = Ok (exported silentSender)
       /\ importNotifications JsonText.parse text "json" fresh = (Ok 0%nat, dst')
       /\ notifications dst' = [].
Proof.
  split; [reflexivity|].
  eexists. eexists. split; [reflexivity|]. split; [vm_compute; reflexivity|].
  split; [vm_compute; reflexivity|]. reflexivity.
Qed.

End NotifyProofs.

(** ** Further properties of the audit log *)

Module AuditExtra.
Import Js JsMore Audit AuditSpec AuditExamples AuditMore AuditProofs.

(** *** Recent history *)

Lemma filter_length_le {A} (p q : A -> bool) (l : list A) :
  (forall x, p x = true -> q x = true) ->
  (length (List.filter p l) <= length (List.filter q l))%nat.
Proof.
  intros Hpq. induction l as [|x l IH]; [reflexivity|].
  cbn [List.filter]. destruct (p x) eqn:Hp.
  - rewrite (Hpq x Hp). cbn [length]. lia.
  - destruct (q x); cbn [length]; lia.
Qed.

Lemma recentFailed_run (u : string) (minutes : Z) (w : World) :
  exists msgs,
    getRecentFailedAttempts u minutes w
    = (Ok (length (List.filter (failedLoginOf u (clock w - minutes * 60 * 1000))
                               (entriesOf w))),
       noted w msgs)
    /\ (is_Some (files w !! auditLogPath) -> msgs = [])
    /\ (files w !! auditLogPath = None ->
        msgs = [errorMsg "Erro ao verificar tentativas falhadas:" (IOError "ENOENT")]).
Proof.
  unfold getRecentFailedAttempts, try_catch.
  unfold mbind, M_bind, mret, M_ret, Date_now, readFileSync.
  destruct (files w !! auditLogPath) as [c|] eqn:Hc.
  - exists []. rewrite noted_nil, countFailedAttempt_spec, (entriesOf_lookup w c Hc), parsed_read.
    split; [reflexivity|]. split; [reflexivity|]. intros H; discriminate H.
  - eexists. split; [rewrite (entriesOf_missing w Hc); reflexivity|].
    split; [intros [x Hx]; discriminate Hx | reflexivity].
Qed.

Lemma recentOperations_run (u : string) (minutes : Z) (w : World) :
  exists msgs,
    getRecentOperations u minutes w
    = (Ok (List.filter (fun r => bool_decide (rec_user r = u)
                                 && (clock w - minutes * 60 * 1000 <? rec_timestamp r))
                       (entriesOf w)),
       noted w msgs)
    /\ (is_Some (files w !! auditLogPath) -> msgs = [])
    /\ (files w !! auditLogPath = None ->
        msgs = [errorMsg "Erro ao obter operações recentes:" (IOError "ENOENT")]).
Proof.
  unfold getRecentOperations, try_catch.
  unfold mbind, M_bind, mret, M_ret, Date_now, readFileSync.
  destruct (files w !! auditLogPath) as [c|] eqn:Hc.
  - exists []. rewrite noted_nil, collectOperation_spec, (entriesOf_lookup w c Hc), parsed_read.
    split; [reflexivity|]. split; [reflexivity|]. intros H; discriminate H.
  - eexists. split; [rewrite (entriesOf_missing w Hc); reflexivity|].
    split; [intros [x Hx]; discriminate Hx | reflexivity].
Qed.

(** X1.  For the same user and the same number of minutes, the count of
    [getRecentFailedAttempts] never exceeds the number of records that
    [getRecentOperations] returns; neither method throws, and every
    record returned is of that user and later than the cutoff. *)
Theorem X1_failed_attempts_within_recent_operations (u : string) (minutes : Z) (w : World) :
  exists n ops w1 w2,
    getRecentFailedAttempts u minutes w = (Ok n, w1)
    /\ getRecentOperations u minutes w = (Ok ops, w2)
    /\ (n <= length ops)%nat
    /\ (forall r, In r ops ->
          rec_user r = u /\ clock w - minutes * 60 * 1000 < rec_timestamp r).
Proof.
  destruct (recentFailed_run u minutes w) as (m1 & Hf & _).
  destruct (recentOperations_run u minutes w) as (m2 & Ho & _).
  eexists _, _, _, _. split; [exact Hf|]. split; [exact Ho|]. split.
  - apply filter_length_le. intros [e|s]; cbn [failedLoginOf rec_user rec_timestamp].
    + intros H. apply andb_prop in H. destruct H as [H Ht].
      apply andb_prop in H. destruct H as [Hu _]. rewrite Hu, Ht. reflexivity.
    + discriminate.
  - intros r Hr. apply filter_In in Hr. destruct Hr as [_ Hr].
    apply andb_prop in Hr. destruct Hr as [Hu Ht].
    apply bool_decide_eq_true in Hu. apply Z.ltb_lt in Ht. auto.
Qed.

(** X2.  When the log cannot be read, the rules that look at the recent
    history stay silent: for a positive [maxFailedAttempts] evaluating
    any entry emits neither MULTIPLE_FAILED_LOGINS nor
    HIGH_FREQUENCY_OPERATIONS, and the evaluation does not throw. *)
Theorem X2_unreadable_log_silences_history_rules
    (cfg : SecurityConfig) (e : AuditEntry) (w : World) :
  files w !! auditLogPath = None ->
  0 < maxFailedAttempts cfg ->
  fst (checkSuspiciousActivity cfg e w) = Ok tt
  /\ (forall s, In s (emitted (checkSuspiciousActivity cfg e) w) ->
        sec_event s <> "MULTIPLE_FAILED_LOGINS"
        /\ sec_event s <> "HIGH_FREQUENCY_OPERATIONS").
Proof.
  intros Hmissing Hmax.
  destruct (checkSuspiciousActivity_run cfg e w) as (w' & Hrun & _).
  split; [rewrite Hrun; reflexivity|].
  rewrite emitted_checkSuspiciousActivity. unfold suspiciousFor.
  unfold recentFailedLogins, recentOperationsOf.
  rewrite (entriesOf_missing w Hmissing). cbn [List.filter length].
  replace (maxFailedAttempts cfg <=? Z.of_nat 0) with false
    by (symmetry; apply Z.leb_gt; lia).
  rewrite andb_false_r. cbn [app].
  intros s Hin.
  destruct (touchesSensitive cfg (resource e));
    destruct ((localHour w (timestamp e) <? 6) || (22 <? localHour w (timestamp e)));
    cbn in Hin; intuition (subst; cbn; discriminate).
Qed.

Lemma X2_world_without_log_witness :
  fst (checkSuspiciousActivity defaultSecurityConfig (bobLogin 0) noLogWorld) = Ok tt
  /\ (forall s, In s (emitted (checkSuspiciousActivity defaultSecurityConfig (bobLogin 0))
                              noLogWorld) ->
        sec_event s <> "MULTIPLE_FAILED_LOGINS"
        /\ sec_event s <> "HIGH_FREQUENCY_OPERATIONS").
Proof.
  apply (X2_unreadable_log_silences_history_rules defaultSecurityConfig (bobLogin 0) noLogWorld);
    reflexivity.
Defined.

(** *** Recording *)

Lemma entriesOf_appended (w w' : World) (data : list Line) :
  files w' !! auditLogPath = Some (default [] (files w !! auditLogPath) ++ data) ->
  entriesOf w' = entriesOf w ++ parsed data.
Proof.
  intros H. rewrite (entriesOf_lookup w' _ H), parsed_app. f_equal.
  destruct (files w !! auditLogPath) as [c|] eqn:Hc; cbn [default].
  - symmetry. apply entriesOf_lookup. exact Hc.
  - rewrite (entriesOf_missing w Hc). reflexivity.
Qed.

(** On a log that may be written, on a device without bound,
    [logSecurityEvent] adds the record of the event to the log. *)
Lemma logSecurityEvent_writes (event u : string) (d : Details) (w : World) :
  writable w = true -> room w = None ->
  exists w',
    logSecurityEvent event u d w = (Ok tt, w')
    /\ writable w' = true /\ room w' = None /\ clock w' = clock w
    /\ entriesOf w' = entriesOf w ++ [RSecurity (securityEntryOf w event u d)]
    /\ securityEvents (logged w')
       = securityEvents (logged w) ++ [securityEntryOf w event u d].
Proof.
  intros Hw Hroom.
  unfold logSecurityEvent, try_catch, appendFileSync, openAndWrite.
  unfold mbind, M_bind, mret, M_ret, Date_now, logger_warn, logger_log.
  cbn [withLogged writable files room logged clock].
  rewrite Hw, Hroom. cbn [negb JSON_stringify length Nat.ltb Nat.leb take].
  eexists. split; [reflexivity|].
  cbn [writable room clock withFiles withLogged fmap option_fmap option_map logged].
  split; [exact Hw|]. split; [reflexivity|]. split; [reflexivity|]. split.
  - apply (entriesOf_appended w _ [JsonLine (RSecurity (securityEntryOf w event u d))]).
    cbn [files withFiles withLogged]. apply lookup_insert_eq.
  - rewrite securityEvents_app. reflexivity.
Qed.

Lemma forEach_logSecurityEvent_writes (e : AuditEntry) (acts : list Activity) (w : World) :
  writable w = true -> room w = None ->
  exists w',
    forEach acts (fun activity =>
      logSecurityEvent (act_type activity) (user e) {|
        d_message := Some (act_message activity);
        d_severity := Some (act_severity activity);
        d_auditEntry := Some e |}) w = (Ok tt, w')
    /\ entriesOf w' = entriesOf w ++ map (fun a => RSecurity (eventOf w e a)) acts
    /\ securityEvents (logged w')
       = securityEvents (logged w) ++ map (eventOf w e) acts.
Proof.
  revert w. induction acts as [|a acts IH]; intros w Hw Hroom.
  - exists w. cbn. rewrite !app_nil_r. auto.
  - cbn [forEach]. unfold mbind, M_bind.
    destruct (logSecurityEvent_writes (act_type a) (user e)
                {| d_message := Some (act_message a);
                   d_severity := Some (act_severity a);
                   d_auditEntry := Some e |} w Hw Hroom)
      as (w1 & Hrun & Hw1 & Hroom1 & Hclock & Hent & Hev).
    rewrite Hrun.
    destruct (IH w1 Hw1 Hroom1) as (w2 & Hrun2 & Hent2 & Hev2).
    exists w2. split; [exact Hrun2|].
    rewrite Hent2, Hent, Hev2, Hev. cbn [map]. rewrite <- !app_assoc.
    unfold eventOf, securityEntryOf. rewrite Hclock. auto.
Qed.

(** The evaluation of the rules is the loop over the activities found,
    run after the reads of the recent history. *)
Lemma checkSuspiciousActivity_loop (cfg : SecurityConfig) (e : AuditEntry) (w : World) :
  exists msgs,
    securityEvents msgs = []
    /\ (is_Some (files w !! auditLogPath) -> msgs = [])
    /\ checkSuspiciousActivity cfg e w
       = forEach (suspiciousFor cfg w e) (fun activity =>
           logSecurityEvent (act_type activity) (user e) {|
             d_message := Some (act_message activity);
             d_severity := Some (act_severity activity);
             d_auditEntry := Some e |}) (noted w msgs).
Proof.
  destruct (recentFailed_run (user e) 5 w) as (m1 & Hrun1 & Hsome1 & Hnone1).
  destruct (recentOperations_run (user e) 10 (noted w (if failedLogin e then m1 else [])))
    as (m2 & Hrun2 & Hsome2 & Hnone2).
  exists ((if failedLogin e then m1 else []) ++ m2).
  assert (Hquiet : forall m, (is_Some (files w !! auditLogPath) -> m = []) ->
            (files w !! auditLogPath = None -> exists x, m = [errorMsg x (IOError "ENOENT")]) ->
            securityEvents m = []).
  { intros m Hs Hn. destruct (files w !! auditLogPath) eqn:Hc.
    - rewrite Hs by (eexists; reflexivity). reflexivity.
    - destruct (Hn eq_refl) as (x & ->). reflexivity. }
  assert (Hq1 : securityEvents m1 = []) by (apply Hquiet; [exact Hsome1 | eauto]).
  assert (Hq2 : securityEvents m2 = []) by (apply Hquiet; [exact Hsome2 | eauto]).
  split; [|split].
  - rewrite securityEvents_app, Hq2. destruct (failedLogin e); [rewrite Hq1|]; reflexivity.
  - intros Hfile. rewrite (Hsome2 Hfile). destruct (failedLogin e); [rewrite (Hsome1 Hfile)|];
      reflexivity.
  - unfold checkSuspiciousActivity.
    unfold mbind at 1. unfold M_bind at 1.
    fold (failedLogin e).
    assert (Hstep : (if failedLogin e
          then failedAttempts ← getRecentFailedAttempts (user e) 5;
               mret (if maxFailedAttempts cfg <=? Z.of_nat failedAttempts
                     then [] ++ [multipleFailedLogins e] else [])
          else mret []) w
        = (Ok (if failedLogin e
                  && (maxFailedAttempts cfg <=? Z.of_nat (recentFailedLogins w (user e)))
               then [multipleFailedLogins e] else []),
           noted w (if failedLogin e then m1 else []))).
    { destruct (failedLogin e).
      - unfold mbind, M_bind. rewrite Hrun1. reflexivity.
      - rewrite noted_nil. reflexivity. }
    change (multipleFailedLogins e) with
      {| act_type := "MULTIPLE_FAILED_LOGINS";
         act_message := "Múltiplas tentativas de login falhadas para usuário " +:+ user e;
         act_severity := HIGH |} in Hstep.
    rewrite Hstep.
    unfold mbind at 1. unfold M_bind at 1. unfold getHours at 1.
    unfold mbind at 1. unfold M_bind at 1. rewrite Hrun2.
    rewrite sensitive_scan, noted_noted.
    f_equal. unfold suspiciousFor.
    change (tzOffset (noted w (if failedLogin e then m1 else []))) with (tzOffset w).
    fold (localHour w (timestamp e)).
    change (List.filter _ (entriesOf (noted w (if failedLogin e then m1 else []))))
      with (recentOperationsOf w (user e)).
    destruct (failedLogin e
              && (maxFailedAttempts cfg <=? Z.of_nat (recentFailedLogins w (user e))));
      destruct (touchesSensitive cfg (resource e));
      destruct ((localHour w (timestamp e) <? 6) || (22 <? localHour w (timestamp e)));
      destruct (50 <? length (recentOperationsOf w (user e)))%nat;
      reflexivity.
Qed.

(** X3.  [logSecurityEvent] never throws and always hands its event
    to the logger.  When the log may not be written the files stay as
    they are and the failure is logged after the event; when it may, on
    a device without bound, the log gains the record of the event as
    its last record. *)
Theorem X3_security_event_reaches_logger_and_log (event u : string) (d : Details) (w : World) :
  exists w',
    logSecurityEvent event u d w = (Ok tt, w')
    /\ emitted (logSecurityEvent event u d) w = [securityEntryOf w event u d]
    /\ (writable w = false ->
        files w' = files w
        /\ logged w'
           = logged w
             ++ [{| level := LWarn; text := "Evento de segurança: " +:+ event;
                    payload := PSecurity (securityEntryOf w event u d) |};
                 errorMsg "Erro ao registrar evento de segurança:" (IOError "EACCES")])
    /\ (writable w = true -> room w = None ->
        entriesOf w' = entriesOf w ++ [RSecurity (securityEntryOf w event u d)]).
Proof.
  destruct (logSecurityEvent_run event u d w) as (w' & Hrun & _ & Hev).
  exists w'. split; [exact Hrun|]. split; [|split].
  - unfold emitted. rewrite Hrun. cbn [snd]. rewrite Hev. apply drop_app_length.
  - intros Hw. revert Hrun.
    unfold logSecurityEvent, try_catch, appendFileSync, openAndWrite.
    unfold mbind, M_bind, mret, M_ret, Date_now, logger_warn, logger_error, logger_log.
    cbn [withLogged writable files room logged clock]. rewrite Hw. cbn [negb].
    intros Hrun. injection Hrun as <-. cbn [files logged withLogged].
    rewrite <- app_assoc. split; reflexivity.
  - intros Hw Hroom.
    destruct (logSecurityEvent_writes event u d w Hw Hroom) as (w1 & Hrun1 & _ & _ & _ & Hent & _).
    rewrite Hrun in Hrun1. injection Hrun1 as <-. exact Hent.
Qed.

(** X4.  On a log that may be written, on a device without bound,
    [logOperation] of an operation whose query and resource are ASCII
    texts returns normally and the log gains, in this order, the entry
    built from the argument and the records of the security events
    that the entry triggers; the rules are evaluated on the log that
    already holds the entry. *)
Theorem X4_logOperation_records_entry_then_events
    (cfg : SecurityConfig) (data : OperationData) (w : World) :
  asciiData data = true ->
  writable w = true -> room w = None ->
  let e := recordedEntry w data in
  let acts := suspiciousFor cfg (withLine (JsonLine (RAudit e)) w) e in
  exists w',
    logOperation cfg data w = (Ok tt, w')
    /\ entriesOf w' = entriesOf w ++ RAudit e :: map (fun a => RSecurity (eventOf w e a)) acts
    /\ emitted (logOperation cfg data) w = map (eventOf w e) acts.
Proof.
  intros _ Hw Hroom e acts.
  assert (Hrun : exists w',
    logOperation cfg data w = (Ok tt, w')
    /\ entriesOf w' = entriesOf w ++ RAudit e :: map (fun a => RSecurity (eventOf w e a)) acts
    /\ securityEvents (logged w') = securityEvents (logged w) ++ map (eventOf w e) acts).
  { unfold logOperation.
    unfold mbind at 1. unfold M_bind at 1. unfold Date_now at 1.
    unfold mbind at 1. unfold M_bind at 1. unfold getClientIP at 1.
    unfold mbind at 1. unfold M_bind at 1. unfold process_env at 1. unfold mret at 1.
    unfold M_ret at 1.
    unfold mbind at 1. unfold M_bind at 1. unfold getUserAgent at 1.
    unfold mbind at 1. unfold M_bind at 1. unfold process_env at 1. unfold mret at 1.
    unfold M_ret at 1.
    fold (recordedEntry w data). fold e.
    unfold try_catch.
    unfold mbind at 1. unfold M_bind at 1.
    unfold appendFileSync, openAndWrite. rewrite Hw, Hroom.
    cbn [negb JSON_stringify length Nat.ltb Nat.leb take fmap option_fmap option_map].
    unfold mbind at 1. unfold M_bind at 1.
    set (w1 := withFiles _ None w).
    assert (Hlog : exists m, payload m = PAudit e
              /\ (if res_success (od_result data)
                  then logger_info ("Operação auditada: " +:+ od_operation data) (PAudit e)
                  else logger_warn ("Operação auditada (falha): " +:+ od_operation data)
                                   (PAudit e)) w1 = (Ok tt, noted w1 [m])).
    { destruct (res_success (od_result data));
        eexists {| level := _; text := _; payload := PAudit e |}; split; reflexivity. }
    destruct Hlog as (m & Hm & Hlog). rewrite Hlog.
    destruct (checkSuspiciousActivity_loop cfg e (noted w1 [m])) as (msgs & _ & Hnil & Hloop).
    assert (Hfile : is_Some (files (noted w1 [m]) !! auditLogPath)).
    { subst w1. cbn [files noted withLogged withFiles]. rewrite lookup_insert_eq. eauto. }
    rewrite (Hnil Hfile), noted_nil in Hloop. rewrite Hloop.
    destruct (forEach_logSecurityEvent_writes e (suspiciousFor cfg (noted w1 [m]) e)
                (noted w1 [m]) Hw eq_refl) as (w' & Hfor & Hent & Hev).
    exists w'. rewrite Hfor. split; [reflexivity|].
    change (suspiciousFor cfg (noted w1 [m]) e) with acts in Hent, Hev.
    change (eventOf (noted w1 [m]) e) with (eventOf w e) in Hent, Hev.
    split.
    - rewrite Hent.
      rewrite (entriesOf_appended w (noted w1 [m]) [JsonLine (RAudit e)])
        by (subst w1; cbn [files noted withLogged withFiles]; apply lookup_insert_eq).
      rewrite <- app_assoc. reflexivity.
    - rewrite Hev. cbn [logged noted withLogged]. subst w1. cbn [logged withFiles].
      rewrite securityEvents_app. unfold securityEvents at 2. cbn [omap list_omap].
      rewrite Hm. rewrite app_nil_r. reflexivity. }
  destruct Hrun as (w' & Hrun & Hent & Hev).
  exists w'. split; [exact Hrun|]. split; [exact Hent|].
  unfold emitted. rewrite Hrun. cbn [snd]. rewrite Hev. apply drop_app_length.
Qed.

(** A read of USERS reported at 23:00: the entry, then the event of the
    sensitive table, then the event of the unusual hour. *)
Lemma X4_night_read_of_users_witness :
  let e := recordedEntry nightWorld nightRead in
  exists w',
    logOperation defaultSecurityConfig nightRead nightWorld = (Ok tt, w')
    /\ entriesOf w'
       = [RAudit e;
          RSecurity (eventOf nightWorld e (sensitiveTableAccess e));
          RSecurity (eventOf nightWorld e (unusualTimeAccess e))]
    /\ map sec_event (emitted (logOperation defaultSecurityConfig nightRead) nightWorld)
       = ["SENSITIVE_TABLE_ACCESS"; "UNUSUAL_TIME_ACCESS"].
Proof.
  intros e.
  destruct (X4_logOperation_records_entry_then_events defaultSecurityConfig nightRead
              nightWorld eq_refl eq_refl eq_refl) as (w' & Hrun & Hent & Hev).
  exists w'. split; [exact Hrun|]. split.
  - rewrite Hent. reflexivity.
  - rewrite Hev. reflexivity.
Defined.

(** *** Masking of passwords *)

Lemma length_append (a b : string) :
  String.length (a +:+ b) = (String.length a + String.length b)%nat.
Proof.
  induction a as [|c a IH]; [reflexivity|].
  change (S (String.length (a +:+ b)) = S (String.length a + String.length b)).
  rewrite IH. reflexivity.
Qed.

Lemma substring_all (s : string) : String.substring 0 (String.length s) s = s.
Proof. induction s as [|c s IH]; [reflexivity|]. cbn. rewrite IH. reflexivity. Qed.

Lemma dropString_append (a b : string) : dropString (String.length a) (a +:+ b) = b.
Proof.
  unfold dropString. rewrite length_append.
  replace (String.length a + String.length b - String.length a)%nat
    with (String.length b) by lia.
  induction a as [|c a IH]; [apply substring_all|].
  change (String.substring (String.length a) (String.length b) (a +:+ b) = b).
  exact IH.
Qed.

Lemma toUpperCase_append (a b : string) :
  toUpperCase (a +:+ b) = toUpperCase a +:+ toUpperCase b.
Proof.
  induction a as [|c a IH]; [reflexivity|].
  change (String (upperChar c) (toUpperCase (a +:+ b))
          = String (upperChar c) (toUpperCase a +:+ toUpperCase b)).
  rewrite IH. reflexivity.
Qed.

Lemma toUpperCase_length (s : string) : String.length (toUpperCase s) = String.length s.
Proof. induction s as [|c s IH]; [reflexivity|]. cbn. rewrite IH. reflexivity. Qed.

Lemma prefix_append (a b : string) : String.prefix a (a +:+ b) = true.
Proof.
  induction a as [|c a IH]; [destruct b; reflexivity|].
  change (String.prefix (String c a) (String c (a +:+ b)) = true).
  cbn [String.prefix]. destruct (ascii_dec c c); [exact IH | contradiction].
Qed.

Lemma quote_is_no_space (c : ascii) : isQuote c = true -> isSpace c = false.
Proof.
  unfold isQuote, isSpace. intros H.
  apply orb_prop in H. destruct H as [H|H]; apply Nat.eqb_eq in H; rewrite H; reflexivity.
Qed.

Lemma countSpaces_append (ws : string) (q : ascii) (t : string) :
  allSpace ws = true -> isSpace q = false ->
  countSpaces (ws +:+ String q t) = String.length ws.
Proof.
  intros Hws Hq. induction ws as [|c ws IH].
  - change (countSpaces (String q t) = 0%nat). cbn [countSpaces]. rewrite Hq. reflexivity.
  - cbn in Hws. apply andb_prop in Hws. destruct Hws as [Hc Hws].
    change (countSpaces (String c (ws +:+ String q t)) = S (String.length ws)).
    cbn [countSpaces]. rewrite Hc, (IH Hws). reflexivity.
Qed.

Lemma untilQuote_append (secret : string) (q : ascii) (t : string) :
  anyChar isQuote secret = false -> isQuote q = true ->
  untilQuote (secret +:+ String q t) = Some (S (String.length secret)).
Proof.
  intros Hs Hq. induction secret as [|c secret IH].
  - change (untilQuote (String q t) = Some 1%nat). cbn [untilQuote]. rewrite Hq. reflexivity.
  - cbn in Hs. apply orb_false_elim in Hs. destruct Hs as [Hc Hs].
    change (untilQuote (String c (secret +:+ String q t))
            = Some (S (S (String.length secret)))).
    cbn [untilQuote]. rewrite Hc, (IH Hs). reflexivity.
Qed.

Lemma replacePasswords_skip (a b : string) :
  replacePasswords (String.length a) (a +:+ b) = replacePasswords 0 b.
Proof.
  induction a as [|c a IH]; [reflexivity|].
  change (replacePasswords (S (String.length a)) (String c (a +:+ b))
          = replacePasswords 0 b).
  cbn [replacePasswords]. exact IH.
Qed.

Lemma replacePasswords_clean (s : string) :
  includes "PASSWORD" (toUpperCase s) = false -> replacePasswords 0 s = s.
Proof.
  induction s as [|c s IH]; [reflexivity|].
  intros H. cbn [toUpperCase includes] in H.
  destruct (String.prefix "PASSWORD" (String (upperChar c) (toUpperCase s))) eqn:Hp;
    [discriminate H|].
  cbn [replacePasswords]. unfold matchPassword. cbn [toUpperCase]. rewrite Hp.
  rewrite (IH H). reflexivity.
Qed.

(** X5.  [sanitizeQuery] returns a query that does not contain the word
    PASSWORD, in any case, as it is; an undefined or empty query gives
    the empty text. *)
Theorem X5_query_without_password_is_unchanged (q : string) :
  includes "PASSWORD" (toUpperCase q) = false ->
  sanitizeQuery (Some q) = q /\ sanitizeQuery None = "" /\ sanitizeQuery (Some "") = "".
Proof.
  intros H. split; [|split; reflexivity].
  unfold sanitizeQuery, truthyStr. cbn [default].
  destruct (decide (q = "")) as [->|_]; [reflexivity|].
  apply replacePasswords_clean. exact H.
Qed.

Lemma X5_plain_query_witness :
  sanitizeQuery (Some "SELECT * FROM ORDERS") = "SELECT * FROM ORDERS"
  /\ sanitizeQuery None = "" /\ sanitizeQuery (Some "") = "".
Proof. apply (X5_query_without_password_is_unchanged "SELECT * FROM ORDERS"). reflexivity. Defined.

Lemma sanitizeQuery_nonempty (q : string) : sanitizeQuery (Some q) = replacePasswords 0 q.
Proof.
  unfold sanitizeQuery, truthyStr. cbn [default].
  destruct (decide (q = "")) as [->|_]; reflexivity.
Qed.

(** A password literal at the start of a text. *)
Lemma replacePasswords_literal (kw ws secret rest : string) (q1 q2 : ascii) :
  toUpperCase kw = "PASSWORD" ->
  ws <> "" -> allSpace ws = true ->
  isQuote q1 = true -> isQuote q2 = true ->
  anyChar isQuote secret = false ->
  replacePasswords 0 (kw +:+ ws +:+ String q1 (secret +:+ String q2 rest))
  = "PASSWORD '***'" +:+ replacePasswords 0 rest.
Proof.
  intros Hkw Hne Hws Hq1 Hq2 Hsecret.
  assert (Hlen : String.length kw = 8%nat)
    by (rewrite <- toUpperCase_length, Hkw; reflexivity).
  set (tail := ws +:+ String q1 (secret +:+ String q2 rest)).
  assert (Hmatch : matchPassword (kw +:+ tail)
                   = Some (8 + String.length ws + 1 + S (String.length secret))%nat).
  { unfold matchPassword. rewrite toUpperCase_append, Hkw.
    rewrite prefix_append.
    replace (dropString 8 (kw +:+ tail)) with tail
      by (rewrite <- Hlen; symmetry; apply dropString_append).
    subst tail.
    rewrite (countSpaces_append ws q1 _ Hws (quote_is_no_space q1 Hq1)).
    replace (String.length ws =? 0)%nat with false
      by (destruct ws; [contradiction | reflexivity]).
    rewrite dropString_append, Hq1.
    rewrite (untilQuote_append secret q2 rest Hsecret Hq2). reflexivity. }
  destruct kw as [|c kw']; [discriminate Hlen|].
  change (String c kw' +:+ tail) with (String c (kw' +:+ tail)) in *.
  cbn [replacePasswords]. rewrite Hmatch. f_equal.
  subst tail.
  replace (8 + String.length ws + 1 + S (String.length secret) - 1)%nat
    with (String.length (kw' +:+ ws +:+ String q1 (secret +:+ String q2 "")))
    by (rewrite !length_append; cbn [String.length] in *; rewrite length_append;
        cbn [String.length]; lia).
  replace (kw' +:+ ws +:+ String q1 (secret +:+ String q2 rest))
    with ((kw' +:+ ws +:+ String q1 (secret +:+ String q2 "")) +:+ rest).
  - apply replacePasswords_skip.
  - rewrite !append_assoc.
    change (String q1 (secret +:+ String q2 "") +:+ rest)
      with (String q1 ((secret +:+ String q2 "") +:+ rest)).
    rewrite append_assoc. reflexivity.
Qed.

Lemma prefix_append_long (p a b : string) :
  (String.length p <= String.length a)%nat ->
  String.prefix p (a +:+ b) = String.prefix p a.
Proof.
  revert a. induction p as [|c p IH]; intros a Hlen.
  - destruct a; destruct b; reflexivity.
  - destruct a as [|c' a]; [cbn in Hlen; lia|].
    change (String c' a +:+ b) with (String c' (a +:+ b)).
    cbn [String.prefix]. destruct (ascii_dec c c'); [|reflexivity].
    apply IH. cbn in Hlen. lia.
Qed.

(** A text in which the word does not begin is passed over as it is. *)
Lemma replacePasswords_before (before word rest : string) :
  String.length word = 7%nat ->
  includes "PASSWORD" (toUpperCase (before +:+ word)) = false ->
  replacePasswords 0 (before +:+ word +:+ rest)
  = before +:+ replacePasswords 0 (word +:+ rest).
Proof.
  intros Hlen. induction before as [|c before IH]; [reflexivity|].
  change (String c before +:+ word) with (String c (before +:+ word)).
  change (String c before +:+ word +:+ rest) with (String c (before +:+ word +:+ rest)).
  cbn [toUpperCase includes].
  destruct (String.prefix "PASSWORD" (String (upperChar c) (toUpperCase (before +:+ word))))
    eqn:Hp; [discriminate|].
  intros Hrest. cbn [replacePasswords]. unfold matchPassword.
  replace (String c (before +:+ word +:+ rest)) with (String c (before +:+ word) +:+ rest)
    by (rewrite <- append_assoc; reflexivity).
  rewrite toUpperCase_append, prefix_append_long.
  - cbn [toUpperCase]. rewrite Hp. cbv beta iota. rewrite (IH Hrest). reflexivity.
  - rewrite toUpperCase_length. cbn [String.length]. rewrite length_append, Hlen.
    cbn. lia.
Qed.

(** X6.  [sanitizeQuery] masks a password literal: where the word
    PASSWORD in any case is followed by ASCII white space, a quote, a
    text without quotes and a closing quote, these are replaced by the
    masked text, whatever the two quotes are.  The text before it, in
    which the word does not begin, stays as it is, and the rest of the
    query, a text of ASCII characters, is sanitized in turn. *)
Theorem X6_password_literal_is_masked
    (before kw ws secret rest : string) (q1 q2 : ascii) :
  toUpperCase kw = "PASSWORD" ->
  includes "PASSWORD" (toUpperCase before +:+ "PASSWOR") = false ->
  ws <> "" -> allSpace ws = true ->
  isQuote q1 = true -> isQuote q2 = true ->
  anyChar isQuote secret = false ->
  isAscii rest = true ->
  sanitizeQuery (Some (before +:+ kw +:+ ws +:+ String q1 (secret +:+ String q2 rest)))
  = before +:+ "PASSWORD '***'" +:+ sanitizeQuery (Some rest).
Proof.
  intros Hkw Hbefore Hne Hws Hq1 Hq2 Hsecret _.
  rewrite !sanitizeQuery_nonempty.
  rewrite <- (replacePasswords_literal kw ws secret rest q1 q2 Hkw Hne Hws Hq1 Hq2 Hsecret).
  set (tail := ws +:+ String q1 (secret +:+ String q2 rest)).
  assert (Hlen : String.length kw = 8%nat)
    by (rewrite <- toUpperCase_length, Hkw; reflexivity).
  destruct kw as [|c1 [|c2 [|c3 [|c4 [|c5 [|c6 [|c7 [|c8 [|c9 kw]]]]]]]]];
    try discriminate Hlen.
  set (word := String c1 (String c2 (String c3 (String c4 (String c5 (String c6
                 (String c7 ""))))))).
  change (String c1 (String c2 (String c3 (String c4 (String c5 (String c6 (String c7
            (String c8 ""))))))) +:+ tail)
    with (word +:+ String c8 tail).
  apply replacePasswords_before; [reflexivity|].
  rewrite toUpperCase_append.
  replace (toUpperCase word) with "PASSWOR"; [exact Hbefore|].
  subst word. cbn [toUpperCase] in *. injection Hkw as <- <- <- <- <- <- <- _. reflexivity.
Qed.

Lemma X6_alter_user_witness :
  sanitizeQuery (Some ("ALTER USER bob " +:+ "password" +:+ " "
                       +:+ String quote ("secret" +:+ String quote " ACTIVE")))
  = "ALTER USER bob " +:+ "PASSWORD '***'" +:+ sanitizeQuery (Some " ACTIVE").
Proof.
  apply (X6_password_literal_is_masked "ALTER USER bob " "password" " " "secret" " ACTIVE"
           quote quote);
    [reflexivity | reflexivity | discriminate | reflexivity | reflexivity | reflexivity
    | reflexivity | reflexivity].
Defined.

(** *** Retention and the rules *)










(** *** Statistics *)

Lemma upsert_keys_old {V} (k : string) (d : V) (f : V -> V) (o : list (string * V)) :
  In k (map fst o) -> map fst (upsert k d f o) = map fst o.
Proof.
  induction o as [|[k' v] o IH]; [intros []|].
  cbn [upsert map fst]. intros Hin. destruct (decide (k' = k)) as [->|Hne]; [reflexivity|].
  cbn [map fst]. rewrite IH; [reflexivity|]. destruct Hin as [H|H]; [contradiction | exact H].
Qed.

Lemma upsert_keys_new {V} (k : string) (d : V) (f : V -> V) (o : list (string * V)) :
  ~ In k (map fst o) -> map fst (upsert k d f o) = map fst o ++ [k].
Proof.
  induction o as [|[k' v] o IH]; [reflexivity|].
  cbn [upsert map fst]. intros Hin. destruct (decide (k' = k)) as [->|Hne].
  - exfalso. apply Hin. left. reflexivity.
  - cbn [map fst]. rewrite IH; [reflexivity|]. intros H. apply Hin. right. exact H.
Qed.

Lemma In_keys_dec {V} (k : string) (o : list (string * V)) :
  {In k (map fst o)} + {~ In k (map fst o)}.
Proof. apply in_dec. intros a b. exact (decide (a = b)). Qed.

Lemma upsert_NoDup {V} (k : string) (d : V) (f : V -> V) (o : list (string * V)) :
  List.NoDup (map fst o) -> List.NoDup (map fst (upsert k d f o)).
Proof.
  intros Hnd. destruct (In_keys_dec k o) as [Hin|Hin].
  - rewrite upsert_keys_old by exact Hin. exact Hnd.
  - rewrite upsert_keys_new by exact Hin.
    apply NoDup_ListNoDup, NoDup_app. split; [apply NoDup_ListNoDup; exact Hnd|].
    split; [|apply NoDup_singleton].
    intros x Hx Hx'. apply list_elem_of_singleton in Hx'. subst x.
    apply Hin, list_elem_of_In. exact Hx.
Qed.

Lemma upsert_In {V} (k : string) (d : V) (f : V -> V) (o : list (string * V))
    (k' : string) (v' : V) :
  List.NoDup (map fst o) ->
  In (k', v') (upsert k d f o) ->
  (k' <> k /\ In (k', v') o)
  \/ (k' = k /\ ((exists v, In (k, v) o /\ v' = f v)
                 \/ (~ In k (map fst o) /\ v' = f d))).
Proof.
  induction o as [|[k0 v0] o IH]; intros Hnd Hin.
  - cbn in Hin. destruct Hin as [Hin|[]]. injection Hin as <- <-.
    right. split; [reflexivity|]. right. split; [intros []|reflexivity].
  - cbn [upsert] in Hin. cbn [map fst] in Hnd. inversion Hnd as [|? ? Hnot Hnd']; subst.
    destruct (decide (k0 = k)) as [->|Hne].
    + destruct Hin as [Hin|Hin].
      * injection Hin as <- <-. right. split; [reflexivity|]. left.
        exists v0. split; [left; reflexivity | reflexivity].
      * left. split; [|right; exact Hin].
        intros ->. apply Hnot. apply (in_map fst) in Hin. exact Hin.
    + destruct Hin as [Hin|Hin].
      * injection Hin as <- <-. left. split; [exact Hne | left; reflexivity].
      * destruct (IH Hnd' Hin) as [[Hk Ho]|[Hk [(v & Hv & Hf)|[Hno Hf]]]].
        -- left. split; [exact Hk | right; exact Ho].
        -- right. split; [exact Hk|]. left. exists v. split; [right; exact Hv | exact Hf].
        -- right. split; [exact Hk|]. right. split; [|exact Hf].
           cbn [map fst]. intros [H|H]; [exact (Hne H) | exact (Hno H)].
Qed.

Lemma countsOf_skip (sel : string -> LogRecord -> bool) (rs : list LogRecord)
    (o : list (string * nat)) (r : LogRecord) :
  (forall k, k <> "" -> sel k r = false) ->
  countsOf sel rs o -> countsOf sel (rs ++ [r]) o.
Proof.
  intros Hsel (Hnd & Hin & Hout). split; [exact Hnd|]. split.
  - intros k v Hkv. destruct (Hin k v Hkv) as (Hk & Hv & Hpos). split; [exact Hk|].
    rewrite List.filter_app. cbn [List.filter]. rewrite (Hsel k Hk), app_nil_r.
    split; [exact Hv | exact Hpos].
  - intros k Hk Hno. rewrite List.filter_app. cbn [List.filter].
    rewrite (Hsel k Hk), (Hout k Hk Hno). reflexivity.
Qed.

Lemma countsOf_upsert (sel : string -> LogRecord -> bool) (rs : list LogRecord)
    (o : list (string * nat)) (r : LogRecord) (key : string) :
  key <> "" ->
  (forall k, sel k r = bool_decide (k = key)) ->
  countsOf sel rs o -> countsOf sel (rs ++ [r]) (upsert key 0%nat S o).
Proof.
  intros Hkey Hsel (Hnd & Hin & Hout). split; [apply upsert_NoDup; exact Hnd|]. split.
  - intros k v Hkv. rewrite List.filter_app, length_app. cbn [List.filter]. rewrite Hsel.
    destruct (upsert_In key 0%nat S o k v Hnd Hkv)
      as [[Hk Ho]|[-> [(v0 & Hv0 & ->)|[Hno ->]]]].
    + rewrite bool_decide_eq_false_2 by exact Hk.
      destruct (Hin k v Ho) as (Hk' & Hv & Hpos). split; [exact Hk'|]. cbn [length]. lia.
    + rewrite bool_decide_eq_true_2 by reflexivity.
      destruct (Hin key v0 Hv0) as (_ & Hv & _). split; [exact Hkey|]. cbn [length]. lia.
    + rewrite bool_decide_eq_true_2 by reflexivity.
      rewrite (Hout key Hkey Hno). split; [exact Hkey|]. cbn [length]. lia.
  - intros k Hk Hno.
    assert (Hold : ~ In k (map fst o)).
    { intros H. apply Hno. destruct (In_keys_dec key o) as [Hin'|Hin'].
      - rewrite upsert_keys_old by exact Hin'. exact H.
      - rewrite upsert_keys_new by exact Hin'. apply in_or_app. left. exact H. }
    assert (Hne : k <> key).
    { intros ->. apply Hno. destruct (In_keys_dec key o) as [Hin'|Hin'].
      - rewrite upsert_keys_old by exact Hin'. exact Hin'.
      - rewrite upsert_keys_new by exact Hin'. apply in_or_app. right. left. reflexivity. }
    rewrite List.filter_app. cbn [List.filter]. rewrite Hsel, (Hout k Hk Hold).
    rewrite bool_decide_eq_false_2 by exact Hne. reflexivity.
Qed.

(** The variables of the loop of [getAuditLogStats] after some lines. *)
Lemma countLine_spec (lines : list Line) :
  let c := foldl countLine
             {| cnt_total := 0; cnt_success := 0; cnt_failed := 0;
                userCounts := []; operationCounts := [] |} lines in
  let rs := parsed lines in
  cnt_total c = length rs
  /\ cnt_success c = length (List.filter (fun r => truthyBool (rec_success r)) rs)
  /\ (cnt_success c + cnt_failed c = cnt_total c)%nat
  /\ countsOf ofUser rs (userCounts c)
  /\ countsOf ofOperation rs (operationCounts c).
Proof.
  induction lines as [|line lines IH] using rev_ind.
  - cbn. repeat split; try constructor; try (intros; contradiction); reflexivity.
  - cbv zeta in *. rewrite foldl_snoc, parsed_app.
    set (c := foldl countLine _ lines) in *.
    destruct IH as (Htotal & Hsuccess & Hsum & Husers & Hops).
    destruct line as [r|raw].
    + change (parsed [JsonLine r]) with [r]. unfold countLine. cbn [JSON_parse].
      cbn [cnt_total cnt_success cnt_failed userCounts operationCounts].
      rewrite length_app, List.filter_app, length_app. cbn [List.filter length].
      split; [lia|]. split; [destruct (truthyBool (rec_success r)); cbn [length]; lia|].
      split; [destruct (truthyBool (rec_success r)); lia|]. split.
      * unfold truthyStr. destruct (decide (rec_user r = "")) as [Hempty|Hfull].
        -- apply countsOf_skip; [|exact Husers].
           intros k Hk. apply bool_decide_eq_false_2. congruence.
        -- apply countsOf_upsert; [exact Hfull | | exact Husers].
           intros k. unfold ofUser. apply bool_decide_ext. split; congruence.
      * destruct (rec_operation r) as [op|] eqn:Hop; cbn [truthyStr default].
        -- destruct (decide (op = "")) as [Hempty|Hfull].
           ++ apply countsOf_skip; [|exact Hops].
              intros k Hk. apply bool_decide_eq_false_2. congruence.
           ++ unfold id. apply countsOf_upsert; [exact Hfull | | exact Hops].
              intros k. unfold ofOperation. rewrite Hop.
              apply bool_decide_ext. unfold id. split; congruence.
        -- apply countsOf_skip; [|exact Hops].
           intros k Hk. apply bool_decide_eq_false_2. congruence.
    + change (parsed [Malformed raw]) with (@nil LogRecord). rewrite app_nil_r.
      unfold countLine. cbn [JSON_parse]. auto.
Qed.

Lemma insertSorted_In {A} (before : A -> A -> bool) (x y : A) (l : list A) :
  In y (insertSorted before x l) <-> y = x \/ In y l.
Proof.
  induction l as [|z l IH]; cbn [insertSorted].
  - cbn. intuition.
  - destruct (before z x); cbn [In]; [rewrite IH|]; intuition.
Qed.

Lemma insertSorted_length {A} (before : A -> A -> bool) (x : A) (l : list A) :
  length (insertSorted before x l) = S (length l).
Proof.
  induction l as [|z l IH]; [reflexivity|].
  cbn [insertSorted]. destruct (before z x); cbn [length]; [rewrite IH|]; reflexivity.
Qed.

Lemma sort_In {A} (before : A -> A -> bool) (y : A) (l : list A) :
  In y (sort before l) <-> In y l.
Proof.
  unfold sort. induction l as [|x l IH] using rev_ind; [reflexivity|].
  rewrite foldl_snoc, insertSorted_In, IH, in_app_iff. cbn. intuition.
Qed.

Lemma sort_length {A} (before : A -> A -> bool) (l : list A) :
  length (sort before l) = length l.
Proof.
  unfold sort. induction l as [|x l IH] using rev_ind; [reflexivity|].
  rewrite foldl_snoc, insertSorted_length, IH, length_app. cbn. lia.
Qed.

Lemma descending_cons (x : string * nat) (l : list (string * nat)) :
  descending (x :: l) <-> (forall b, In b l -> (snd b <= snd x)%nat) /\ descending l.
Proof.
  unfold descending. split.
  - intros H. split.
    + intros b Hb. apply list_elem_of_In, list_elem_of_lookup in Hb. destruct Hb as [j Hj].
      apply (H 0%nat (S j) x b); [lia | reflexivity | exact Hj].
    + intros i j a b Hij Ha Hb. apply (H (S i) (S j) a b); [lia | exact Ha | exact Hb].
  - intros [Hhead Htail] i j a b Hij Ha Hb.
    destruct j as [|j]; [lia|]. cbn in Hb. destruct i as [|i].
    + cbn in Ha. injection Ha as <-. apply Hhead.
      apply list_elem_of_In, list_elem_of_lookup. eauto.
    + cbn in Ha. apply (Htail i j a b); [lia | exact Ha | exact Hb].
Qed.

Lemma insertSorted_descending (x : string * nat) (l : list (string * nat)) :
  descending l -> descending (insertSorted (fun a b => (snd b <=? snd a)%nat) x l).
Proof.
  induction l as [|y l IH]; intros Hl.
  - cbn. apply descending_cons. split; [intros b []|]. intros i j a b _ Ha. destruct i; discriminate Ha.
  - cbn [insertSorted]. apply descending_cons in Hl. destruct Hl as [Hhead Htail].
    destruct (snd x <=? snd y)%nat eqn:Hxy.
    + apply Nat.leb_le in Hxy. apply descending_cons. split; [|apply IH; exact Htail].
      intros b Hb. apply insertSorted_In in Hb. destruct Hb as [->|Hb]; [exact Hxy | auto].
    + apply Nat.leb_gt in Hxy. apply descending_cons. split.
      * intros b [<-|Hb]; [lia|]. specialize (Hhead b Hb). lia.
      * apply descending_cons. split; [exact Hhead | exact Htail].
Qed.

Lemma sort_descending (l : list (string * nat)) :
  descending (sort (fun a b => (snd b <=? snd a)%nat) l).
Proof.
  unfold sort. induction l as [|x l IH] using rev_ind.
  - intros i j a b _ Ha. destruct i; discriminate Ha.
  - rewrite foldl_snoc. apply insertSorted_descending. exact IH.
Qed.

(** The first five of the sorted table: at most five rows of the
    table, no count followed by a greater one, and no row left out has
    a greater count than a row taken. *)
Lemma top_five (o : list (string * nat)) :
  let top := take 5 (sort (fun a b => (snd b <=? snd a)%nat) o) in
  (length top <= 5)%nat
  /\ (forall kv, In kv top -> In kv o)
  /\ descending top
  /\ (forall a b, In a top -> In b o -> ~ In b top -> (snd b <= snd a)%nat).
Proof.
  cbv zeta. set (sorted := sort _ o).
  assert (Hdesc : descending sorted) by apply sort_descending.
  split; [rewrite length_take; lia|]. split; [|split].
  - intros kv Hkv. apply (sort_In (fun a b => (snd b <=? snd a)%nat)). fold sorted.
    apply list_elem_of_In. apply list_elem_of_In, elem_of_take in Hkv.
    destruct Hkv as (i & Hi & _). apply list_elem_of_lookup. eauto.
  - intros i j a b Hij Ha Hb. apply lookup_take_Some in Ha, Hb.
    destruct Ha as [Ha _], Hb as [Hb _]. exact (Hdesc i j a b Hij Ha Hb).
  - intros a b Ha Hb Hout.
    apply list_elem_of_In, list_elem_of_lookup in Ha. destruct Ha as [i Ha].
    apply lookup_take_Some in Ha. destruct Ha as [Ha Hi].
    apply (sort_In (fun a b => (snd b <=? snd a)%nat)) in Hb. fold sorted in Hb.
    apply list_elem_of_In, list_elem_of_lookup in Hb. destruct Hb as [j Hb].
    destruct (decide (j < 5)%nat) as [Hj|Hj].
    + exfalso. apply Hout. apply list_elem_of_In, list_elem_of_lookup. exists j.
      apply lookup_take_Some. split; [exact Hb | exact Hj].
    + apply (Hdesc i j a b); [lia | exact Ha | exact Hb].
Qed.

(** X9.  On a log whose users and operations are ordinary names
    [getAuditLogStats] counts the records of the log.  On a log that
    cannot be read it returns null after reporting the error.  Otherwise
    it changes nothing and its numbers are those of the records: the
    total is their number, successes and failures add up to it, a
    record without [success] counts as a failure, and every row of the
    top users carries the number of the records of that user, the rows
    being at most five, with no count followed by a greater one, and
    no user left out of them having more records than a user in them. *)
Theorem X9_statistics_count_the_records (w : World) :
  forallb ordinaryRecord (entriesOf w) = true ->
  match files w !! auditLogPath with
  | None =>
      getAuditLogStats w
      = (Ok None, noted w [errorMsg "Erro ao obter estatísticas de auditoria:"
                                    (IOError "ENOENT")])
  | Some _ =>
      exists st,
        getAuditLogStats w = (Ok (Some st), w)
        /\ totalEntries st = length (entriesOf w)
        /\ successEntries st
           = length (List.filter (fun r => truthyBool (rec_success r)) (entriesOf w))
        /\ (successEntries st + failedEntries st = totalEntries st)%nat
        /\ (uniqueUsers st <= totalEntries st)%nat
        /\ (length (topUsers st) <= 5)%nat
        /\ descending (topUsers st)
        /\ (forall u n, In (u, n) (topUsers st) ->
              u <> "" /\ n = length (List.filter (ofUser u) (entriesOf w)))
        /\ (forall op n, In (op, n) (topOperations st) ->
              n = length (List.filter (ofOperation op) (entriesOf w)))
        /\ (forall u a, u <> "" -> In a (topUsers st) -> ~ In u (map fst (topUsers st)) ->
              (length (List.filter (ofUser u) (entriesOf w)) <= snd a)%nat)
  end.
Proof.
  intros _. destruct (files w !! auditLogPath) as [c|] eqn:Hc.
  - unfold getAuditLogStats, try_catch, readFileSync.
    unfold mbind, M_bind, mret, M_ret. rewrite Hc.
    eexists. split; [reflexivity|].
    cbn [totalEntries successEntries failedEntries uniqueUsers topUsers topOperations].
    destruct (countLine_spec (split (trim c)))
      as (Htotal & Hsuccess & Hsum & (Hnd & Huin & Huout) & (_ & Hoin & _)).
    rewrite parsed_read in *. rewrite (entriesOf_lookup w c Hc).
    set (cnt := foldl countLine _ (split (trim c))) in *.
    destruct (top_five (userCounts cnt)) as (Hfive & Hsub & Hdesc & Htop).
    destruct (top_five (operationCounts cnt)) as (_ & Hsubo & _).
    split; [exact Htotal|]. split; [exact Hsuccess|]. split; [exact Hsum|].
    split; [|split; [exact Hfive|split; [exact Hdesc|split; [|split]]]].
    + rewrite Htotal. clear - Hnd Huin.
      assert (Hle : forall (o : list (string * nat)) (rs : list LogRecord),
                List.NoDup (map fst o) ->
                (forall k v, In (k, v) o -> In k (map rec_user rs)) ->
                (length o <= length rs)%nat).
      { intros o rs Ho Hin. rewrite <- (length_map fst o), <- (length_map rec_user rs).
        apply List.NoDup_incl_length; [exact Ho|].
        intros k Hk. apply in_map_iff in Hk. destruct Hk as ([k' v] & <- & Hkv).
        exact (Hin k' v Hkv). }
      apply Hle; [exact Hnd|]. intros k v Hkv. destruct (Huin k v Hkv) as (_ & Hv & Hpos).
      destruct (List.filter (ofUser k) (parsed c)) as [|r rest] eqn:Hf.
      * exfalso. subst v. cbn in Hpos. lia.
      * assert (Hr : In r (List.filter (ofUser k) (parsed c))) by (rewrite Hf; left; reflexivity).
        apply filter_In in Hr. destruct Hr as [Hr Hu]. apply bool_decide_eq_true in Hu.
        apply in_map_iff. exists r. split; [exact Hu | exact Hr].
    + intros u n Hun. destruct (Huin u n (Hsub _ Hun)) as (Hu & Hn & _). auto.
    + intros op n Hon. destruct (Hoin op n (Hsubo _ Hon)) as (_ & H & _). exact H.
    + intros u a Hu Ha Hout. destruct (In_keys_dec u (userCounts cnt)) as [Hin|Hin].
      * apply in_map_iff in Hin. destruct Hin as ([u' v] & Hfst & Hv). cbn in Hfst. subst u'.
        destruct (Huin u v Hv) as (_ & <- & _).
        apply (Htop a (u, v) Ha Hv). intros H. apply Hout.
        apply (in_map fst) in H. exact H.
      * rewrite (Huout u Hu Hin). cbn. lia.
  - unfold getAuditLogStats, try_catch, readFileSync.
    unfold mbind, M_bind, mret, M_ret. rewrite Hc. reflexivity.
Qed.

Lemma X9_mixed_log_witness :
  exists st,
    getAuditLogStats mixedWorld = (Ok (Some st), mixedWorld)
    /\ totalEntries st = 2%nat
    /\ (successEntries st + failedEntries st = totalEntries st)%nat.
Proof.
  pose proof (X9_statistics_count_the_records mixedWorld eq_refl) as H.
  replace (files mixedWorld !! auditLogPath) with (Some mixedLog) in H by reflexivity.
  destruct H as (st & Hrun & Htotal & _ & Hsum & _).
  exists st. split; [exact Hrun|]. split; [rewrite Htotal; reflexivity | exact Hsum].
Defined.

(** *** The batch scan *)

Lemma upsert_member {V} (k : string) (d : V) (f : V -> V) (o : list (string * V))
    (k0 : string) (g : V) :
  In (k0, g) o -> exists g', In (k0, g') (upsert k d f o) /\ (g' = g \/ g' = f g).
Proof.
  induction o as [|[k' v] o IH]; [intros []|].
  intros [Heq|Hin]; cbn [upsert].
  - injection Heq as -> ->. destruct (decide (k0 = k)).
    + exists (f g). split; [left; reflexivity | right; reflexivity].
    + exists g. split; [left; reflexivity | left; reflexivity].
  - destruct (decide (k' = k)).
    + exists g. split; [right; exact Hin | left; reflexivity].
    + destruct (IH Hin) as (g' & Hg' & Hor). exists g'. split; [right; exact Hg' | exact Hor].
Qed.

Lemma upsert_present {V} (k : string) (d : V) (f : V -> V) (o : list (string * V)) :
  exists v0, In (k, f v0) (upsert k d f o).
Proof.
  induction o as [|[k' v] o IH]; cbn [upsert].
  - exists d. left. reflexivity.
  - destruct (decide (k' = k)) as [->|Hne].
    + exists v. left. reflexivity.
    + destruct IH as (v0 & Hv0). exists v0. right. exact Hv0.
Qed.

(** Every record is in one of the groups. *)
Lemma groupBy_member (key : LogRecord -> string) (entries : list LogRecord) (r : LogRecord) :
  In r entries -> exists k g, In (k, g) (groupBy key entries) /\ In r g.
Proof.
  unfold groupBy. induction entries as [|x entries IH] using rev_ind; [intros []|].
  rewrite foldl_snoc. intros Hin. apply in_app_or in Hin. destruct Hin as [Hin|[<-|[]]].
  - destruct (IH Hin) as (k & g & Hg & Hr).
    destruct (upsert_member (key x) [] (fun g => g ++ [x]) _ k g Hg) as (g' & Hg' & [->| ->]).
    + eauto.
    + exists k, (g ++ [x]). split; [exact Hg'|]. apply in_or_app. left. exact Hr.
  - destruct (upsert_present (key x) [] (fun g => g ++ [x]) (foldl
      (fun groups entry => upsert (key entry) [] (fun g => g ++ [entry]) groups) [] entries))
      as (v0 & Hv0).
    exists (key x), (v0 ++ [x]). split; [exact Hv0|]. apply in_or_app. right. left. reflexivity.
Qed.

Lemma filterR_error {A} (p : A -> Result bool) (xs : list A) (E e : Error) :
  (forall y e', p y = Throw e' -> e' = E) -> filterR p xs = Throw e -> e = E.
Proof.
  intros Hp. induction xs as [|x xs IH]; [discriminate|].
  cbn [filterR]. destruct (p x) as [keep|e'] eqn:Hx; cbn [rbind].
  - destruct (filterR p xs) as [kept|e'']; cbn [rbind]; [discriminate|].
    intros H. injection H as <-. apply IH. reflexivity.
  - intros H. injection H as <-. exact (Hp x e' Hx).
Qed.

Lemma filterR_throws {A} (p : A -> Result bool) (xs : list A) (x : A) (E : Error) :
  (forall y e', p y = Throw e' -> e' = E) ->
  In x xs -> p x = Throw E -> filterR p xs = Throw E.
Proof.
  intros Hp Hin Hx. induction xs as [|y xs IH]; [destruct Hin|].
  cbn [filterR]. destruct (p y) as [keep|e'] eqn:Hy; cbn [rbind].
  - destruct Hin as [->|Hin]; [rewrite Hx in Hy; discriminate Hy|].
    rewrite (IH Hin). reflexivity.
  - rewrite (Hp y e' Hy). reflexivity.
Qed.

Lemma foldR_throws {A B} (f : A -> B -> Result A) (a : A) (xs : list B) (x : B) (E : Error) :
  (forall a' y e, f a' y = Throw e -> e = E) ->
  In x xs -> (forall a', f a' x = Throw E) -> foldR f a xs = Throw E.
Proof.
  intros Hf Hin Hx. revert a. induction xs as [|y xs IH]; intros a; [destruct Hin|].
  cbn [foldR]. destruct (f a y) as [a'|e] eqn:Hy; cbn [rbind].
  - destruct Hin as [->|Hin]; [rewrite Hx in Hy; discriminate Hy|]. apply IH. exact Hin.
  - rewrite (Hf a y e Hy). reflexivity.
Qed.

Lemma failedLoginTest_error (a : LogRecord) (e : Error) :
  (if negb (truthyBool (rec_success a)) then includesOn (rec_operation a) "LOGIN"
   else Ok false) = Throw e -> e = TypeError.
Proof.
  destruct (negb (truthyBool (rec_success a))); [|discriminate].
  destruct (rec_operation a); cbn [includesOn]; [discriminate|].
  intros H. injection H as <-. reflexivity.
Qed.

Lemma checkUser_error (acc : list Activity) (group : string * list LogRecord) (e : Error) :
  checkUser acc group = Throw e -> e = TypeError.
Proof.
  destruct group as [u g]. unfold checkUser.
  destruct (filterR _ g) as [kept|e'] eqn:Hf; cbn [rbind]; [discriminate|].
  intros H. injection H as <-.
  exact (filterR_error _ g TypeError e' failedLoginTest_error Hf).
Qed.

Lemma checkUser_throws (acc : list Activity) (u : string) (g : list LogRecord)
    (s : SecurityEntry) :
  In (RSecurity s) g -> checkUser acc (u, g) = Throw TypeError.
Proof.
  intros Hin. unfold checkUser.
  rewrite (filterR_throws _ g (RSecurity s) TypeError failedLoginTest_error Hin);
    reflexivity.
Qed.

(** A record of a security event of the last 24 hours stops the scan. *)
Lemma detectSuspiciousActivity_blind (w : World) (s : SecurityEntry) :
  In (RSecurity s) (entriesOf w) ->
  clock w - 24 * 60 * 60 * 1000 < sec_timestamp s ->
  detectSuspiciousActivity w
  = (Ok [], noted w [errorMsg "Erro ao detectar atividades suspeitas:" TypeError]).
Proof.
  intros Hin Hrecent.
  destruct (files w !! auditLogPath) as [c|] eqn:Hc;
    [|rewrite (entriesOf_missing w Hc) in Hin; destruct Hin].
  rewrite (entriesOf_lookup w c Hc) in Hin.
  rewrite (detectSuspiciousActivity_run w c Hc). cbv zeta.
  set (recent := List.filter _ (parsed c)).
  assert (Hs : In (RSecurity s) recent).
  { apply filter_In. split; [exact Hin|]. apply Z.ltb_lt. exact Hrecent. }
  destruct (groupBy_member rec_user recent (RSecurity s) Hs) as (k & g & Hg & Hsg).
  rewrite (foldR_throws checkUser [] _ (k, g) TypeError checkUser_error Hg
             (fun acc => checkUser_throws acc k g s Hsg)).
  reflexivity.
Qed.

(** X10.  A record of a security event of the last 24 hours in the
    log stops [detectSuspiciousActivity]: the test of the failed logins
    reads the operation of a record that has none, and the scan returns
    no activity, whatever else the log holds, after reporting the
    error. *)
Theorem X10_recent_security_event_stops_the_scan (w : World) (s : SecurityEntry) :
  In (RSecurity s) (entriesOf w) ->
  clock w - 24 * 60 * 60 * 1000 < sec_timestamp s ->
  detectSuspiciousActivity w
  = (Ok [], noted w [errorMsg "Erro ao detectar atividades suspeitas:" TypeError]).
Proof. exact (detectSuspiciousActivity_blind w s). Qed.

Lemma X10_event_log_witness :
  detectSuspiciousActivity eventWorld
  = (Ok [], noted eventWorld [errorMsg "Erro ao detectar atividades suspeitas:" TypeError]).
Proof.
  apply (X10_recent_security_event_stops_the_scan eventWorld weakPasswordEvent).
  - right. left. reflexivity.
  - reflexivity.
Defined.

(** X11.  Once [logSecurityEvent] has recorded an event in the log,
    [detectSuspiciousActivity] finds nothing: the record of the event,
    being of this instant, stops the scan. *)
Theorem X11_scan_finds_nothing_after_a_recorded_event
    (event u : string) (d : Details) (w : World) :
  writable w = true -> room w = None ->
  exists w',
    logSecurityEvent event u d w = (Ok tt, w')
    /\ detectSuspiciousActivity w'
       = (Ok [], noted w' [errorMsg "Erro ao detectar atividades suspeitas:" TypeError]).
Proof.
  intros Hw Hroom.
  destruct (logSecurityEvent_writes event u d w Hw Hroom)
    as (w' & Hrun & _ & _ & Hclock & Hent & _).
  exists w'. split; [exact Hrun|].
  apply (detectSuspiciousActivity_blind w' (securityEntryOf w event u d)).
  - rewrite Hent. apply in_or_app. right. left. reflexivity.
  - rewrite Hclock. cbn [securityEntryOf sec_timestamp]. lia.
Qed.

Lemma X11_empty_log_witness :
  exists w',
    logSecurityEvent "WEAK_PASSWORD" unknownUser
      (messageOnly "Senha não atende aos critérios de complexidade") (worldAt noon [])
    = (Ok tt, w')
    /\ detectSuspiciousActivity w'
       = (Ok [], noted w' [errorMsg "Erro ao detectar atividades suspeitas:" TypeError]).
Proof.
  apply (X11_scan_finds_nothing_after_a_recorded_event "WEAK_PASSWORD" unknownUser
           (messageOnly "Senha não atende aos critérios de complexidade") (worldAt noon []));
    reflexivity.
Defined.

(** *** The tools of the server *)




(** *** The validators *)

Lemma emitted_event (A : Type) (c : M A) (w w' : World) (r : Result A)
    (events : list SecurityEntry) :
  c w = (r, w') ->
  securityEvents (logged w') = securityEvents (logged w) ++ events ->
  emitted c w = events.
Proof.
  intros Hrun Hev. unfold emitted. rewrite Hrun. cbn [snd]. rewrite Hev.
  apply drop_app_length.
Qed.

Lemma emitted_none (A : Type) (c : M A) (w : World) (r : Result A) :
  c w = (r, w) -> emitted c w = [].
Proof.
  intros Hrun. apply (emitted_event A c w w r []); [exact Hrun|].
  rewrite app_nil_r. reflexivity.
Qed.

(** A validator that logs an event and then throws. *)
Lemma log_then_throw (event : string) (msg : string) (err : Error) (w : World) :
  exists w',
    (logSecurityEvent event unknownUser (messageOnly msg);; throw (A := unit) err) w
    = (Throw err, w')
    /\ securityEvents (logged w')
       = securityEvents (logged w) ++ [securityEntryOf w event unknownUser (messageOnly msg)].
Proof.
  destruct (logSecurityEvent_run event unknownUser (messageOnly msg) w) as (w' & Hrun & _ & Hev).
  exists w'. unfold mbind, M_bind. rewrite Hrun. split; [reflexivity | exact Hev].
Qed.

Lemma scanKeywords_run (clause upper : string) (keywords : list string) (w : World) :
  match List.find (fun k => includes k upper) keywords with
  | None => scanKeywords clause upper keywords w = (Ok tt, w)
  | Some k =>
      exists w',
        scanKeywords clause upper keywords w
        = (Throw (GenericError ("Condição WHERE contém palavra-chave perigosa: " +:+ k)), w')
        /\ securityEvents (logged w')
           = securityEvents (logged w)
             ++ [securityEntryOf w "DANGEROUS_QUERY" unknownUser
                   (messageOnly "Query contém palavra-chave perigosa")]
  end.
Proof.
  induction keywords as [|k keywords IH]; [reflexivity|].
  cbn [List.find scanKeywords]. destruct (includes k upper); [|exact IH].
  apply log_then_throw.
Qed.

(** The first element that a search finds. *)
Lemma find_first {A} (p : A -> bool) (l : list A) (x : A) :
  List.find p l = Some x ->
  exists before after,
    l = before ++ x :: after /\ p x = true /\ forall y, In y before -> p y = false.
Proof.
  induction l as [|y l IH]; [discriminate|]. cbn [List.find].
  destruct (p y) eqn:Hy.
  - intros H. injection H as <-. exists [], l. split; [reflexivity|].
    split; [exact Hy | intros z []].
  - intros H. destruct (IH H) as (before & after & -> & Hx & Hbefore).
    exists (y :: before), after. split; [reflexivity|]. split; [exact Hx|].
    intros z [<-|Hz]; [exact Hy | exact (Hbefore z Hz)].
Qed.

(** X14.  [validateWhereClause] accepts a clause of ASCII characters
    that is not empty exactly when no restricted operation occurs in
    its upper-case form; it then changes nothing.  When it rejects the
    clause it names the first restricted operation, in the order of the
    configuration, that occurs, and emits one event DANGEROUS_QUERY. *)
Theorem X14_where_clause_is_accepted_without_restricted_words
    (cfg : SecurityConfig) (clause : string) (w : World) :
  clause <> "" -> isAscii clause = true ->
  let run := validateWhereClause cfg (Some clause) w in
  (fst run = Ok tt
   <-> forall k, In k (restrictedOperations cfg) -> includes k (toUpperCase clause) = false)
  /\ (fst run = Ok tt -> snd run = w)
  /\ (fst run <> Ok tt ->
      exists before k after,
        restrictedOperations cfg = before ++ k :: after
        /\ (forall k', In k' before -> includes k' (toUpperCase clause) = false)
        /\ includes k (toUpperCase clause) = true
        /\ fst run
           = Throw (GenericError ("Condição WHERE contém palavra-chave perigosa: " +:+ k))
        /\ emitted (validateWhereClause cfg (Some clause)) w
           = [securityEntryOf w "DANGEROUS_QUERY" unknownUser
                (messageOnly "Query contém palavra-chave perigosa")]).
Proof.
  intros Hne _ run.
  assert (Hrun : run = scanKeywords clause (toUpperCase clause) (restrictedOperations cfg) w).
  { subst run. unfold validateWhereClause, truthyStr.
    destruct (decide (clause = "")); [contradiction | reflexivity]. }
  pose proof (scanKeywords_run clause (toUpperCase clause) (restrictedOperations cfg) w) as Hscan.
  rewrite <- Hrun in Hscan.
  destruct (List.find _ (restrictedOperations cfg)) as [k|] eqn:Hfind.
  - destruct Hscan as (w' & Hscan & Hev).
    destruct (find_first _ _ _ Hfind) as (before & after & Hlist & Hinc & Hbefore).
    apply find_some in Hfind. destruct Hfind as [Hin _].
    split; [|split].
    + rewrite Hscan. cbn [fst]. split; [discriminate|].
      intros Hall. rewrite (Hall k Hin) in Hinc. discriminate Hinc.
    + rewrite Hscan. discriminate.
    + intros _. exists before, k, after. split; [exact Hlist|]. split; [exact Hbefore|].
      split; [exact Hinc|]. split; [rewrite Hscan; reflexivity|].
      rewrite Hrun in Hscan.
      apply (emitted_event unit (validateWhereClause cfg (Some clause)) w w' (fst run));
        [|exact Hev].
      fold run. rewrite Hrun, Hscan. reflexivity.
  - split; [|split].
    + rewrite Hscan. cbn [fst]. split; [|reflexivity].
      intros _ k Hin. exact (find_none _ _ Hfind k Hin).
    + rewrite Hscan. reflexivity.
    + rewrite Hscan. intros H. contradiction H. reflexivity.
Qed.

Lemma X14_plain_clause_witness :
  validateWhereClause defaultSecurityConfig (Some "ID = 1") (worldAt noon [])
  = (Ok tt, worldAt noon []).
Proof.
  destruct (X14_where_clause_is_accepted_without_restricted_words defaultSecurityConfig
              "ID = 1" (worldAt noon [])) as (Hiff & Hsame & _); [discriminate | reflexivity |].
  assert (Hok : fst (validateWhereClause defaultSecurityConfig (Some "ID = 1") (worldAt noon []))
                = Ok tt).
  { apply Hiff. intros k Hk. cbn in Hk.
    destruct Hk as [<-|[<-|[<-|[<-|[<-|[]]]]]]; reflexivity. }
  rewrite (surjective_pairing (validateWhereClause _ _ _)), Hok, (Hsame Hok). reflexivity.
Defined.

Lemma includes_append (k a b : string) : includes k (a +:+ k +:+ b) = true.
Proof.
  induction a as [|c a IH].
  - change ("" +:+ k +:+ b) with (k +:+ b).
    destruct (k +:+ b) eqn:Hkb; cbn [includes]; rewrite <- Hkb, prefix_append; reflexivity.
  - change (String c a +:+ k +:+ b) with (String c (a +:+ k +:+ b)).
    cbn [includes]. rewrite IH. destruct (String.prefix k _); reflexivity.
Qed.

(** X15.  [validateWhereClause] rejects every clause in which a
    restricted operation occurs, in any case and at any place, also
    inside a longer word, and emits one event DANGEROUS_QUERY for it. *)
Theorem X15_restricted_word_anywhere_is_rejected
    (cfg : SecurityConfig) (before word after : string) (w : World) :
  word <> "" ->
  In (toUpperCase word) (restrictedOperations cfg) ->
  let clause := before +:+ word +:+ after in
  exists k w',
    validateWhereClause cfg (Some clause) w
    = (Throw (GenericError ("Condição WHERE contém palavra-chave perigosa: " +:+ k)), w')
    /\ In k (restrictedOperations cfg)
    /\ emitted (validateWhereClause cfg (Some clause)) w
       = [securityEntryOf w "DANGEROUS_QUERY" unknownUser
            (messageOnly "Query contém palavra-chave perigosa")].
Proof.
  intros Hword Hin clause.
  assert (Hne : clause <> "").
  { intros H. apply (f_equal String.length) in H. subst clause.
    rewrite !length_append in H. destruct word; [contradiction | cbn in H; lia]. }
  assert (Hrun : validateWhereClause cfg (Some clause) w
                 = scanKeywords clause (toUpperCase clause) (restrictedOperations cfg) w).
  { unfold validateWhereClause, truthyStr.
    destruct (decide (clause = "")); [contradiction | reflexivity]. }
  pose proof (scanKeywords_run clause (toUpperCase clause) (restrictedOperations cfg) w) as Hscan.
  destruct (List.find _ (restrictedOperations cfg)) as [k|] eqn:Hfind.
  - destruct Hscan as (w' & Hscan & Hev). apply find_some in Hfind.
    exists k, w'. rewrite Hrun. split; [exact Hscan|]. split; [apply Hfind|].
    apply (emitted_event unit _ w w' (Throw (GenericError
             ("Condição WHERE contém palavra-chave perigosa: " +:+ k)))); [|exact Hev].
    rewrite Hrun. exact Hscan.
  - exfalso. pose proof (find_none _ _ Hfind _ Hin) as Hno. cbn beta in Hno.
    subst clause. rewrite !toUpperCase_append, includes_append in Hno. discriminate Hno.
Qed.

Lemma X15_created_at_witness :
  exists k w',
    validateWhereClause defaultSecurityConfig (Some ("" +:+ "create" +:+ "d_at > 1"))
      (worldAt noon [])
    = (Throw (GenericError ("Condição WHERE contém palavra-chave perigosa: " +:+ k)), w')
    /\ In k (restrictedOperations defaultSecurityConfig)
    /\ emitted (validateWhereClause defaultSecurityConfig
                  (Some ("" +:+ "create" +:+ "d_at > 1"))) (worldAt noon [])
       = [securityEntryOf (worldAt noon []) "DANGEROUS_QUERY" unknownUser
            (messageOnly "Query contém palavra-chave perigosa")].
Proof.
  apply (X15_restricted_word_anywhere_is_rejected defaultSecurityConfig "" "create"
           "d_at > 1" (worldAt noon []));
    [discriminate | right; right; left; reflexivity].
Defined.

Lemma validatePassword_run (password : string) (w : World) :
  exists r w' events,
    validatePassword (Some password) w = (r, w')
    /\ securityEvents (logged w') = securityEvents (logged w) ++ events
    /\ if (utf16Length password <? 8)%nat
       then (exists msg, r = Throw (GenericError msg)) /\ w' = w /\ events = []
       else r = Ok tt
            /\ events
               = if anyChar isUpper password && anyChar isLower password
                    && anyChar isDigit password && anyChar isSpecial password
                 then []
                 else [securityEntryOf w "WEAK_PASSWORD" unknownUser
                         (messageOnly "Senha não atende aos critérios de complexidade")].
Proof.
  unfold validatePassword, truthyStr. cbn [default]. unfold id.
  destruct (decide (password = "")) as [->|Hne]; cbn [negb].
  - exists (Throw (GenericError "Senha deve ser uma string válida")), w, [].
    split; [reflexivity|]. split; [rewrite app_nil_r; reflexivity|].
    cbn. split; [eauto | auto].
  - destruct (utf16Length password <? 8)%nat.
    + exists (Throw (GenericError "Senha deve ter pelo menos 8 caracteres")), w, [].
      split; [reflexivity|]. split; [rewrite app_nil_r; reflexivity|].
      split; [eauto | auto].
    + destruct (logSecurityEvent_run "WEAK_PASSWORD" unknownUser
                  (messageOnly "Senha não atende aos critérios de complexidade") w)
        as (w' & Hrun & _ & Hev).
      destruct (anyChar isUpper password), (anyChar isLower password),
        (anyChar isDigit password), (anyChar isSpecial password);
        cbn [negb orb andb];
        first
          [ exists (Ok tt), w, []; split; [reflexivity|];
            split; [rewrite app_nil_r; reflexivity | split; reflexivity]
          | exists (Ok tt), w', [securityEntryOf w "WEAK_PASSWORD" unknownUser
                     (messageOnly "Senha não atende aos critérios de complexidade")];
            split; [exact Hrun|]; split; [exact Hev | split; reflexivity] ].
Qed.

(** X16.  [validatePassword] rejects a password for its length only,
    which is its number of UTF-16 code units: a password of eight or
    more is accepted whatever it is made of, and one without an
    upper-case letter, a lower-case letter, a digit or a special
    character only leaves one event WEAK_PASSWORD; a shorter one is
    rejected and leaves none. *)
Theorem X16_password_complexity_is_not_enforced (password : string) (w : World) :
  let run := validatePassword (Some password) w in
  let complex := anyChar isUpper password && anyChar isLower password
                 && anyChar isDigit password && anyChar isSpecial password in
  if (utf16Length password <? 8)%nat then
    (exists msg, run = (Throw (GenericError msg), w))
    /\ emitted (validatePassword (Some password)) w = []
  else
    fst run = Ok tt
    /\ emitted (validatePassword (Some password)) w
       = (if complex then []
          else [securityEntryOf w "WEAK_PASSWORD" unknownUser
                  (messageOnly "Senha não atende aos critérios de complexidade")]).
Proof.
  cbv zeta.
  destruct (validatePassword_run password w) as (r & w' & events & Hrun & Hev & Hcase).
  rewrite (emitted_event unit _ w w' r events Hrun Hev), Hrun.
  destruct (utf16Length password <? 8)%nat.
  - destruct Hcase as ((msg & ->) & -> & ->). split; [eauto | reflexivity].
  - destruct Hcase as (-> & ->). split; reflexivity.
Qed.

(** A password of seven characters in nine bytes is rejected, and one of
    eight letters is accepted with an event. *)
Example short_and_weak_passwords :
  (exists msg, validatePassword (Some "pässwör") (worldAt noon [])
               = (Throw (GenericError msg), worldAt noon []))
  /\ String.length "pässwör" = 9%nat
  /\ fst (validatePassword (Some "password") (worldAt noon [])) = Ok tt
  /\ map sec_event (emitted (validatePassword (Some "password")) (worldAt noon []))
     = ["WEAK_PASSWORD"].
Proof.
  split; [eexists; reflexivity|]. split; [reflexivity|]. split; reflexivity.
Qed.



Lemma validateTableName_run (cfg : SecurityConfig) (name : string) (w : World) :
  name <> "" ->
  exists w' events,
    validateTableName cfg (Some name) w
    = (if isIdentifier name then Ok tt
       else Throw (GenericError "Nome da tabela contém caracteres inválidos"), w')
    /\ securityEvents (logged w') = securityEvents (logged w) ++ events
    /\ events
       = if bool_decide (toUpperCase name ∈ sensitiveTables cfg)
         then [securityEntryOf w "SENSITIVE_TABLE_ACCESS" unknownUser
                 (messageOnly "Tentativa de acesso a tabela sensível")]
         else [].
Proof.
  intros Hne. unfold validateTableName, truthyStr. cbn [default]. unfold id.
  destruct (decide (name = "")); [contradiction|]. cbn [negb].
  unfold mbind, M_bind.
  destruct (bool_decide (toUpperCase name ∈ sensitiveTables cfg)).
  - destruct (logSecurityEvent_run "SENSITIVE_TABLE_ACCESS" unknownUser
                (messageOnly "Tentativa de acesso a tabela sensível") w)
      as (w' & Hrun & _ & Hev).
    rewrite Hrun. exists w', [securityEntryOf w "SENSITIVE_TABLE_ACCESS" unknownUser
                               (messageOnly "Tentativa de acesso a tabela sensível")].
    split; [destruct (isIdentifier name); reflexivity|]. split; [exact Hev | reflexivity].
  - exists w, []. split; [destruct (isIdentifier name); reflexivity|].
    split; [rewrite app_nil_r; reflexivity | reflexivity].
Qed.



Lemma allChars_weaken (p q : ascii -> bool) (s : string) :
  (forall c, p c = true -> q c = true) -> allChars p s = true -> allChars q s = true.
Proof.
  intros Hpq. induction s as [|c s IH]; [reflexivity|].
  cbn [allChars]. intros H. apply andb_prop in H. destruct H as [Hc Hs].
  rewrite (Hpq c Hc), (IH Hs). reflexivity.
Qed.

(** X18.  A name that [validateUsername] accepts has between 3 and 31
    characters, each of them a letter, a digit or an underscore, and is
    accepted by [validateTableName] as well. *)
Theorem X18_accepted_user_name_is_a_short_identifier
    (cfg : SecurityConfig) (name : string) (w : World) :
  validateUsername (Some name) = Ok tt ->
  (3 <= String.length name <= 31)%nat
  /\ allChars isWordChar name = true
  /\ fst (validateTableName cfg (Some name) w) = Ok tt.
Proof.
  unfold validateUsername, truthyStr. cbn [default]. unfold id.
  destruct (decide (name = "")) as [->|Hne]; [discriminate|]. cbn [negb].
  destruct (String.length name <? 3)%nat eqn:Hlow; [discriminate|].
  destruct (31 <? String.length name)%nat eqn:Hhigh; [discriminate|].
  cbn [orb]. destruct (isIdentifier name) eqn:Hid; [|discriminate]. intros _.
  apply Nat.ltb_ge in Hlow, Hhigh. split; [lia|]. split.
  - destruct name as [|c rest]; [discriminate Hid|]. cbn [isIdentifier] in Hid.
    apply andb_prop in Hid. destruct Hid as [Hc Hrest].
    cbn [allChars]. unfold isWordChar at 1. rewrite Hc, Hrest. reflexivity.
  - destruct (validateTableName_run cfg name w Hne) as (w' & events & Hrun & _).
    rewrite Hrun, Hid. reflexivity.
Qed.

Lemma X18_alice_witness :
  (3 <= String.length "alice" <= 31)%nat
  /\ allChars isWordChar "alice" = true
  /\ fst (validateTableName defaultSecurityConfig (Some "alice") (worldAt noon [])) = Ok tt.
Proof.
  apply (X18_accepted_user_name_is_a_short_identifier defaultSecurityConfig "alice"
           (worldAt noon [])).
  reflexivity.
Defined.

Lemma checkPrivileges_run (allowed restricted privileges : list string) (w : World) :
  let ok := fun p => negb (bool_decide (toUpperCase p ∈ restricted))
                     && bool_decide (toUpperCase p ∈ allowed) in
  match List.find (fun p => negb (ok p)) privileges with
  | None => checkPrivileges allowed restricted privileges w = (Ok tt, w)
  | Some p =>
      let restrictedOne := bool_decide (toUpperCase p ∈ restricted) in
      exists w',
        checkPrivileges allowed restricted privileges w
        = (Throw (GenericError ((if restrictedOne then "Privilégio restrito: "
                                 else "Privilégio desconhecido: ") +:+ p)), w')
        /\ securityEvents (logged w')
           = securityEvents (logged w)
             ++ [if restrictedOne
                 then securityEntryOf w "RESTRICTED_PRIVILEGE" unknownUser
                        (messageOnly "Tentativa de usar privilégio restrito")
                 else securityEntryOf w "UNKNOWN_PRIVILEGE" unknownUser
                        (messageOnly "Privilégio desconhecido")]
  end.
Proof.
  cbv zeta. induction privileges as [|p privileges IH]; [reflexivity|].
  cbn [List.find checkPrivileges].
  destruct (bool_decide (toUpperCase p ∈ restricted)) eqn:Hr; cbn [negb andb].
  - rewrite Hr. apply log_then_throw.
  - destruct (bool_decide (toUpperCase p ∈ allowed)) eqn:Ha; cbn [negb].
    + exact IH.
    + rewrite Hr. apply log_then_throw.
Qed.

(** X19.  [validatePrivileges] accepts a list of ASCII texts that is
    not empty exactly when every privilege is, in upper case, an
    allowed operation and not a restricted one; it then changes nothing.
    Otherwise it stops at the first privilege that is not, names it in
    the error, and emits one event: RESTRICTED_PRIVILEGE when the
    privilege is restricted, also if it is allowed as well, and
    UNKNOWN_PRIVILEGE when it is neither. *)
Theorem X19_privileges_are_accepted_when_all_are_allowed
    (cfg : SecurityConfig) (privileges : list string) (w : World) :
  privileges <> [] -> forallb isAscii privileges = true ->
  let run := validatePrivileges cfg (Some privileges) w in
  let isRestricted := fun p => bool_decide (toUpperCase p ∈ restrictedOperations cfg) in
  let isAllowed := fun p => bool_decide (toUpperCase p ∈ allowedOperations cfg) in
  (fst run = Ok tt
   <-> forall p, In p privileges -> isRestricted p = false /\ isAllowed p = true)
  /\ (fst run = Ok tt -> snd run = w)
  /\ (fst run <> Ok tt ->
      exists before p after,
        privileges = before ++ p :: after
        /\ (forall q, In q before -> isRestricted q = false /\ isAllowed q = true)
        /\ (isRestricted p = false -> isAllowed p = false)
        /\ fst run = Throw (GenericError ((if isRestricted p then "Privilégio restrito: "
                                           else "Privilégio desconhecido: ") +:+ p))
        /\ map sec_event (emitted (validatePrivileges cfg (Some privileges)) w)
           = [if isRestricted p then "RESTRICTED_PRIVILEGE" else "UNKNOWN_PRIVILEGE"]).
Proof.
  intros Hne _ run isRestricted isAllowed. subst isRestricted isAllowed. cbn beta.
  assert (Hrun : validatePrivileges cfg (Some privileges) w
                 = checkPrivileges (allowedOperations cfg) (restrictedOperations cfg)
                     privileges w).
  { unfold validatePrivileges. destruct privileges; [contradiction | reflexivity]. }
  pose proof (checkPrivileges_run (allowedOperations cfg) (restrictedOperations cfg)
                privileges w) as Hcheck.
  cbv zeta in Hcheck. rewrite <- Hrun in Hcheck. fold run in Hcheck.
  assert (Hgood : forall q,
            negb (negb (bool_decide (toUpperCase q ∈ restrictedOperations cfg))
                  && bool_decide (toUpperCase q ∈ allowedOperations cfg)) = false ->
            bool_decide (toUpperCase q ∈ restrictedOperations cfg) = false
            /\ bool_decide (toUpperCase q ∈ allowedOperations cfg) = true).
  { intros q Hok. apply negb_false_iff, andb_prop in Hok. destruct Hok as [Hr Ha].
    apply negb_true_iff in Hr. auto. }
  destruct (List.find _ privileges) as [p|] eqn:Hfind.
  - destruct Hcheck as (w' & Hcheck & Hev).
    destruct (find_first _ _ _ Hfind) as (before & after & Hlist & Hbad & Hbefore).
    apply find_some in Hfind. destruct Hfind as [Hin _]. cbn beta in Hbad.
    split; [|split].
    + rewrite Hcheck. cbn [fst]. split; [discriminate|].
      intros Hall. destruct (Hall p Hin) as [Hr Ha]. rewrite Hr, Ha in Hbad. discriminate Hbad.
    + rewrite Hcheck. discriminate.
    + intros _. exists before, p, after. split; [exact Hlist|].
      split; [intros q Hq; apply Hgood; exact (Hbefore q Hq)|]. split.
      * intros Hr. rewrite Hr in Hbad. cbn [negb andb] in Hbad.
        destruct (bool_decide (toUpperCase p ∈ allowedOperations cfg));
          [discriminate Hbad | reflexivity].
      * split; [rewrite Hcheck; reflexivity|].
        rewrite (emitted_event unit (validatePrivileges cfg (Some privileges)) w w' _ _
                   Hcheck Hev).
        destruct (bool_decide (toUpperCase p ∈ restrictedOperations cfg)); reflexivity.
  - split; [|split].
    + rewrite Hcheck. cbn [fst]. split; [|reflexivity].
      intros _ p Hin. apply Hgood. exact (find_none _ _ Hfind p Hin).
    + rewrite Hcheck. reflexivity.
    + rewrite Hcheck. intros H. contradiction H. reflexivity.
Qed.

Lemma X19_select_insert_witness :
  validatePrivileges defaultSecurityConfig (Some ["select"; "Insert"]) (worldAt noon [])
  = (Ok tt, worldAt noon []).
Proof.
  destruct (X19_privileges_are_accepted_when_all_are_allowed defaultSecurityConfig
              ["select"; "Insert"] (worldAt noon [])) as (Hiff & Hsame & _);
    [discriminate | reflexivity |].
  assert (Hok : fst (validatePrivileges defaultSecurityConfig (Some ["select"; "Insert"])
                       (worldAt noon [])) = Ok tt).
  { apply Hiff. intros p Hp. destruct Hp as [<-|[<-|[]]]; split; reflexivity. }
  rewrite (surjective_pairing (validatePrivileges _ _ _)), Hok, (Hsame Hok). reflexivity.
Defined.

(** A list that is rejected at its second privilege, which is both
    allowed and restricted in this configuration: the first is passed,
    the third is not looked at. *)
Example second_privilege_is_named :
  let cfg := {| sensitiveTables := []; maxFailedAttempts := 5; lockoutDuration := 300000;
                auditRetentionDays := 90; alertOnSuspiciousActivity := true;
                allowedOperations := ["SELECT"; "DELETE"];
                restrictedOperations := ["DELETE"] |} in
  fst (validatePrivileges cfg (Some ["select"; "delete"; "fly"]) (worldAt noon []))
  = Throw (GenericError "Privilégio restrito: delete")
  /\ map sec_event (emitted (validatePrivileges cfg (Some ["select"; "delete"; "fly"]))
                            (worldAt noon []))
     = ["RESTRICTED_PRIVILEGE"].
Proof. split; reflexivity. Qed.

(** *** Reports *)



(** *** What the batch scan reports *)

(** The groups of [groupBy]: one for every key that occurs, with the
    records of that key in their order. *)
Lemma groupBy_spec (key : LogRecord -> string) (rs : list LogRecord) :
  let groups := groupBy key rs in
  List.NoDup (map fst groups)
  /\ (forall k g, In (k, g) groups ->
        g = List.filter (fun r => bool_decide (key r = k)) rs /\ g <> [])
  /\ (forall k, ~ In k (map fst groups) ->
        List.filter (fun r => bool_decide (key r = k)) rs = []).
Proof.
  cbv zeta. unfold groupBy. induction rs as [|x rs IH] using rev_ind.
  - cbn. split; [constructor|]. split; [intros k g []|reflexivity].
  - rewrite foldl_snoc.
    set (groups := foldl _ [] rs) in *. destruct IH as (Hnd & Hin & Hout).
    split; [apply upsert_NoDup; exact Hnd|]. split.
    + intros k g Hkg. rewrite List.filter_app. cbn [List.filter].
      destruct (upsert_In (key x) [] (fun g => g ++ [x]) groups k g Hnd Hkg)
        as [[Hk Ho]|[-> [(g0 & Hg0 & ->)|[Hno ->]]]].
      * rewrite bool_decide_eq_false_2 by congruence. rewrite app_nil_r. exact (Hin k g Ho).
      * rewrite bool_decide_eq_true_2 by reflexivity.
        destruct (Hin (key x) g0 Hg0) as [-> _]. split; [reflexivity|].
        intros H. apply app_eq_nil in H. destruct H as [_ H]. discriminate H.
      * rewrite bool_decide_eq_true_2 by reflexivity. rewrite (Hout (key x) Hno).
        split; [reflexivity | discriminate].
    + intros k Hno.
      assert (Hold : ~ In k (map fst groups)).
      { intros H. apply Hno. destruct (In_keys_dec (key x) groups) as [Hin'|Hin'].
        - rewrite upsert_keys_old by exact Hin'. exact H.
        - rewrite upsert_keys_new by exact Hin'. apply in_or_app. left. exact H. }
      assert (Hne : key x <> k).
      { intros <-. apply Hno. destruct (In_keys_dec (key x) groups) as [Hin'|Hin'].
        - rewrite upsert_keys_old by exact Hin'. exact Hin'.
        - rewrite upsert_keys_new by exact Hin'. apply in_or_app. right. left. reflexivity. }
      rewrite List.filter_app. cbn [List.filter]. rewrite (Hout k Hold).
      rewrite bool_decide_eq_false_2 by exact Hne. reflexivity.
Qed.

Lemma groupBy_In (key : LogRecord -> string) (rs : list LogRecord)
    (k : string) (g : list LogRecord) :
  In (k, g) (groupBy key rs)
  <-> g = List.filter (fun r => bool_decide (key r = k)) rs /\ g <> [].
Proof.
  destruct (groupBy_spec key rs) as (Hnd & Hin & Hout). split; [apply Hin|].
  intros [-> Hne]. destruct (In_keys_dec k (groupBy key rs)) as [Hk|Hk].
  - apply in_map_iff in Hk. destruct Hk as ([k' g'] & Hfst & Hg'). cbn in Hfst. subst k'.
    destruct (Hin k g' Hg') as [<- _]. exact Hg'.
  - contradiction Hne. exact (Hout k Hk).
Qed.

Lemma filterR_ok {A} (p : A -> Result bool) (q : A -> bool) (xs : list A) :
  (forall x, In x xs -> p x = Ok (q x)) -> filterR p xs = Ok (List.filter q xs).
Proof.
  induction xs as [|x xs IH]; intros H; [reflexivity|].
  cbn [filterR List.filter]. rewrite (H x) by (left; reflexivity). cbn [rbind].
  rewrite IH by (intros y Hy; apply H; right; exact Hy). reflexivity.
Qed.

Lemma checkUser_ok (acc : list Activity) (group : string * list LogRecord) :
  (forall r, In r (snd group) -> exists e, r = RAudit e) ->
  checkUser acc group = Ok (acc ++ userActivities group).
Proof.
  destruct group as [u g]. cbn [snd]. intros Haudit. unfold checkUser.
  rewrite (filterR_ok _ failedLoginRecord g).
  - cbn [rbind]. unfold userActivities. cbn [fst snd].
    fold (userFrequency u (length g)).
    fold (userFailedLogins u (length (List.filter failedLoginRecord g))).
    destruct (100 <? length g)%nat;
      destruct (10 <? length (List.filter failedLoginRecord g))%nat;
      rewrite <- ?app_assoc, ?app_nil_r; reflexivity.
  - intros r Hr. destruct (Haudit r Hr) as (e & ->).
    unfold failedLoginRecord. cbn [rec_success rec_operation truthyBool default includesOn].
    destruct (success e); reflexivity.
Qed.

Lemma foldR_checkUser (acc : list Activity) (groups : list (string * list LogRecord)) :
  (forall group r, In group groups -> In r (snd group) -> exists e, r = RAudit e) ->
  foldR checkUser acc groups = Ok (acc ++ flat_map userActivities groups).
Proof.
  revert acc. induction groups as [|group groups IH]; intros acc Haudit.
  - cbn. rewrite app_nil_r. reflexivity.
  - cbn [foldR flat_map].
    rewrite checkUser_ok by (intros r Hr; apply (Haudit group r); [left; reflexivity | exact Hr]).
    cbn [rbind]. rewrite IH by (intros g r Hg; apply Haudit; right; exact Hg).
    rewrite app_assoc. reflexivity.
Qed.

Lemma foldl_checkIp (acc : list Activity) (groups : list (string * list LogRecord)) :
  foldl checkIp acc groups = acc ++ flat_map addressActivities groups.
Proof.
  revert acc. induction groups as [|[ip g] groups IH]; intros acc.
  - cbn. rewrite app_nil_r. reflexivity.
  - cbn [foldl flat_map]. rewrite IH. unfold checkIp, addressActivities. cbn [fst snd].
    fold (addressFrequency ip (length g)).
    destruct (200 <? length g)%nat; rewrite <- ?app_assoc, ?app_nil_r; reflexivity.
Qed.

(** X21.  On a log whose records of the last 24 hours are entries of
    operations, with ordinary names for users and addresses, the batch
    scan does not fail and changes nothing, and it reports exactly
    this: a user with more than 100 of these records, a user with more
    than 10 failed operations of the login class among them, and an
    address with more than 200 of them, each with the number found. *)
Theorem X21_scan_reports_exactly_the_crossed_thresholds (w : World) :
  is_Some (files w !! auditLogPath) ->
  forallb ordinaryEntry (scanned w) = true ->
  exists acts,
    detectSuspiciousActivity w = (Ok acts, w)
    /\ forall a, In a acts <->
         (exists u, let n := length (List.filter (ofUser u) (scanned w)) in
                    (100 < n)%nat /\ a = userFrequency u n)
         \/ (exists u, let n := length (List.filter failedLoginRecord
                                          (List.filter (ofUser u) (scanned w))) in
                       (10 < n)%nat /\ a = userFailedLogins u n)
         \/ (exists ip, let n := length (List.filter (ofAddress ip) (scanned w)) in
                        (200 < n)%nat /\ a = addressFrequency ip n).
Proof.
  intros [c Hc] Hordinary.
  assert (Haudit : forall r, In r (scanned w) -> exists e, r = RAudit e).
  { intros r Hr. rewrite forallb_forall in Hordinary. specialize (Hordinary r Hr).
    destruct r as [e|s]; [eauto | discriminate Hordinary]. }
  rewrite (detectSuspiciousActivity_run w c Hc). cbv zeta.
  assert (Hscan : List.filter (fun r => clock w - 24 * 60 * 60 * 1000 <? rec_timestamp r)
                              (parsed c) = scanned w).
  { unfold scanned. rewrite (entriesOf_lookup w c Hc). reflexivity. }
  rewrite Hscan. rewrite foldR_checkUser.
  - eexists. split; [reflexivity|]. intros a. rewrite foldl_checkIp.
    cbn [app]. rewrite in_app_iff, !in_flat_map. split.
    + intros [([u g] & Hg & Ha)|([ip g] & Hg & Ha)].
      * apply groupBy_In in Hg. destruct Hg as [-> _].
        unfold userActivities in Ha. cbn [fst snd] in Ha. apply in_app_or in Ha.
        fold (ofUser u) in Ha.
        destruct Ha as [Ha|Ha].
        -- left. exists u. cbv zeta.
           destruct (100 <? length (List.filter (ofUser u) (scanned w)))%nat eqn:Hn;
             [|destruct Ha].
           destruct Ha as [<-|[]]. apply Nat.ltb_lt in Hn. auto.
        -- right. left. exists u. cbv zeta.
           destruct (10 <? length (List.filter failedLoginRecord
                                     (List.filter (ofUser u) (scanned w))))%nat eqn:Hn;
             [|destruct Ha].
           destruct Ha as [<-|[]]. apply Nat.ltb_lt in Hn. auto.
      * apply groupBy_In in Hg. destruct Hg as [-> _].
        unfold addressActivities in Ha. cbn [fst snd] in Ha. fold (ofAddress ip) in Ha.
        right. right. exists ip. cbv zeta.
        destruct (200 <? length (List.filter (ofAddress ip) (scanned w)))%nat eqn:Hn;
          [|destruct Ha].
        destruct Ha as [<-|[]]. apply Nat.ltb_lt in Hn. auto.
    + intros [(u & Hn & ->)|[(u & Hn & ->)|(ip & Hn & ->)]].
      * left. exists (u, List.filter (ofUser u) (scanned w)). split.
        -- apply groupBy_In. split; [reflexivity|].
           intros H. rewrite H in Hn. cbn in Hn. lia.
        -- unfold userActivities. cbn [fst snd]. apply in_or_app. left.
           apply Nat.ltb_lt in Hn. rewrite Hn. left. reflexivity.
      * left. exists (u, List.filter (ofUser u) (scanned w)). split.
        -- apply groupBy_In. split; [reflexivity|].
           intros H. rewrite H in Hn. cbn in Hn. lia.
        -- unfold userActivities. cbn [fst snd]. apply in_or_app. right.
           apply Nat.ltb_lt in Hn. rewrite Hn. left. reflexivity.
      * right. exists (ip, List.filter (ofAddress ip) (scanned w)). split.
        -- apply groupBy_In. split; [reflexivity|].
           intros H. rewrite H in Hn. cbn in Hn. lia.
        -- unfold addressActivities. cbn [fst snd].
           apply Nat.ltb_lt in Hn. rewrite Hn. left. reflexivity.
  - intros [u g] r Hg Hr. apply groupBy_In in Hg. destruct Hg as [-> _].
    cbn [snd] in Hr. apply filter_In in Hr. destruct Hr as [Hr _]. exact (Haudit r Hr).
Qed.

(** Eleven failed logins of bob within the day are reported, with their
    number. *)
Lemma X21_eleven_failed_logins_witness :
  exists acts,
    detectSuspiciousActivity elevenLogins = (Ok acts, elevenLogins)
    /\ In (userFailedLogins "bob" 11) acts.
Proof.
  destruct (X21_scan_reports_exactly_the_crossed_thresholds elevenLogins)
    as (acts & Hrun & Hiff); [eexists; reflexivity | reflexivity |].
  exists acts. split; [exact Hrun|].
  apply Hiff. right. left. exists "bob". cbv zeta.
  split; [vm_compute; lia | vm_compute; reflexivity].
Defined.

End AuditExtra.

(** ** Further properties of the notification service *)

Module NotifyExtra.
Import Js JsMore Notify NotifySpec NotifyExamples NotifyMore NotifyProofs.

(** *** Reading and deleting *)

Lemma findIndex_last {A} (p : A -> bool) (xs : list A) (x : A) :
  (forall y, In y xs -> p y = false) -> p x = true ->
  findIndex p (xs ++ [x]) = Some (length xs).
Proof.
  intros Hxs Hx. induction xs as [|y xs IH]; cbn [app findIndex length].
  - rewrite Hx. reflexivity.
  - rewrite (Hxs y) by (left; reflexivity).
    rewrite IH by (intros z Hz; apply Hxs; right; exact Hz). reflexivity.
Qed.

Lemma findIndex_none {A} (p : A -> bool) (xs : list A) :
  (forall y, In y xs -> p y = false) -> findIndex p xs = None.
Proof.
  intros Hxs. induction xs as [|y xs IH]; [reflexivity|]. cbn [findIndex].
  rewrite (Hxs y) by (left; reflexivity).
  rewrite IH by (intros z Hz; apply Hxs; right; exact Hz). reflexivity.
Qed.

Lemma delete_last {A} (xs : list A) (x : A) : delete (length xs) (xs ++ [x]) = xs.
Proof. induction xs as [|y xs IH]; [reflexivity|]. cbn. f_equal. exact IH. Qed.

Lemma alter_last {A} (f : A -> A) (xs : list A) (x : A) :
  alter f (length xs) (xs ++ [x]) = xs ++ [f x].
Proof. induction xs as [|y xs IH]; [reflexivity|]. cbn. f_equal. exact IH. Qed.

Lemma hasId_notificationOf (s : Service) (type message : string) (details : Obj) :
  hasId (idAt s (drawn s)) (notificationOf s type message details) = true.
Proof.
  unfold hasId, notificationOf. cbn [getProp].
  destruct (decide ("id" = "id")) as [_|H]; [|contradiction].
  apply bool_decide_eq_true_2. reflexivity.
Qed.

(** X22.  A notification that has just been sent is deleted by its
    identifier, and the notifications are then those of before, when no
    notification of before has the identifier that the service makes
    for it.  An identifier that no notification has deletes nothing. *)
Theorem X22_delete_removes_the_notification_just_sent
    (type message : string) (details : Obj) (s : Service) :
  (forall m, In m (notifications s) -> hasId (idAt s (drawn s)) m = false) ->
  let n := notificationOf s type message details in
  exists s1 s2,
    sendNotification type message details s = (Ok n, s1)
    /\ deleteNotification (idAt s (drawn s)) s1 = (Ok true, s2)
    /\ notifications s2 = notifications s
    /\ deleteNotification (idAt s (drawn s)) s2 = (Ok false, s2).
Proof.
  intros Hfresh n.
  destruct (sendNotification_run type message details s) as (s1 & Hrun & Hn & _).
  fold n in Hrun, Hn.
  eexists s1, _. split; [exact Hrun|].
  unfold deleteNotification, getNotificationList, setNotifications, logger_info,
    logger_log, modify.
  unfold mbind, M_bind, mret, M_ret. rewrite Hn.
  rewrite (findIndex_last _ _ n Hfresh (hasId_notificationOf s type message details)).
  split; [reflexivity|]. cbn [notifications]. rewrite delete_last.
  split; [reflexivity|]. rewrite (findIndex_none _ _ Hfresh). reflexivity.
Qed.

Lemma sender_has_no_third_identifier (m : Obj) :
  In m (notifications sender) -> hasId (idAt sender (drawn sender)) m = false.
Proof. intros [<-|[<-|[]]]; reflexivity. Defined.

Lemma X22_third_notification_witness :
  exists s1 s2,
    sendNotification "SYSTEM_ALERT" "disk full" [] sender
    = (Ok (notificationOf sender "SYSTEM_ALERT" "disk full" []), s1)
    /\ deleteNotification (idAt sender (drawn sender)) s1 = (Ok true, s2)
    /\ notifications s2 = notifications sender.
Proof.
  destruct (X22_delete_removes_the_notification_just_sent "SYSTEM_ALERT" "disk full" []
              sender sender_has_no_third_identifier) as (s1 & s2 & Hsend & Hdel & Hn & _).
  exists s1, s2. auto.
Defined.

Lemma getProp_setProp (o : Obj) (k : string) (v : Json) : getProp (setProp o k v) k = Some v.
Proof.
  induction o as [|[k' v'] o IH]; cbn [setProp getProp].
  - destruct (decide (k = k)); [reflexivity | contradiction].
  - destruct (decide (k' = k)) as [->|Hne]; cbn [getProp].
    + destruct (decide (k = k)); [reflexivity | contradiction].
    + destruct (decide (k' = k)); [contradiction | exact IH].
Qed.

Lemma isUnread_marked (n : Obj) : isUnread (setProp n "read" (JBool true)) = false.
Proof. unfold isUnread. rewrite getProp_setProp. reflexivity. Qed.

(** X23.  [markAsRead] on the identifier of a notification that has
    just been sent marks that notification and changes no other, when
    no notification of before has the identifier; on an identifier
    that no notification has it returns false and changes nothing. *)
Theorem X23_markAsRead_marks_the_notification_just_sent
    (type message : string) (details : Obj) (s : Service) :
  (forall m, In m (notifications s) -> hasId (idAt s (drawn s)) m = false) ->
  let n := notificationOf s type message details in
  markAsRead (idAt s (drawn s)) s = (Ok false, s)
  /\ exists s1 s2,
       sendNotification type message details s = (Ok n, s1)
       /\ markAsRead (idAt s (drawn s)) s1 = (Ok true, s2)
       /\ notifications s2 = notifications s ++ [setProp n "read" (JBool true)]
       /\ unread s1 = S (unread s) /\ unread s2 = unread s.
Proof.
  intros Hfresh n. split.
  - unfold markAsRead, getNotificationList. unfold mbind, M_bind, mret, M_ret.
    rewrite (findIndex_none _ _ Hfresh). reflexivity.
  - destruct (sendNotification_run type message details s) as (s1 & Hrun & Hn & _).
    fold n in Hrun, Hn.
    eexists s1, _. split; [exact Hrun|].
    unfold markAsRead, getNotificationList, setNotifications, logger_info,
      logger_log, modify.
    unfold mbind, M_bind, mret, M_ret. rewrite Hn.
    rewrite (findIndex_last _ _ n Hfresh (hasId_notificationOf s type message details)).
    split; [reflexivity|]. unfold unread. cbn [notifications]. rewrite alter_last, Hn.
    split; [reflexivity|]. rewrite !List.filter_app, !length_app. cbn [List.filter].
    rewrite isUnread_marked.
    replace (isUnread n) with true by reflexivity. cbn [length]. lia.
Qed.

Lemma X23_third_notification_witness :
  exists s1 s2,
    sendNotification "SYSTEM_ALERT" "disk full" [] sender
    = (Ok (notificationOf sender "SYSTEM_ALERT" "disk full" []), s1)
    /\ markAsRead (idAt sender (drawn sender)) s1 = (Ok true, s2)
    /\ unread s1 = 3%nat /\ unread s2 = 2%nat.
Proof.
  destruct (X23_markAsRead_marks_the_notification_just_sent "SYSTEM_ALERT" "disk full" []
              sender sender_has_no_third_identifier)
    as (_ & s1 & s2 & Hsend & Hmark & _ & Hu1 & Hu2).
  exists s1, s2. split; [exact Hsend|]. split; [exact Hmark|].
  rewrite Hu1, Hu2. split; reflexivity.
Defined.

Lemma filter_all_false {A} (p : A -> bool) (xs : list A) :
  (forall x, In x xs -> p x = false) -> List.filter p xs = [].
Proof.
  intros H. induction xs as [|x xs IH]; [reflexivity|]. cbn [List.filter].
  rewrite (H x) by (left; reflexivity). apply IH. intros y Hy. apply H. right. exact Hy.
Qed.

(** X24.  [markAllAsRead] returns the number of the notifications that
    were not read and leaves none: a second call returns 0.  It changes
    the property [read] only, and neither the number nor the order of
    the notifications. *)
Theorem X24_markAllAsRead_leaves_nothing_unread (s : Service) :
  exists s' s'',
    markAllAsRead s = (Ok (unread s), s')
    /\ unread s' = 0%nat
    /\ markAllAsRead s' = (Ok 0%nat, s'')
    /\ notifications s'' = notifications s'
    /\ length (notifications s') = length (notifications s)
    /\ (forall k, k <> "read" ->
          map (fun n => getProp n k) (notifications s')
          = map (fun n => getProp n k) (notifications s)).
Proof.
  unfold markAllAsRead, getNotificationList, setNotifications, logger_info, logger_log, modify.
  unfold mbind, M_bind, mret, M_ret. cbn [notifications].
  assert (Hnone : forall ns : list Obj,
            List.filter isUnread (map (fun n => setProp n "read" (JBool true)) ns) = []).
  { intros ns. apply filter_all_false. intros x Hx. apply in_map_iff in Hx.
    destruct Hx as (n & <- & _). apply isUnread_marked. }
  assert (Hsame : forall ns : list Obj,
            map (fun n => setProp n "read" (JBool true))
                (map (fun n => setProp n "read" (JBool true)) ns)
            = map (fun n => setProp n "read" (JBool true)) ns).
  { intros ns. rewrite map_map. apply map_ext. intros n.
    induction n as [|[k v] n IH]; cbn [setProp].
    - destruct (decide ("read" = "read")); [reflexivity | contradiction].
    - destruct (decide (k = "read")) as [->|Hne]; cbn [setProp].
      + destruct (decide ("read" = "read")); [reflexivity | contradiction].
      + destruct (decide (k = "read")); [contradiction|]. rewrite IH. reflexivity. }
  eexists _, _. split; [reflexivity|]. unfold unread. cbn [notifications].
  rewrite Hnone. split; [reflexivity|]. split; [reflexivity|].
  cbn [notifications]. split; [apply Hsame|]. split; [apply length_map|].
  intros k Hk. rewrite map_map. apply map_ext. intros n.
  apply getProp_setProp_ne. congruence.
Qed.

(** *** Subscribers *)

Lemma indexOf_last (l : list Handler) (h : Handler) :
  indexOf l h = None -> indexOf (l ++ [h]) h = Some (length l).
Proof.
  induction l as [|c l IH]; cbn [app indexOf length].
  - intros _. destruct (decide (hid h = hid h)); [reflexivity | contradiction].
  - destruct (decide (hid c = hid h)); [discriminate|].
    destruct (indexOf l h) eqn:Hl; [discriminate|]. intros _. rewrite IH; reflexivity.
Qed.

(** X25.  Unsubscribing a subscriber that has just been subscribed,
    and was not before, restores the delivery: every notification goes
    to the subscribers of before, in their order.  Unsubscribing it
    once more changes nothing. *)
Theorem X25_unsubscribe_undoes_subscribe (eventType : string) (h : Handler) (s : Service) :
  indexOf (default [] (subscribers s !! eventType)) h = None ->
  exists s1 s2,
    subscribe eventType h s = (Ok tt, s1)
    /\ unsubscribe eventType h s1 = (Ok tt, s2)
    /\ (forall n, handlersFor s2 n = handlersFor s n)
    /\ unsubscribe eventType h s2 = (Ok tt, s2).
Proof.
  intros Hnew.
  destruct (subscribe_run eventType h s) as (s1 & Hrun & Hat & Helse & _).
  set (old := default [] (subscribers s !! eventType)) in *.
  set (s2 := snd (logger_info ("Subscriber removido para evento: " +:+ eventType)
                    (snd (setSubscribers (<[eventType := old]> (subscribers s1)) s1)))).
  assert (Hun : unsubscribe eventType h s1 = (Ok tt, s2)).
  { unfold unsubscribe, getSubscribers. unfold mbind at 1. unfold M_bind at 1.
    rewrite Hat, (indexOf_last old h Hnew), delete_last. reflexivity. }
  assert (Hsubs : subscribers s2 = <[eventType := old]> (subscribers s1)) by reflexivity.
  exists s1, s2. split; [exact Hrun|]. split; [exact Hun|].
  assert (Hback : forall t, default [] (subscribers s2 !! t) = default [] (subscribers s !! t)).
  { intros t. rewrite Hsubs. destruct (decide (t = eventType)) as [->|Hne].
    - rewrite lookup_insert_eq. reflexivity.
    - rewrite lookup_insert_ne by congruence. rewrite (Helse t Hne). reflexivity. }
  split.
  - intros n. unfold handlersFor. rewrite (Hback "*").
    destruct (typeOf n) as [t|]; cbn [mbind option_bind]; [rewrite (Hback t)|]; reflexivity.
  - unfold unsubscribe, getSubscribers. unfold mbind at 1. unfold M_bind at 1.
    rewrite Hsubs, lookup_insert_eq, Hnew. reflexivity.
Qed.

Lemma X25_third_subscriber_witness :
  exists s1 s2,
    subscribe "X" other subscribed = (Ok tt, s1)
    /\ unsubscribe "X" other s1 = (Ok tt, s2)
    /\ (forall n, handlersFor s2 n = handlersFor subscribed n)
    /\ unsubscribe "X" other s2 = (Ok tt, s2).
Proof. apply (X25_unsubscribe_undoes_subscribe "X" other subscribed). reflexivity. Defined.

(** *** Alerts *)

Lemma sendNotification_total (type message : string) (details : Obj) (s : Service) :
  exists s', sendNotification type message details s
             = (Ok (notificationOf s type message details), s').
Proof.
  destruct (sendNotification_run type message details s) as (s' & Hrun & _). eauto.
Qed.

(** X26.  Each of the four senders of alerts sends a notification of
    its own type whose details carry its own category and the severity
    of the table for the alert type, whatever category and severity
    the details given hold; the other details are those given.  The
    severity is high, medium or info, and info for an alert type that
    the table does not have. *)
Theorem X26_alert_category_and_severity_are_set_by_the_sender
    (alertType message : string) (details : Obj) (s : Service) :
  ordinaryName alertType = true ->
  Forall (fun '(send, category, type) =>
            exists d s',
              send alertType message details s = (Ok (notificationOf s type message d), s')
              /\ getProp d "category" = Some (JStr category)
              /\ getProp d "severity" = Some (JStr (getAlertSeverity alertType))
              /\ (forall k, k <> "category" -> k <> "severity" ->
                    getProp d k = getProp details k))
         alertSenders
  /\ In (getAlertSeverity alertType) ["high"; "medium"; "info"]
  /\ (~ In alertType (map fst severityMap) -> getAlertSeverity alertType = "info").
Proof.
  intros _.
  assert (Hdetails : forall category,
            getProp (alertDetails details category alertType) "category" = Some (JStr category)
            /\ getProp (alertDetails details category alertType) "severity"
               = Some (JStr (getAlertSeverity alertType))
            /\ (forall k, k <> "category" -> k <> "severity" ->
                  getProp (alertDetails details category alertType) k = getProp details k)).
  { intros category. unfold alertDetails. split; [|split].
    - rewrite getProp_setProp_ne by discriminate. apply getProp_setProp.
    - apply getProp_setProp.
    - intros k Hc Hs. rewrite !getProp_setProp_ne by congruence. reflexivity. }
  split; [|split].
  - unfold alertSenders.
    repeat (apply Forall_cons; split;
      [ match goal with
        | |- exists d s', ?send _ _ _ _ = (Ok (notificationOf _ ?type _ d), s') /\ _ =>
            unfold send;
            match goal with
            | |- context [alertDetails details ?category alertType] =>
                destruct (sendNotification_total type message
                            (alertDetails details category alertType) s) as (s' & Hrun);
                exists (alertDetails details category alertType), s';
                split; [exact Hrun | apply Hdetails]
            end
        end
      | ]).
    apply Forall_nil. exact I.
  - unfold getAlertSeverity.
    destruct (List.find _ severityMap) as [[k v]|] eqn:Hfind; cbn [fmap option_fmap option_map default snd].
    + apply find_some in Hfind. destruct Hfind as [Hin _]. unfold id.
      cbn in Hin. intuition (match goal with H : (_, _) = (_, _) |- _ => injection H as <- <- end; cbn; auto).
    + cbn. auto.
  - intros Hout. unfold getAlertSeverity.
    destruct (List.find _ severityMap) as [[k v]|] eqn:Hfind; [|reflexivity].
    apply find_some in Hfind. destruct Hfind as [Hin Hk]. cbn [fst] in Hk.
    apply bool_decide_eq_true in Hk. subst k. exfalso. apply Hout.
    apply (in_map fst) in Hin. exact Hin.
Qed.

Lemma X26_slow_query_witness :
  In (getAlertSeverity "SLOW_QUERY") ["high"; "medium"; "info"]
  /\ exists d s',
       sendPerformanceAlert "SLOW_QUERY" "query took 12 s" [("category", JStr "mine")] fresh
       = (Ok (notificationOf fresh "PERFORMANCE_ALERT" "query took 12 s" d), s')
       /\ getProp d "category" = Some (JStr "performance").
Proof.
  destruct (X26_alert_category_and_severity_are_set_by_the_sender "SLOW_QUERY"
              "query took 12 s" [("category", JStr "mine")] fresh eq_refl)
    as (Hall & Hin & _).
  split; [exact Hin|].
  unfold alertSenders in Hall. rewrite !Forall_cons in Hall.
  destruct Hall as (_ & _ & (d & s' & Hrun & Hcat & _) & _).
  exists d, s'. split; [exact Hrun | exact Hcat].
Defined.

(** *** Import and export *)

Lemma foldM_app {A B} (f : A -> B -> M A) (a : A) (xs ys : list B) (s : Service) :
  foldM f a (xs ++ ys) s
  = match foldM f a xs s with
    | (Ok a', s') => foldM f a' ys s'
    | (Throw e, s') => (Throw e, s')
    end.
Proof.
  revert a s. induction xs as [|x xs IH]; intros a s; [reflexivity|].
  cbn [app foldM]. unfold mbind, M_bind.
  destruct (f a x s) as [[a'|e] s']; [apply IH | reflexivity].
Qed.

(** X27.  An import is not undone when it fails: on a document whose
    elements are objects up to an element null, [importNotifications]
    throws at that element, and the notifications that it added for
    the objects before it stay in the service.  The error is logged
    and thrown again. *)
Theorem X27_failed_import_keeps_what_it_added
    (JSON_parse : string -> Result Json) (data : string)
    (ns : list Obj) (rest : list Json) (s : Service) :
  JSON_parse data = Ok (JArr ((JObj <$> ns) ++ JNull :: rest)) ->
  exists s',
    importNotifications JSON_parse data "json" s = (Throw TypeError, s')
    /\ notifications s'
       = notifications s ++ imported s (drawn s) (List.filter isValid ns)
    /\ exists msgs, logged s' = msgs ++ [importFailed].
Proof.
  intros Hparse. unfold importNotifications, try_catch.
  destruct (decide ("json" = "json")) as [_|Hne]; [|contradiction].
  unfold mbind at 1. unfold M_bind at 1. unfold liftR at 1. rewrite Hparse.
  unfold mbind at 1. unfold M_bind at 1. rewrite foldM_app.
  destruct (importAll_run 0 ns s) as (s1 & Hrun & Hn). rewrite Hrun.
  cbn [foldM]. unfold mbind at 1. unfold M_bind at 1.
  unfold importOne at 1. unfold mbind at 1. unfold M_bind at 1.
  unfold validateNotification, checkFields. unfold mbind at 1. unfold M_bind at 1.
  unfold liftR at 1. cbn [propOf].
  unfold logger_error, logger_log, modify, throw. unfold mbind, M_bind.
  eexists. split; [reflexivity|]. cbn [notifications logged].
  split; [exact Hn|]. eexists. reflexivity.
Qed.

Lemma X27_broken_document_witness :
  exists s',
    importNotifications JsonText.parse (JsonText.stringify brokenDocument) "json" fresh
    = (Throw TypeError, s')
    /\ length (notifications s') = 1%nat.
Proof.
  destruct (X27_failed_import_keeps_what_it_added JsonText.parse
              (JsonText.stringify brokenDocument) [plainNote] [] fresh)
    as (s' & Hrun & Hn & _); [vm_compute; reflexivity|].
  exists s'. split; [exact Hrun|]. rewrite Hn. reflexivity.
Defined.

Lemma mapR_throws {A B} (f : A -> Result B) (xs : list A) (x : A) (E : Error) :
  (forall y e, f y = Throw e -> e = E) ->
  In x xs -> f x = Throw E -> mapR f xs = Throw E.
Proof.
  intros Hf Hin Hx. induction xs as [|y xs IH]; [destruct Hin|].
  cbn [mapR]. destruct (f y) as [b|e] eqn:Hy; cbn [rbind].
  - destruct Hin as [->|Hin]; [rewrite Hx in Hy; discriminate Hy|].
    rewrite (IH Hin). reflexivity.
  - rewrite (Hf y e Hy). reflexivity.
Qed.

Lemma detail_error (details : option Json) (p : string) (e : Error) :
  detail details p = Throw e -> e = TypeError.
Proof.
  destruct details as [[]|]; cbn [detail]; try discriminate;
    intros H; injection H as <-; reflexivity.
Qed.

Lemma csvRow_error (n : Obj) (e : Error) : csvRow n = Throw e -> e = TypeError.
Proof.
  unfold csvRow.
  destruct (getProp n "message") as [[]|]; cbn [rbind];
    try (intros H; injection H as <-; reflexivity).
  destruct (detail (getProp n "details") "category") eqn:Hc; cbn [rbind];
    [|intros H; injection H as <-; exact (detail_error _ _ _ Hc)].
  destruct (detail (getProp n "details") "severity") eqn:Hs; cbn [rbind];
    [discriminate|intros H; injection H as <-; exact (detail_error _ _ _ Hs)].
Qed.

Lemma csvRow_without_details (n : Obj) :
  getProp n "details" = None -> csvRow n = Throw TypeError.
Proof.
  intros Hd. unfold csvRow. rewrite Hd.
  destruct (getProp n "message") as [[]|]; reflexivity.
Qed.

(** X28.  A notification imported from a document in which it has no
    details makes the export to CSV fail: the import accepts it, the
    export to JSON still works, and the export to CSV throws where it
    reads the category of the details. *)
Theorem X28_csv_export_fails_after_import_without_details
    (JSON_stringify : Json -> string) (JSON_parse : string -> Result Json)
    (data : string) (o : Obj) (s : Service) :
  JSON_parse data = Ok (JArr [JObj o]) ->
  isValid o = true ->
  getProp o "details" = None ->
  exists s',
    importNotifications JSON_parse data "json" s = (Ok 1%nat, s')
    /\ exportNotifications JSON_stringify "csv" s' = (Throw TypeError, s')
    /\ exportNotifications JSON_stringify "json" s'
       = (Ok (JSON_stringify (exported s')), s').
Proof.
  intros Hparse Hvalid Hdetails. unfold importNotifications, try_catch.
  destruct (decide ("json" = "json")) as [_|Hne]; [|contradiction].
  unfold mbind at 1. unfold M_bind at 1. unfold liftR at 1. rewrite Hparse.
  unfold mbind at 1. unfold M_bind at 1.
  destruct (importAll_run 0 [o] s) as (s1 & Hrun & Hn).
  change (JObj <$> [o]) with [JObj o] in Hrun. rewrite Hrun.
  cbn [List.filter] in *. rewrite Hvalid in *. cbn [length imported Nat.add] in *.
  unfold logger_info, logger_log, modify. unfold mbind, M_bind, mret, M_ret.
  eexists. split; [reflexivity|].
  unfold exportNotifications. cbn [notifications]. rewrite Hn.
  destruct (decide ("csv" = "json")) as [H|_]; [discriminate H|].
  destruct (decide ("csv" = "csv")) as [_|H]; [|contradiction].
  destruct (decide ("json" = "json")) as [_|H]; [|contradiction].
  split; [|reflexivity]. f_equal. unfold exportToCSV.
  rewrite length_app. cbn [length].
  replace (length (Notify.notifications s) + 1 =? 0)%nat with false
    by (symmetry; apply Nat.eqb_neq; lia).
  rewrite (mapR_throws csvRow _ (setProp o "id" (JStr (idAt s (drawn s)))) TypeError
             csvRow_error).
  - reflexivity.
  - apply in_or_app. right. left. reflexivity.
  - apply csvRow_without_details. rewrite getProp_setProp_ne by discriminate. exact Hdetails.
Qed.

Lemma X28_plain_note_witness :
  exists s',
    importNotifications JsonText.parse (JsonText.stringify (JArr [JObj plainNote])) "json" fresh
    = (Ok 1%nat, s')
    /\ exportNotifications JsonText.stringify "csv" s' = (Throw TypeError, s').
Proof.
  destruct (X28_csv_export_fails_after_import_without_details JsonText.stringify
              JsonText.parse (JsonText.stringify (JArr [JObj plainNote])) plainNote fresh)
    as (s' & Hrun & Hcsv & _); [vm_compute; reflexivity | reflexivity | reflexivity |].
  exists s'. split; [exact Hrun | exact Hcsv].
Defined.

(** *** Sending *)

Lemma deliver_log (n : Obj) (msg : string) (hs : list Handler) (s : Service) :
  notificationLog
    (snd (forEach hs (fun callback =>
            try_catch (call callback n) (fun error => logger_error msg)) s))
  = notificationLog s.
Proof.
  revert s. induction hs as [|h hs IH]; intros s; [reflexivity|].
  cbn [forEach]. unfold mbind, M_bind. unfold try_catch at 1. unfold call at 1.
  destruct (fails h n).
  - unfold logger_error at 1. unfold logger_log at 1. unfold modify at 1.
    rewrite IH. reflexivity.
  - rewrite IH. reflexivity.
Qed.

Lemma deliver_ok (n : Obj) (msg : string) (hs : list Handler) (s : Service) :
  fst (forEach hs (fun callback =>
         try_catch (call callback n) (fun error => logger_error msg)) s) = Ok tt.
Proof.
  destruct (deliver_run n msg hs s) as (s' & Hrun & _). rewrite Hrun. reflexivity.
Qed.

Lemma notifySubscribers_log (n : Obj) (s : Service) :
  notificationLog (snd (notifySubscribers n s)) = notificationLog s.
Proof.
  unfold notifySubscribers. unfold mbind at 1. unfold M_bind at 1.
  unfold getSubscribers at 1. unfold mbind at 1. unfold M_bind at 1.
  set (first := match typeOf n ≫= (subscribers s !!.) with
                | Some callbacks => _
                | None => mret tt
                end).
  assert (Hfirst : fst (first s) = Ok tt /\ notificationLog (snd (first s)) = notificationLog s).
  { subst first. destruct (typeOf n ≫= (subscribers s !!.)) as [hs|].
    - split; [apply deliver_ok | apply deliver_log].
    - split; reflexivity. }
  destruct (first s) as [[[]|e] s1]; cbn [fst snd] in Hfirst;
    destruct Hfirst as [Hok Hlog]; [|discriminate Hok].
  unfold mbind, M_bind, getSubscribers.
  destruct (subscribers s1 !! "*") as [hs|].
  - rewrite deliver_log. exact Hlog.
  - exact Hlog.
Qed.

(** X29.  [sendNotification] never throws, and a log of notifications
    that cannot be written does not keep a notification back: the
    notification is stored and delivered as on a log that can, the log
    stays as it is, and the failure is reported to the logger before
    the failures of the subscribers. *)
Theorem X29_unwritable_log_does_not_keep_a_notification_back
    (type message : string) (details : Obj) (s : Service) :
  let n := notificationOf s type message details in
  exists s',
    sendNotification type message details s = (Ok n, s')
    /\ notifications s' = notifications s ++ [n]
    /\ callsSince s s' = map (fun h => (hid h, n)) (handlersFor s n)
    /\ (logWritable s = false ->
        notificationLog s' = notificationLog s
        /\ logged s'
           = logged s
             ++ [{| level := LError; text := "Erro ao registrar notificação no log:" |}]
             ++ failuresFor s n
             ++ [{| level := LInfo; text := "Notificação enviada: " +:+ type |}])
    /\ (logWritable s = true ->
        length (notificationLog s') = S (length (notificationLog s))
        /\ logged s'
           = logged s ++ failuresFor s n
             ++ [{| level := LInfo; text := "Notificação enviada: " +:+ type |}]).
Proof.
  intros n. unfold sendNotification.
  unfold mbind at 1. unfold M_bind at 1. unfold generateNotificationId at 1.
  unfold mbind at 1. unfold M_bind at 1. unfold Date_now at 1.
  cbn [clock randoms drawn]. fold (idAt s (drawn s)). fold (notificationOf s type message details).
  fold n. unfold try_catch.
  unfold mbind at 1. unfold M_bind at 1. unfold pushNotification at 1. unfold modify at 1.
  unfold mbind at 1. unfold M_bind at 1.
  unfold logNotification at 1. unfold try_catch at 1. unfold appendFileSync at 1.
  cbn [logWritable].
  destruct (logWritable s).
  - unfold mbind at 1. unfold M_bind at 1.
    match goal with
    | |- context [notifySubscribers n ?s1] =>
        destruct (notifySubscribers_run n s1) as (s2 & Hrun & Hc & Hl & _ & Hn);
        pose proof (notifySubscribers_log n s1) as Hlog;
        pose proof (eq_refl : handlersFor s1 n = handlersFor s n) as Hh;
        pose proof (eq_refl : failuresFor s1 n = failuresFor s n) as Hf
    end.
    rewrite Hrun in Hlog |- *.
    unfold mbind, M_bind, logger_info, logger_log, modify, mret, M_ret.
    eexists. split; [reflexivity|]. unfold callsSince.
    cbn [notifications calls logged notificationLog snd] in *.
    rewrite Hn, Hc, Hl, Hh, Hf, Hlog. split; [reflexivity|].
    split; [apply drop_app_length|]. split; [discriminate|]. intros _.
    split; [rewrite length_app; cbn; lia|]. rewrite <- app_assoc. reflexivity.
  - unfold logger_error at 1. unfold logger_log at 1. unfold modify at 1.
    unfold mbind at 1. unfold M_bind at 1.
    match goal with
    | |- context [notifySubscribers n ?s1] =>
        destruct (notifySubscribers_run n s1) as (s2 & Hrun & Hc & Hl & _ & Hn);
        pose proof (notifySubscribers_log n s1) as Hlog;
        pose proof (eq_refl : handlersFor s1 n = handlersFor s n) as Hh;
        pose proof (eq_refl : failuresFor s1 n = failuresFor s n) as Hf
    end.
    rewrite Hrun in Hlog |- *.
    unfold mbind, M_bind, logger_info, logger_log, modify, mret, M_ret.
    eexists. split; [reflexivity|]. unfold callsSince.
    cbn [notifications calls logged notificationLog snd] in *.
    rewrite Hn, Hc, Hl, Hh, Hf, Hlog. split; [reflexivity|].
    split; [apply drop_app_length|]. split; [|discriminate]. intros _.
    split; [reflexivity|]. rewrite <- !app_assoc. reflexivity.
Qed.

(** *** Slow queries *)

Lemma countQuotes_substring (n m : nat) (s : string) :
  (countQuotes (String.substring n m s) <= countQuotes s)%nat.
Proof.
  revert n m. induction s as [|c s IH]; intros n m.
  - destruct n, m; cbn; lia.
  - destruct n as [|n].
    + destruct m as [|m]; cbn [String.substring countQuotes]; [lia|].
      specialize (IH 0%nat m). lia.
    + cbn [String.substring countQuotes]. specialize (IH n m). lia.
Qed.

Lemma untilQuote_quote (s : string) (n : nat) :
  Audit.untilQuote s = Some n -> (1 <= countQuotes s)%nat.
Proof.
  revert n. induction s as [|c s IH]; intros n; [discriminate|].
  cbn [Audit.untilQuote countQuotes]. destruct (Audit.isQuote c); [lia|].
  destruct (Audit.untilQuote s) as [m|]; [|discriminate]. specialize (IH m eq_refl). lia.
Qed.

Lemma matchPassword_quotes (s : string) (n : nat) :
  Audit.matchPassword s = Some n -> (2 <= countQuotes s)%nat.
Proof.
  unfold Audit.matchPassword. destruct (String.prefix "PASSWORD" (toUpperCase s)); [|discriminate].
  cbv zeta. destruct (_ =? 0)%nat; [discriminate|].
  destruct (dropString _ (dropString 8 s)) as [|q rest] eqn:Hdrop; [discriminate|].
  destruct (Audit.isQuote q) eqn:Hq; [|discriminate].
  destruct (Audit.untilQuote rest) as [m|] eqn:Hrest; [|discriminate]. intros _.
  pose proof (untilQuote_quote rest m Hrest) as Hone.
  assert (Hsuffix : (countQuotes (String q rest) <= countQuotes s)%nat).
  { rewrite <- Hdrop. unfold dropString.
    etransitivity; [apply countQuotes_substring|]. apply countQuotes_substring. }
  cbn [countQuotes] in Hsuffix. rewrite Hq in Hsuffix. lia.
Qed.

Lemma replacePasswords_few_quotes (s : string) :
  (countQuotes s < 2)%nat -> Audit.replacePasswords 0 s = s.
Proof.
  induction s as [|c s IH]; [reflexivity|]. intros Hfew.
  cbn [Audit.replacePasswords].
  destruct (Audit.matchPassword (String c s)) as [n|] eqn:Hmatch.
  - apply matchPassword_quotes in Hmatch. lia.
  - rewrite IH; [reflexivity|]. cbn [countQuotes] in Hfew. lia.
Qed.

(** X30.  The alert of a slow query cuts the query before it masks
    the passwords: when the first 200 characters of a query of ASCII
    characters hold fewer than two quotes, they are stored in the
    notification as they are, with what they hold of a password literal
    that is closed after them. *)
Theorem X30_slow_query_alert_keeps_an_unclosed_password
    (query : string) (executionTime threshold : Z) (s : Service) :
  query <> "" -> isAscii query = true ->
  (countQuotes (String.substring 0 200 query) < 2)%nat ->
  sanitizeQuery (Some query) = String.substring 0 200 query
  /\ exists message d s',
       alertSlowQuery (Some query) executionTime threshold s
       = (Ok (notificationOf s "PERFORMANCE_ALERT" message d), s')
       /\ getProp d "query" = Some (JStr (String.substring 0 200 query))
       /\ In (notificationOf s "PERFORMANCE_ALERT" message d) (notifications s').
Proof.
  intros Hne _ Hfew.
  assert (Hsan : sanitizeQuery (Some query) = String.substring 0 200 query).
  { unfold sanitizeQuery, truthyStr. destruct (decide (query = "")); [contradiction|].
    cbn [default]. unfold id. apply replacePasswords_few_quotes. exact Hfew. }
  split; [exact Hsan|].
  unfold alertSlowQuery. cbv zeta. unfold mbind, M_bind, Date_now.
  unfold sendPerformanceAlert. rewrite Hsan.
  match goal with
  | |- context [sendNotification ?type ?message ?details s] =>
      destruct (sendNotification_run type message details s) as (s' & Hrun & Hn & _);
      exists message, details, s'
  end.
  split; [exact Hrun|]. split.
  - unfold alertDetails. rewrite !getProp_setProp_ne by discriminate. reflexivity.
  - rewrite Hn. apply in_or_app. right. left. reflexivity.
Qed.

Lemma X30_long_statement_witness :
  sanitizeQuery (Some longStatement) = String.substring 0 200 longStatement
  /\ Audit.sanitizeQuery (Some longStatement) = "ALTER USER bob PASSWORD '***'".
Proof.
  split; [|vm_compute; reflexivity].
  apply (X30_slow_query_alert_keeps_an_unclosed_password longStatement 1200 1000 fresh);
    [discriminate | reflexivity | vm_compute; lia].
Defined.

End NotifyExtra.
